(** * The durable execution core of dbos/core.py

    A shallow embedding of the workflow, transaction and step engines of
    [src/dbos/core.py], and the properties of them that the design document
    states.

    Layout of the development:
    - Python values, exceptions and the persisted record types;
    - the collaborators of the core (system database, application database,
      context module, serializer, logger, clock, user functions), which are
      not part of core.py: they are the fields of an interface record, and
      every call to one of them is logged in a trace;
    - a state-and-exception monad in which the functions of core.py are
      written, statement by statement;
    - the theorems, one section per engine. *)

From Stdlib Require Import ZArith List String Bool Lia Floats.
From stdpp Require Import base option gmap strings pretty.
Import ListNotations.

Local Open Scope string_scope.
Local Open Scope Z_scope.
Local Open Scope list_scope.

Set Warnings "-inexact-float".

(** ** Python values and exceptions *)

(** The exception classes core.py names, a class for what user code raises,
    and one class that derives from BaseException only: [except Exception]
    does not catch it. *)
Inductive exn : Type :=
| Exception (msg : string)
| AssertionError (msg : string)
| TypeError (msg : string)
| ValueError (msg : string)
| OverflowError (msg : string)
| KeyboardInterrupt
| DBAPIError (sqlstate : string)
| DBOSException (msg : string)
| DBOSMaxStepRetriesExceeded
| DBOSNonExistentWorkflowError (wfid : string)
| DBOSRecoveryError (wfid msg : string)
| DBOSWorkflowConflictIDError (wfid : string)
| DBOSWorkflowFunctionNotFoundError (wfid msg : string)
| UserError (what : string).

(** [isinstance(e, Exception)] *)
Definition is_Exception (e : exn) : bool :=
  match e with
  | KeyboardInterrupt => false
  | _ => true
  end.

(** [isinstance(e, DBOSWorkflowConflictIDError)] *)
Definition is_DBOSWorkflowConflictIDError (e : exn) : bool :=
  match e with
  | DBOSWorkflowConflictIDError _ => true
  | _ => false
  end.

(** [isinstance(e, DBAPIError)], with [e.orig.sqlstate] *)
Definition dbapi_sqlstate (e : exn) : option string :=
  match e with
  | DBAPIError s => Some s
  | _ => None
  end.

Inductive pyobj : Type :=
| PyNone
| PyBool (b : bool)
| PyInt (z : Z)
| PyStr (s : string)
| PyExc (e : exn)
| PyRef (addr : positive).

Definition args_t : Type := list pyobj.
Definition kwargs_t : Type := list (string * pyobj).

(** [str(n)] for an int *)
Definition py_str_int (n : Z) : string := pretty n.

(** [str(x)] for an optional string, as an f-string renders it *)
Definition py_str_opt (x : option string) : string :=
  match x with
  | Some s => s
  | None => "None"
  end.

(** [x == s] for an optional string [x] and a string [s] *)
Definition py_opt_str_eqb (x : option string) (s : string) : bool :=
  match x with
  | Some t => String.eqb t s
  | None => false
  end.

(** Truth value of an optional string: None and the empty string are false. *)
Definition py_truthy_str (x : option string) : bool :=
  match x with
  | Some s => negb (String.eqb s "")
  | None => false
  end.

(** [min(a, b)] on floats: the first argument unless the second is smaller. *)
Definition py_min (a b : float) : float :=
  if PrimFloat.ltb b a then b else a.

(** [range(lo, hi)] *)
Definition py_range (lo hi : Z) : list Z :=
  map (fun i => lo + Z.of_nat i) (seq 0 (Z.to_nat (hi - lo))).

(** ** Outcomes *)

Inductive result (A : Type) : Type :=
| Ok (a : A)
| Raise (e : exn).
Arguments Ok {A} a.
Arguments Raise {A} e.

(** The [raise x] statement: x has to be an exception object. *)
Definition py_raise {A : Type} (x : pyobj) : result A :=
  match x with
  | PyExc e => Raise e
  | _ => Raise (TypeError "exceptions must derive from BaseException")
  end.

(** ** Persisted records (the TypedDicts of the two database modules) *)

Record WorkflowStatusInternal : Type := mkStatus {
  ws_workflow_uuid : string;
  ws_status : string;
  ws_name : string;
  ws_class_name : option string;
  ws_config_name : option string;
  ws_output : option string;
  ws_error : option string;
  ws_app_id : string;
  ws_app_version : string;
  ws_executor_id : string;
  ws_request : option string;
  ws_recovery_attempts : option Z;
  ws_authenticated_user : option string;
  ws_authenticated_roles : option string;
  ws_assumed_role : option string
}.

Definition set_ws_status (s : string) (st : WorkflowStatusInternal) :=
  mkStatus (ws_workflow_uuid st) s (ws_name st) (ws_class_name st)
    (ws_config_name st) (ws_output st) (ws_error st) (ws_app_id st)
    (ws_app_version st) (ws_executor_id st) (ws_request st)
    (ws_recovery_attempts st) (ws_authenticated_user st)
    (ws_authenticated_roles st) (ws_assumed_role st).

Definition set_ws_output (o : option string) (st : WorkflowStatusInternal) :=
  mkStatus (ws_workflow_uuid st) (ws_status st) (ws_name st) (ws_class_name st)
    (ws_config_name st) o (ws_error st) (ws_app_id st)
    (ws_app_version st) (ws_executor_id st) (ws_request st)
    (ws_recovery_attempts st) (ws_authenticated_user st)
    (ws_authenticated_roles st) (ws_assumed_role st).

Definition set_ws_error (e : option string) (st : WorkflowStatusInternal) :=
  mkStatus (ws_workflow_uuid st) (ws_status st) (ws_name st) (ws_class_name st)
    (ws_config_name st) (ws_output st) e (ws_app_id st)
    (ws_app_version st) (ws_executor_id st) (ws_request st)
    (ws_recovery_attempts st) (ws_authenticated_user st)
    (ws_authenticated_roles st) (ws_assumed_role st).

Record WorkflowInputs : Type := mkInputs {
  wi_args : args_t;
  wi_kwargs : kwargs_t
}.

(** What an OAOO lookup returns: the output and error columns of the row. *)
Record RecordedResult : Type := mkRecorded {
  rr_output : option string;
  rr_error : option string
}.

Record OperationResultInternal : Type := mkOpResult {
  op_workflow_uuid : string;
  op_function_id : Z;
  op_output : option string;
  op_error : option string
}.

Record TransactionResultInternal : Type := mkTxResult {
  tx_workflow_uuid : string;
  tx_function_id : Z;
  tx_output : option string;
  tx_error : option string;
  tx_txn_snapshot : string;
  tx_executor_id : option string;
  tx_txn_id : option string
}.

Record GetEventWorkflowContext : Type := mkGetEventCtx {
  ge_workflow_uuid : string;
  ge_function_id : Z;
  ge_timeout_function_id : Z
}.

(** ** The context object

    The attributes of [DBOSContext] that core.py reads or assigns.
    [ctx_private] stands for the attributes that belong to the context module
    alone (its span stack, the operation it is in); core.py never touches
    them, the predicates of the context module may read them. *)
Record DBOSContext : Type := mkCtx {
  workflow_id : string;
  function_id : Z;
  curr_step_function_id : Z;
  id_assigned_for_next_workflow : string;
  parent_workflow_id : string;
  in_recovery : bool;
  app_id : string;
  app_version : string;
  executor_id : string;
  request : option pyobj;
  authenticated_user : option string;
  authenticated_roles : option (list string);
  assumed_role : option string;
  sql_session : option positive;
  ctx_private : list (string * pyobj)
}.

Definition set_function_id (n : Z) (c : DBOSContext) : DBOSContext :=
  mkCtx (workflow_id c) n (curr_step_function_id c)
    (id_assigned_for_next_workflow c) (parent_workflow_id c) (in_recovery c)
    (app_id c) (app_version c) (executor_id c) (request c)
    (authenticated_user c) (authenticated_roles c) (assumed_role c)
    (sql_session c) (ctx_private c).

Definition set_id_assigned_for_next_workflow (s : string) (c : DBOSContext)
  : DBOSContext :=
  mkCtx (workflow_id c) (function_id c) (curr_step_function_id c)
    s (parent_workflow_id c) (in_recovery c)
    (app_id c) (app_version c) (executor_id c) (request c)
    (authenticated_user c) (authenticated_roles c) (assumed_role c)
    (sql_session c) (ctx_private c).

Definition set_request (r : option pyobj) (c : DBOSContext) : DBOSContext :=
  mkCtx (workflow_id c) (function_id c) (curr_step_function_id c)
    (id_assigned_for_next_workflow c) (parent_workflow_id c) (in_recovery c)
    (app_id c) (app_version c) (executor_id c) r
    (authenticated_user c) (authenticated_roles c) (assumed_role c)
    (sql_session c) (ctx_private c).

(** ** Handles *)

Inductive WorkflowHandle : Type :=
| WorkflowHandleFuture (wfid : string) (future : positive)
| WorkflowHandlePolling (wfid : string).

Definition get_workflow_id (h : WorkflowHandle) : string :=
  match h with
  | WorkflowHandleFuture wfid _ => wfid
  | WorkflowHandlePolling wfid => wfid
  end.

(** ** The trace: every call core.py makes to a collaborator, in order *)

Inductive event : Type :=
| EvCall (fname : string) (args : args_t) (kwargs : kwargs_t)
| EvCheckOperationExecution (wfid : string) (fid : Z)
| EvRecordOperationResult (r : OperationResultInternal)
| EvUpdateWorkflowStatus (st : WorkflowStatusInternal)
    (replace in_recov : option bool)
| EvBufferWorkflowStatus (st : WorkflowStatusInternal)
| EvUpdateWorkflowInputs (wfid inputs : string)
| EvBufferWorkflowInputs (wfid inputs : string)
| EvGetWorkflowStatus (wfid : string)
| EvGetWorkflowInputs (wfid : string)
| EvAwaitWorkflowResult (wfid : string)
| EvSysRecv (wfid : string) (fid timeout_fid : Z) (topic : option string)
    (timeout_seconds : float)
| EvSysGetEvent (wfid key : string) (timeout_seconds : float)
    (caller_ctx : option GetEventWorkflowContext)
| EvSessionOpen
| EvSessionClose
| EvSessionBegin
| EvSessionCommit
| EvSessionRollback
| EvSessionConnection (isolation_level : string)
| EvCheckTransactionExecution (wfid : string) (fid : Z)
| EvRecordTransactionOutput (r : TransactionResultInternal)
| EvRecordTransactionError (r : TransactionResultInternal)
| EvRetrieveWorkflow (wfid : string) (existing_workflow : bool)
| EvFutureResult (future : positive)
| EvExecutorSubmit (wfid : string) (fname : string)
| EvLogWarning (msg : string)
| EvSpanAddEvent (name : string) (err : option exn) (seconds : float)
| EvSleep (seconds : float).

Definition is_call (ev : event) : bool :=
  match ev with EvCall _ _ _ => true | _ => false end.

Definition sleep_of (ev : event) : option float :=
  match ev with EvSleep s => Some s | _ => None end.

(** The user function was called this many times. *)
Definition calls (tr : list event) : nat := length (List.filter is_call tr).

(** The arguments of the calls of [time.sleep], in order. *)
Definition sleeps (tr : list event) : list float := omap sleep_of tr.

(** The writes into the operation-result table, in order. *)
Definition operation_records (tr : list event) : list OperationResultInternal :=
  omap (fun ev => match ev with EvRecordOperationResult r => Some r | _ => None end) tr.

(** The writes of an error into the transaction-result table, in order. *)
Definition transaction_error_records (tr : list event)
  : list TransactionResultInternal :=
  omap (fun ev => match ev with EvRecordTransactionError r => Some r | _ => None end) tr.

(** The writes of an output into the transaction-result table, in order. *)
Definition transaction_output_records (tr : list event)
  : list TransactionResultInternal :=
  omap (fun ev => match ev with EvRecordTransactionOutput r => Some r | _ => None end) tr.

(** Writes of a workflow status row, synchronous or buffered. *)
Definition is_status_write (ev : event) : bool :=
  match ev with
  | EvUpdateWorkflowStatus _ _ _ | EvBufferWorkflowStatus _ => true
  | _ => false
  end.

(** Writes of any record: status, inputs, operation or transaction result. *)
Definition is_record_write (ev : event) : bool :=
  match ev with
  | EvUpdateWorkflowStatus _ _ _ | EvBufferWorkflowStatus _
  | EvUpdateWorkflowInputs _ _ | EvBufferWorkflowInputs _ _
  | EvRecordOperationResult _
  | EvRecordTransactionOutput _ | EvRecordTransactionError _ => true
  | _ => false
  end.

(** ** Collaborators

    None of these lives in core.py. [U] is the state they share outside the
    interpreter's own view: database contents, the clock, whatever user code
    touches.  A call may return or raise, and leaves a new state behind. *)

Definition ext_fun (U A : Type) : Type := U -> result A * U.

(** Serialization: [dbos.utils], and [json.dumps] for the list of roles *)
Class Utils : Type := {
  serialize : pyobj -> string;
  deserialize : string -> pyobj;
  (** [serialize] at an inputs dict *)
  serialize_inputs : WorkflowInputs -> string;
  json_dumps : list string -> string
}.

(** [dbos._sys_db] *)
Class SystemDatabase (U : Type) : Type := {
  check_operation_execution : string -> Z -> ext_fun U (option RecordedResult);
  record_operation_result : OperationResultInternal -> ext_fun U unit;
  update_workflow_status :
    WorkflowStatusInternal -> option bool -> option bool -> ext_fun U unit;
  buffer_workflow_status : WorkflowStatusInternal -> ext_fun U unit;
  update_workflow_inputs : string -> string -> ext_fun U unit;
  buffer_workflow_inputs : string -> string -> ext_fun U unit;
  get_workflow_status : string -> ext_fun U (option WorkflowStatusInternal);
  get_workflow_inputs : string -> ext_fun U (option WorkflowInputs);
  await_workflow_result : string -> ext_fun U pyobj;
  sys_recv : string -> Z -> Z -> option string -> float -> ext_fun U pyobj;
  sys_get_event :
    string -> string -> float -> option GetEventWorkflowContext -> ext_fun U pyobj
}.

(** [dbos._app_db], [ApplicationDatabase] and the SQLAlchemy session *)
Class ApplicationDatabase (U : Type) : Type := {
  sessionmaker_enter : ext_fun U positive;
  sessionmaker_exit : positive -> ext_fun U unit;
  session_begin : positive -> ext_fun U unit;
  session_commit : positive -> ext_fun U unit;
  session_rollback : positive -> ext_fun U unit;
  session_connection : positive -> string -> ext_fun U unit;
  check_transaction_execution :
    positive -> string -> Z -> ext_fun U (option RecordedResult);
  record_transaction_output : positive -> TransactionResultInternal -> ext_fun U unit;
  record_transaction_error : TransactionResultInternal -> ext_fun U unit
}.

(** A user function: its [__name__] and what calling it does. *)
Record Function (U : Type) : Type := mkFunction {
  fn_name : string;
  fn_call : args_t -> kwargs_t -> ext_fun U pyobj
}.
Arguments fn_name {U} f.
Arguments fn_call {U} f args kwargs u.

Inductive OperationType : Type :=
| WORKFLOW | TRANSACTION | STEP.

Record TracedAttributes : Type := mkAttrs {
  ta_name : string;
  ta_operationType : option OperationType
}.

(** A scope of the context module ([with Scope(...) as ctx]).  Entering acts
    on the thread's current context (None when there is none) and yields the
    context that is current from then on; the object bound by [as ctx] is that
    current context.  Leaving restores what the scope decides and lets an
    exception of the block pass. *)
Record scope : Type := mkScope {
  scope_enter : option DBOSContext -> result DBOSContext;
  scope_exit : option DBOSContext -> option DBOSContext
}.

(** [dbos.context] *)
Class ContextModule (U : Type) : Type := {
  is_workflow : DBOSContext -> bool;
  is_within_workflow : DBOSContext -> bool;
  is_step : DBOSContext -> bool;
  (** [self.create_child()]: the child, and [self] as the call leaves it *)
  create_child : DBOSContext -> DBOSContext * DBOSContext;
  (** a context made by [DBOSContext()] *)
  new_context : DBOSContext;
  assign_workflow_id : DBOSContext -> U -> string * U;
  EnterDBOSStep : TracedAttributes -> scope;
  EnterDBOSTransaction : positive -> TracedAttributes -> scope;
  DBOSContextEnsure : scope;
  SetWorkflowID : string -> scope
}.

(** What a sleep that takes place does to the world outside: the time
    passes.  Whether a sleep takes place is decided by [time_sleep] below. *)
Class Clock (U : Type) : Type := {
  elapse : float -> U -> U
}.

(** [time.sleep(secs)] first checks its argument, and raises without
    sleeping when the check fails: a NaN is a ValueError; the seconds are
    converted to nanoseconds, which have to fit a signed 64-bit integer, or
    else it is an OverflowError; a negative length is a ValueError. *)
Definition sleep_argument_error (secs : float) : option exn :=
  if PrimFloat.is_nan secs then Some (ValueError "Invalid value NaN (not a number)")
  else
    let d := (secs * 1000000000)%float in
    if negb (PrimFloat.leb (-9223372036854775808)%float d
             && PrimFloat.ltb d 9223372036854775808%float)
    then Some (OverflowError "timestamp too large to convert to C _PyTime_t")
    else if PrimFloat.ltb d 0%float
    then Some (ValueError "sleep length must be non-negative")
    else None.

(** The [DBOS] object reached through the registry: a token, since its
    databases, executor and logger are the collaborators above. *)
Inductive DBOS : Type := DBOS_object.

(** ** The interpreter state and its monad *)

(** A computation over a state [S] returns or raises; its effects on the
    state stay in both cases. *)
Definition St (S A : Type) : Type := S -> result A * S.

Definition ret {S A : Type} (a : A) : St S A := fun s => (Ok a, s).

Definition raise {S A : Type} (e : exn) : St S A := fun s => (Raise e, s).

Definition bind {S A B : Type} (m : St S A) (k : A -> St S B) : St S B :=
  fun s =>
    match m s with
    | (Ok a, s1) => k a s1
    | (Raise e, s1) => (Raise e, s1)
    end.

(** The [raise x] statement as a computation. *)
Definition raise_obj {S A : Type} (x : pyobj) : St S A := fun s => (py_raise x, s).

Declare Scope py_scope.
Delimit Scope py_scope with py.
Notation "x <- c ;; k" := (bind c (fun x => k))
  (at level 100, c at next level, right associativity) : py_scope.
Notation "c ;;; k" := (bind c (fun _ => k))
  (at level 100, right associativity) : py_scope.
Local Open Scope py_scope.

Section Core.

Context {U : Type}.

(** What a thread of the core sees: its current context, the state of the
    collaborators, and the calls made to them so far. *)
Record world : Type := mkWorld {
  local_ctx : option DBOSContext;
  ext : U;
  trace : list event
}.

Definition M (A : Type) : Type := St world A.

(** A call to a collaborator: logged, then run on the external state. *)
Definition ext_call {A : Type} (ev : event) (f : ext_fun U A) : M A :=
  fun w =>
    let '(r, u1) := f (ext w) in
    (r, mkWorld (local_ctx w) u1 (trace w ++ [ev])).

(** A call that cannot fail and returns nothing of interest. *)
Definition emit (ev : event) (f : U -> U) : M unit :=
  fun w => (Ok tt, mkWorld (local_ctx w) (f (ext w)) (trace w ++ [ev])).

(** [time.sleep(secs)]: the call is made; it raises when its argument is
    refused, and lets the time pass otherwise. *)
Definition time_sleep `{!Clock U} (secs : float) : M unit :=
  ext_call (EvSleep secs)
    (fun u =>
       match sleep_argument_error secs with
       | Some e => (Raise e, u)
       | None => (Ok tt, elapse secs u)
       end).

Definition get_local_dbos_context : M (option DBOSContext) :=
  fun w => (Ok (local_ctx w), w).

Definition set_local_ctx (c : option DBOSContext) : M unit :=
  fun w => (Ok tt, mkWorld c (ext w) (trace w)).

(** [with s as ctx: body] *)
Definition with_scope {A : Type} (s : scope) (body : DBOSContext -> M A) : M A :=
  fun w =>
    match scope_enter s (local_ctx w) with
    | Raise e => (Raise e, w)
    | Ok c =>
        let '(r, w1) := body c (mkWorld (Some c) (ext w) (trace w)) in
        (r, mkWorld (scope_exit s (local_ctx w1)) (ext w1) (trace w1))
    end.

(** A computation of the core run next to local variables [L]. *)
Definition lift {L A : Type} (m : M A) : St (L * world) A :=
  fun s =>
    let '(r, w1) := m (snd s) in (r, (fst s, w1)).

Definition get_locals {L : Type} : St (L * world) L :=
  fun s => (Ok (fst s), s).

Definition set_locals {L : Type} (l : L) : St (L * world) unit :=
  fun s => (Ok tt, (l, snd s)).

End Core.

Arguments world U : clear implicits.
Arguments M U A : clear implicits.

(** ** The registry *)

(** A workflow function as core.py sees it: its [__name__] and, for a bound
    method, its [__self__]. *)
Record Workflow : Type := mkWorkflow {
  wf_name : string;
  wf_self : option pyobj
}.

Record DBOSRegistry : Type := mkRegistry {
  reg_dbos : option DBOS;
  workflow_info_map : gmap string Workflow;
  class_info_map : gmap string pyobj;
  instance_info_map : gmap string pyobj
}.

(** * The step engine: [_step] and its [invoke_step] *)

Section StepEngine.

Context {U : Type} `{!Utils, !SystemDatabase U, !ContextModule U, !Clock U}.

(** The decorator's parameters and the decorated function. *)
Variable dbosreg : DBOSRegistry.
Variable retries_allowed : bool.
Variable interval_seconds : float.
Variable max_attempts : Z.
Variable backoff_rate : float.
Variable func : Function U.

(** The call of the decorated function on the caller's arguments. *)
Definition call_func (args : args_t) (kwargs : kwargs_t) : M U pyobj :=
  ext_call (EvCall (fn_name func) args kwargs) (fn_call func args kwargs).

(** The variables of invoke_step that the retry loop assigns. *)
Record step_locals : Type := mkStepLocals {
  sl_output : pyobj;
  sl_step_output : OperationResultInternal;
  sl_error : option exn;
  sl_local_interval_seconds : float
}.

Definition max_retry_interval_seconds : float := 3600%float.

Definition local_max_attempts : Z := if retries_allowed then max_attempts else 1.

(** The body of [for attempt in range(1, local_max_attempts + 1)], over the
    attempts still to make.  A return of the function breaks out; an
    exception that is not an [Exception], and one that [time.sleep] raises
    inside the handler, leave invoke_step. *)
Fixpoint step_attempts (args : args_t) (kwargs : kwargs_t)
    (attempts : list Z) (l : step_locals) : M U step_locals :=
  match attempts with
  | [] => ret l
  | attempt :: rest =>
      fun w =>
        match call_func args kwargs w with
        | (Ok output, w1) =>
            (Ok (mkStepLocals output
                   (mkOpResult (op_workflow_uuid (sl_step_output l))
                      (op_function_id (sl_step_output l))
                      (Some (serialize output)) (op_error (sl_step_output l)))
                   None (sl_local_interval_seconds l)), w1)
        | (Raise err, w1) =>
            if is_Exception err then
              if retries_allowed then
                (emit (EvLogWarning
                         ("Step being automatically retried. (attempt " +:+
                          py_str_int attempt +:+ " of " +:+
                          py_str_int local_max_attempts +:+ "). ")) id ;;;
                 emit (EvSpanAddEvent
                         ("Step attempt " +:+ py_str_int attempt +:+ " failed")
                         (Some err) (sl_local_interval_seconds l)) id ;;;
                 if attempt =? local_max_attempts then
                   step_attempts args kwargs rest
                     (mkStepLocals (sl_output l) (sl_step_output l)
                        (Some DBOSMaxStepRetriesExceeded)
                        (sl_local_interval_seconds l))
                 else
                   time_sleep (sl_local_interval_seconds l) ;;;
                   step_attempts args kwargs rest
                     (mkStepLocals (sl_output l) (sl_step_output l)
                        (Some err)
                        (py_min (sl_local_interval_seconds l * backoff_rate)%float
                                max_retry_interval_seconds))) w1
              else
                step_attempts args kwargs rest
                  (mkStepLocals (sl_output l) (sl_step_output l) (Some err)
                     (sl_local_interval_seconds l)) w1
            else (Raise err, w1)
        end
  end.

Definition invoke_step (args : args_t) (kwargs : kwargs_t) : M U pyobj :=
  match reg_dbos dbosreg with
  | None =>
      raise (DBOSException
               ("Function " +:+ fn_name func +:+ " invoked before DBOS initialized"))
  | Some dbos =>
      let attributes := mkAttrs (fn_name func) (Some STEP) in
      with_scope (EnterDBOSStep attributes) (fun ctx =>
        let step_output :=
          mkOpResult (workflow_id ctx) (function_id ctx) None None in
        recorded_output <-
          ext_call (EvCheckOperationExecution (workflow_id ctx) (function_id ctx))
            (check_operation_execution (workflow_id ctx) (function_id ctx)) ;;
        match recorded_output with
        | Some recorded =>
            match rr_error recorded with
            | Some err => raise_obj (deserialize err)
            | None =>
                match rr_output recorded with
                | Some out => ret (deserialize out)
                | None => raise (Exception "Output and error are both None")
                end
            end
        | None =>
            l <- step_attempts args kwargs (py_range 1 (local_max_attempts + 1))
                   (mkStepLocals PyNone step_output None interval_seconds) ;;
            let step_output :=
              mkOpResult (op_workflow_uuid (sl_step_output l))
                (op_function_id (sl_step_output l))
                (op_output (sl_step_output l))
                (match sl_error l with
                 | Some error => Some (serialize (PyExc error))
                 | None => None
                 end) in
            ext_call (EvRecordOperationResult step_output)
              (record_operation_result step_output) ;;;
            match sl_error l with
            | Some error => raise error
            | None => ret (sl_output l)
            end
        end)
  end.

End StepEngine.

(** * The transaction engine: [_transaction] and its [invoke_tx] *)

(** How control leaves the [with session.begin()] block without an exception:
    by [return] (a replayed output) or by [break] (a fresh output). *)
Inductive tx_flow : Type :=
| FlowReturn (value : pyobj)
| FlowBreak (output : pyobj).

Definition flow_value (f : tx_flow) : pyobj :=
  match f with
  | FlowReturn v => v
  | FlowBreak v => v
  end.

(** A column of a recorded row when it counts as true in an [if]: a string
    that is neither None nor empty. *)
Definition truthy_column (x : option string) : option string :=
  match x with
  | Some s => if String.eqb s "" then None else Some s
  | None => None
  end.

Section TransactionEngine.

Context {U : Type} `{!Utils, !ApplicationDatabase U, !ContextModule U, !Clock U}.

Variable dbosreg : DBOSRegistry.
Variable isolation_level : string.
Variable func : Function U.

(** The variables of invoke_tx that outlive one pass of the loop body. *)
Record tx_locals : Type := mkTxLocals {
  tl_txn_output : TransactionResultInternal;
  tl_has_recorded_error : bool
}.

Definition set_txn_output_output (o : option string) (r : TransactionResultInternal) :=
  mkTxResult (tx_workflow_uuid r) (tx_function_id r) o (tx_error r)
    (tx_txn_snapshot r) (tx_executor_id r) (tx_txn_id r).

Definition set_txn_output_error (e : option string) (r : TransactionResultInternal) :=
  mkTxResult (tx_workflow_uuid r) (tx_function_id r) (tx_output r) e
    (tx_txn_snapshot r) (tx_executor_id r) (tx_txn_id r).

Definition backoff_factor : float := 1.5%float.
Definition max_retry_wait_seconds : float := 2.0%float.
Definition initial_retry_wait_seconds : float := 0.001%float.

Definition TxM (A : Type) : Type := St (tx_locals * world U) A.

(** [with session.begin(): body]: commit when the block is left without an
    exception (return or break included), roll back and re-raise otherwise. *)
Definition with_session_begin {A : Type} (session : positive) (body : TxM A) : TxM A :=
  fun s =>
    match lift (ext_call EvSessionBegin (session_begin session)) s with
    | (Raise e, s1) => (Raise e, s1)
    | (Ok _, s1) =>
        match body s1 with
        | (Ok a, s2) =>
            match lift (ext_call EvSessionCommit (session_commit session)) s2 with
            | (Ok _, s3) => (Ok a, s3)
            | (Raise e, s3) => (Raise e, s3)
            end
        | (Raise e, s2) =>
            match lift (ext_call EvSessionRollback (session_rollback session)) s2 with
            | (Ok _, s3) => (Raise e, s3)
            | (Raise e', s3) => (Raise e', s3)
            end
        end
    end.

(** The [try] block of the loop body. *)
Definition tx_try_block (session : positive) (ctx : DBOSContext)
    (args : args_t) (kwargs : kwargs_t) : TxM tx_flow :=
  with_session_begin session
    (lift (ext_call (EvSessionConnection isolation_level)
             (session_connection session isolation_level)) ;;;
     recorded_output <-
       lift (ext_call
               (EvCheckTransactionExecution (workflow_id ctx) (function_id ctx))
               (check_transaction_execution session (workflow_id ctx)
                  (function_id ctx))) ;;
     match recorded_output with
     | Some recorded =>
         match truthy_column (rr_error recorded) with
         | Some err =>
             let deserialized_error := deserialize err in
             l <- get_locals ;;
             set_locals (mkTxLocals (tl_txn_output l) true) ;;;
             raise_obj deserialized_error
         | None =>
             match truthy_column (rr_output recorded) with
             | Some out => ret (FlowReturn (deserialize out))
             | None => raise (Exception "Output and error are both None")
             end
         end
     | None =>
         output <-
           lift (ext_call (EvCall (fn_name func) args kwargs)
                   (fn_call func args kwargs)) ;;
         l <- get_locals ;;
         let txn_output :=
           set_txn_output_output (Some (serialize output)) (tl_txn_output l) in
         set_locals (mkTxLocals txn_output (tl_has_recorded_error l)) ;;;
         match sql_session ctx with
         | None => raise (AssertionError "Cannot find a database connection")
         | Some sql =>
             lift (ext_call (EvRecordTransactionOutput txn_output)
                     (record_transaction_output sql txn_output)) ;;;
             ret (FlowBreak output)
         end
     end).

(** [while True], with a bound on the number of passes: None is returned
    when the bound is reached before the loop is left. *)
Fixpoint tx_loop (fuel : nat) (session : positive) (ctx : DBOSContext)
    (args : args_t) (kwargs : kwargs_t) (retry_wait_seconds : float)
  : TxM (option tx_flow) :=
  match fuel with
  | O => ret None
  | S fuel' =>
      fun s =>
        let s0 := (mkTxLocals (tl_txn_output (fst s)) false, snd s) in
        match tx_try_block session ctx args kwargs s0 with
        | (Ok flow, s1) => (Ok (Some flow), s1)
        | (Raise error, s1) =>
            match dbapi_sqlstate error with
            | Some sqlstate =>
                if String.eqb sqlstate "40001" then
                  (lift (emit (EvSpanAddEvent "Transaction Serialization Failure"
                                 None retry_wait_seconds) id) ;;;
                   lift (time_sleep retry_wait_seconds) ;;;
                   tx_loop fuel' session ctx args kwargs
                     (py_min (retry_wait_seconds * backoff_factor)%float
                        max_retry_wait_seconds)) s1
                else (Raise error, s1)
            | None =>
                if is_Exception error then
                  if tl_has_recorded_error (fst s1) then (Raise error, s1)
                  else
                    let txn_output :=
                      set_txn_output_error (Some (serialize (PyExc error)))
                        (tl_txn_output (fst s1)) in
                    (set_locals (mkTxLocals txn_output false) ;;;
                     lift (ext_call (EvRecordTransactionError txn_output)
                             (record_transaction_error txn_output)) ;;;
                     raise error) s1
                else (Raise error, s1)
            end
        end
  end.

(** [with dbos._app_db.sessionmaker() as session: body] *)
Definition with_sessionmaker {A : Type} (body : positive -> M U A) : M U A :=
  fun w =>
    match ext_call EvSessionOpen sessionmaker_enter w with
    | (Raise e, w1) => (Raise e, w1)
    | (Ok session, w1) =>
        match body session w1 with
        | (r, w2) =>
            match ext_call EvSessionClose (sessionmaker_exit session) w2 with
            | (Ok _, w3) => (r, w3)
            | (Raise e', w3) => (Raise e', w3)
            end
        end
    end.

Definition invoke_tx (fuel : nat) (args : args_t) (kwargs : kwargs_t)
  : M U (option pyobj) :=
  match reg_dbos dbosreg with
  | None =>
      raise (DBOSException
               ("Function " +:+ fn_name func +:+ " invoked before DBOS initialized"))
  | Some dbos =>
      with_sessionmaker (fun session =>
        let attributes := mkAttrs (fn_name func) (Some TRANSACTION) in
        with_scope (EnterDBOSTransaction session attributes) (fun ctx =>
          let txn_output :=
            mkTxResult (workflow_id ctx) (function_id ctx) None None "" None None in
          fun w =>
            let '(r, (_, w1)) :=
              tx_loop fuel session ctx args kwargs initial_retry_wait_seconds
                (mkTxLocals txn_output false, w) in
            (match r with
             | Ok flow => Ok (option_map flow_value flow)
             | Raise e => Raise e
             end, w1)))
  end.

End TransactionEngine.

(** * The workflow engine *)

(** [dbos.registrations]: what it knows about a decorated function. *)
Class Registrations : Type := {
  DBOSFuncInfo : Type;
  get_func_info : Workflow -> option DBOSFuncInfo;
  orig_func : Workflow -> Workflow;
  get_dbos_func_name : Workflow -> string;
  get_dbos_class_name : DBOSFuncInfo -> Workflow -> args_t -> option string;
  get_config_name : DBOSFuncInfo -> Workflow -> args_t -> option string;
  get_temp_workflow_type : Workflow -> option string
}.

(** The rest of the [DBOS] object: handle lookup, the executor and its
    futures. *)
Class DBOSRuntime (U : Type) : Type := {
  retrieve_workflow : string -> bool -> ext_fun U WorkflowHandle;
  executor_submit :
    WorkflowStatusInternal -> Workflow -> DBOSContext -> args_t -> kwargs_t ->
    ext_fun U positive;
  future_result : positive -> ext_fun U pyobj
}.

Section WorkflowEngine.

Context {U : Type}
  `{!Utils, !SystemDatabase U, !ContextModule U, !Registrations, !DBOSRuntime U}.

(** [handle.get_result()], for the two handle classes of core.py *)
Definition get_result (h : WorkflowHandle) : M U pyobj :=
  match h with
  | WorkflowHandleFuture _ future =>
      ext_call (EvFutureResult future) (future_result future)
  | WorkflowHandlePolling wfid =>
      ext_call (EvAwaitWorkflowResult wfid) (await_workflow_result wfid)
  end.

Definition _init_workflow (ctx : DBOSContext) (inputs : WorkflowInputs)
    (wf_name : string) (class_name config_name temp_wf_type : option string)
  : M U WorkflowStatusInternal :=
  let wfid :=
    if (0 <? Z.of_nat (String.length (workflow_id ctx)))
    then workflow_id ctx else id_assigned_for_next_workflow ctx in
  let status :=
    mkStatus wfid "PENDING" wf_name class_name config_name None None
      (app_id ctx) (app_version ctx) (executor_id ctx)
      (match request ctx with
       | Some r => Some (serialize r)
       | None => None
       end)
      None
      (authenticated_user ctx)
      (match authenticated_roles ctx with
       | Some (r :: rs) => Some (json_dumps (r :: rs))
       | _ => None
       end)
      (assumed_role ctx) in
  let inputs :=
    match class_name with
    | Some _ => mkInputs (tail (wi_args inputs)) (wi_kwargs inputs)
    | None => inputs
    end in
  if negb (py_opt_str_eqb temp_wf_type "transaction") then
    ext_call (EvUpdateWorkflowStatus status (Some false) (Some (in_recovery ctx)))
      (update_workflow_status status (Some false) (Some (in_recovery ctx))) ;;;
    ext_call (EvUpdateWorkflowInputs wfid (serialize_inputs inputs))
      (update_workflow_inputs wfid (serialize_inputs inputs)) ;;;
    ret status
  else
    ext_call (EvBufferWorkflowInputs wfid (serialize_inputs inputs))
      (buffer_workflow_inputs wfid (serialize_inputs inputs)) ;;;
    ret status.

(** [_execute_workflow].  The status dict is updated in place: the model
    hands its final contents back next to the outcome.  [func] is the
    workflow body, free to use the whole interpreter state. *)
Definition _execute_workflow (status : WorkflowStatusInternal)
    (func : args_t -> kwargs_t -> M U pyobj) (args : args_t) (kwargs : kwargs_t)
  : world U -> (result pyobj * WorkflowStatusInternal) * world U :=
  fun w =>
    let try_block : St (WorkflowStatusInternal * world U) pyobj :=
      output <- lift (func args kwargs) ;;
      status <- get_locals ;;
      let status := set_ws_status "SUCCESS" status in
      set_locals status ;;;
      let status := set_ws_output (Some (serialize output)) status in
      set_locals status ;;;
      lift (ext_call (EvBufferWorkflowStatus status)
              (buffer_workflow_status status)) ;;;
      ret output in
    match try_block (status, w) with
    | (Ok output, (status, w1)) => ((Ok output, status), w1)
    | (Raise error, (status, w1)) =>
        if is_DBOSWorkflowConflictIDError error then
          let '(r, w2) :=
            (wf_handle <-
               ext_call (EvRetrieveWorkflow (ws_workflow_uuid status) false)
                 (retrieve_workflow (ws_workflow_uuid status) false) ;;
             get_result wf_handle) w1 in
          ((r, status), w2)
        else if is_Exception error then
          let status := set_ws_status "ERROR" status in
          let status := set_ws_error (Some (serialize (PyExc error))) status in
          match ext_call (EvUpdateWorkflowStatus status None None)
                  (update_workflow_status status None None) w1 with
          | (Ok _, w2) => ((Raise error, status), w2)
          | (Raise e', w2) => ((Raise e', status), w2)
          end
        else ((Raise error, status), w1)
    end.

(** [_start_workflow] *)
Definition _start_workflow (func : Workflow) (args : args_t) (kwargs : kwargs_t)
  : M U WorkflowHandle :=
  let fself := wf_self func in
  match get_func_info func with
  | None =>
      raise (DBOSWorkflowFunctionNotFoundError "<NONE>"
               ("start_workflow: function " +:+ wf_name func +:+ " is not registered"))
  | Some fi =>
      let func := orig_func func in
      let inputs := mkInputs args kwargs in
      cur_ctx <- get_local_dbos_context ;;
      cur_ctx <-
        match cur_ctx with
        | Some c =>
            if is_within_workflow c then
              if is_workflow c then
                let c := set_function_id (function_id c + 1) c in
                let c :=
                  if (Z.of_nat (String.length (id_assigned_for_next_workflow c)) =? 0)
                  then set_id_assigned_for_next_workflow
                         (workflow_id c +:+ "-" +:+ py_str_int (function_id c)) c
                  else c in
                set_local_ctx (Some c) ;;; ret (Some c)
              else raise (AssertionError "")
            else ret (Some c)
        | None => ret None
        end ;;
      new_wf_ctx <-
        match cur_ctx with
        | None => ret new_context
        | Some c =>
            let '(child, c') := create_child c in
            set_local_ctx (Some c') ;;; ret child
        end ;;
      new_wf_id <-
        (fun w =>
           let '(wfid, u1) := assign_workflow_id new_wf_ctx (ext w) in
           (Ok wfid, mkWorld (local_ctx w) u1 (trace w))) ;;
      let new_wf_ctx := set_id_assigned_for_next_workflow new_wf_id new_wf_ctx in
      let new_wf_id := id_assigned_for_next_workflow new_wf_ctx in
      let gin_args :=
        match fself with
        | Some self => [self]
        | None => args
        end in
      status <-
        _init_workflow new_wf_ctx inputs (get_dbos_func_name func)
          (get_dbos_class_name fi func gin_args)
          (get_config_name fi func gin_args)
          (get_temp_workflow_type func) ;;
      let submitted_args :=
        match fself with
        | Some self => self :: args
        | None => args
        end in
      future <-
        ext_call (EvExecutorSubmit new_wf_id (wf_name func))
          (executor_submit status func new_wf_ctx submitted_args kwargs) ;;
      ret (WorkflowHandleFuture new_wf_id future)
  end.

(** [_execute_workflow_id]: recovery of a workflow by its id *)
Definition _execute_workflow_id (dbosreg : DBOSRegistry) (workflow_id : string)
  : M U WorkflowHandle :=
  status <-
    ext_call (EvGetWorkflowStatus workflow_id) (get_workflow_status workflow_id) ;;
  match status with
  | None => raise (DBOSRecoveryError workflow_id "Workflow status not found")
  | Some status =>
      inputs <-
        ext_call (EvGetWorkflowInputs workflow_id)
          (get_workflow_inputs workflow_id) ;;
      match inputs with
      | None => raise (DBOSRecoveryError workflow_id "Workflow inputs not found")
      | Some inputs =>
          match workflow_info_map dbosreg !! ws_name status with
          | None =>
              raise (DBOSWorkflowFunctionNotFoundError workflow_id
                       "Workflow function not found")
          | Some wf_func =>
              with_scope DBOSContextEnsure (fun ctx =>
                let request := ws_request status in
                set_local_ctx
                  (Some (set_request
                           (match request with
                            | Some r => Some (deserialize r)
                            | None => None
                            end) ctx)) ;;;
                match ws_config_name status with
                | Some config_name =>
                    let class_name := ws_class_name status in
                    let iname := py_str_opt class_name +:+ "/" +:+ config_name in
                    match instance_info_map dbosreg !! iname with
                    | None =>
                        raise (DBOSWorkflowFunctionNotFoundError workflow_id
                                 ("Cannot execute workflow because instance '" +:+
                                  iname +:+ "' is not registered"))
                    | Some instance =>
                        with_scope (SetWorkflowID workflow_id) (fun _ =>
                          _start_workflow wf_func (instance :: wi_args inputs)
                            (wi_kwargs inputs))
                    end
                | None =>
                    match ws_class_name status with
                    | Some class_name =>
                        match class_info_map dbosreg !! class_name with
                        | None =>
                            raise (DBOSWorkflowFunctionNotFoundError workflow_id
                                     ("Cannot execute workflow because class '" +:+
                                      class_name +:+ "' is not registered"))
                        | Some cls =>
                            with_scope (SetWorkflowID workflow_id) (fun _ =>
                              _start_workflow wf_func (cls :: wi_args inputs)
                                (wi_kwargs inputs))
                        end
                    | None =>
                        with_scope (SetWorkflowID workflow_id) (fun _ =>
                          _start_workflow wf_func (wi_args inputs)
                            (wi_kwargs inputs))
                    end
                end)
          end
      end
  end.

End WorkflowEngine.

(** * Coordination primitives: [_recv] and [_get_event] *)

Section Coordination.

Context {U : Type} `{!SystemDatabase U, !ContextModule U}.

(** [ctx.function_id += 1] on the current context *)
Definition incr_function_id : M U Z :=
  fun w =>
    match local_ctx w with
    | Some c =>
        let c := set_function_id (function_id c + 1) c in
        (Ok (function_id c), mkWorld (Some c) (ext w) (trace w))
    | None => (Raise (DBOSException "No DBOS context found"), w)
    end.

Definition _recv (topic : option string) (timeout_seconds : float) : M U pyobj :=
  cur_ctx <- get_local_dbos_context ;;
  match cur_ctx with
  | Some cur_ctx =>
      if is_workflow cur_ctx then
        let attributes := mkAttrs "recv" None in
        with_scope (EnterDBOSStep attributes) (fun ctx =>
          timeout_function_id <- incr_function_id ;;
          ext_call
            (EvSysRecv (workflow_id ctx) (curr_step_function_id ctx)
               timeout_function_id topic timeout_seconds)
            (sys_recv (workflow_id ctx) (curr_step_function_id ctx)
               timeout_function_id topic timeout_seconds))
      else raise (AssertionError "recv() must be called from within a workflow")
  | None => raise (DBOSException "recv() must be called from within a workflow")
  end.

Definition _get_event (workflow_id' key : string) (timeout_seconds : float)
  : M U pyobj :=
  cur_ctx <- get_local_dbos_context ;;
  match cur_ctx with
  | Some cur_ctx =>
      if is_within_workflow cur_ctx then
        if is_workflow cur_ctx then
          let attributes := mkAttrs "get_event" None in
          with_scope (EnterDBOSStep attributes) (fun ctx =>
            timeout_function_id <- incr_function_id ;;
            let caller_ctx :=
              mkGetEventCtx (workflow_id ctx) (curr_step_function_id ctx)
                timeout_function_id in
            ext_call
              (EvSysGetEvent workflow_id' key timeout_seconds (Some caller_ctx))
              (sys_get_event workflow_id' key timeout_seconds (Some caller_ctx)))
        else
          raise (AssertionError "get_event() must be called from within a workflow")
      else
        ext_call (EvSysGetEvent workflow_id' key timeout_seconds None)
          (sys_get_event workflow_id' key timeout_seconds None)
  | None =>
      ext_call (EvSysGetEvent workflow_id' key timeout_seconds None)
        (sys_get_event workflow_id' key timeout_seconds None)
  end.

End Coordination.

(** * A reference implementation of the collaborators

    In-memory tables, a context module and scripted user functions, to run
    the engines on concrete inputs. *)

Module Bench.

Record state : Type := mkState {
  operation_outputs : gmap (string * Z) RecordedResult;
  transaction_outputs : gmap (string * Z) RecordedResult;
  workflow_status : gmap string WorkflowStatusInternal;
  workflow_inputs : gmap string WorkflowInputs;
  (** what the next calls of a scripted user function do *)
  script : list (result pyobj);
  next_uuid : Z
}.

Definition empty_state : state := mkState ∅ ∅ ∅ ∅ [] 1.

Definition with_script (sc : list (result pyobj)) (u : state) : state :=
  mkState (operation_outputs u) (transaction_outputs u) (workflow_status u)
    (workflow_inputs u) sc (next_uuid u).

Definition with_operation_outputs (m : gmap (string * Z) RecordedResult) (u : state)
  : state :=
  mkState m (transaction_outputs u) (workflow_status u)
    (workflow_inputs u) (script u) (next_uuid u).

Definition with_transaction_outputs (m : gmap (string * Z) RecordedResult)
    (u : state) : state :=
  mkState (operation_outputs u) m (workflow_status u)
    (workflow_inputs u) (script u) (next_uuid u).

Definition with_workflow_status (m : gmap string WorkflowStatusInternal) (u : state)
  : state :=
  mkState (operation_outputs u) (transaction_outputs u) m
    (workflow_inputs u) (script u) (next_uuid u).

Definition with_workflow_inputs (m : gmap string WorkflowInputs) (u : state) : state :=
  mkState (operation_outputs u) (transaction_outputs u) (workflow_status u)
    m (script u) (next_uuid u).

(** A serializer that tags a payload with its kind. *)
Definition exn_tag (e : exn) : string :=
  match e with
  | DBOSMaxStepRetriesExceeded => "DBOSMaxStepRetriesExceeded"
  | UserError what => "UserError:" +:+ what
  | DBAPIError sqlstate => "DBAPIError:" +:+ sqlstate
  | _ => "Exception"
  end.

Definition bench_serialize (x : pyobj) : string :=
  match x with
  | PyNone => "none"
  | PyBool b => if b then "true" else "false"
  | PyInt z => "int:" +:+ pretty z
  | PyStr s => "str:" +:+ s
  | PyExc e => "exc:" +:+ exn_tag e
  | PyRef _ => "ref"
  end.

Definition drop_prefix (n : nat) (s : string) : string :=
  String.substring n (String.length s - n) s.

Definition bench_deserialize (s : string) : pyobj :=
  if String.eqb s "none" then PyNone
  else if String.eqb s "true" then PyBool true
  else if String.eqb s "false" then PyBool false
  else if String.eqb s "exc:DBOSMaxStepRetriesExceeded"
  then PyExc DBOSMaxStepRetriesExceeded
  else if String.prefix "exc:UserError:" s then PyExc (UserError (drop_prefix 14 s))
  else if String.prefix "exc:DBAPIError:" s then PyExc (DBAPIError (drop_prefix 15 s))
  else if String.prefix "exc:" s then PyExc (Exception (drop_prefix 4 s))
  else if String.prefix "str:" s then PyStr (drop_prefix 4 s)
  else PyStr s.

#[global] Instance utils : Utils := {|
  serialize := bench_serialize;
  deserialize := bench_deserialize;
  serialize_inputs := fun i => "inputs:" +:+ pretty (Z.of_nat (length (wi_args i)));
  json_dumps := fun roles => "[" +:+ String.concat "," roles +:+ "]"
|}.

Definition as_recorded (r : OperationResultInternal) : RecordedResult :=
  mkRecorded (op_output r) (op_error r).

Definition await (wfid : string) (u : state) : result pyobj * state :=
  match workflow_status u !! wfid with
  | Some st =>
      match ws_error st, ws_output st with
      | Some e, _ => (py_raise (bench_deserialize e), u)
      | None, Some o => (Ok (bench_deserialize o), u)
      | None, None => (Ok PyNone, u)
      end
  | None => (Ok PyNone, u)
  end.

#[global] Instance system_database : SystemDatabase state := {|
  check_operation_execution := fun wfid fid u =>
    (Ok (operation_outputs u !! (wfid, fid)), u);
  record_operation_result := fun r u =>
    (Ok tt,
     with_operation_outputs
       (<[(op_workflow_uuid r, op_function_id r) := as_recorded r]>
          (operation_outputs u)) u);
  update_workflow_status := fun st _ _ u =>
    (Ok tt, with_workflow_status (<[ws_workflow_uuid st := st]> (workflow_status u)) u);
  buffer_workflow_status := fun st u =>
    (Ok tt, with_workflow_status (<[ws_workflow_uuid st := st]> (workflow_status u)) u);
  update_workflow_inputs := fun _ _ u => (Ok tt, u);
  buffer_workflow_inputs := fun _ _ u => (Ok tt, u);
  get_workflow_status := fun wfid u => (Ok (workflow_status u !! wfid), u);
  get_workflow_inputs := fun wfid u => (Ok (workflow_inputs u !! wfid), u);
  await_workflow_result := await;
  sys_recv := fun _ _ _ _ _ u => (Ok PyNone, u);
  sys_get_event := fun _ _ _ _ u => (Ok PyNone, u)
|}.

#[global] Instance application_database : ApplicationDatabase state := {|
  sessionmaker_enter := fun u => (Ok 1%positive, u);
  sessionmaker_exit := fun _ u => (Ok tt, u);
  session_begin := fun _ u => (Ok tt, u);
  session_commit := fun _ u => (Ok tt, u);
  session_rollback := fun _ u => (Ok tt, u);
  session_connection := fun _ _ u => (Ok tt, u);
  check_transaction_execution := fun _ wfid fid u =>
    (Ok (transaction_outputs u !! (wfid, fid)), u);
  record_transaction_output := fun _ r u =>
    (Ok tt,
     with_transaction_outputs
       (<[(tx_workflow_uuid r, tx_function_id r) :=
            mkRecorded (tx_output r) (tx_error r)]> (transaction_outputs u)) u);
  record_transaction_error := fun r u =>
    (Ok tt,
     with_transaction_outputs
       (<[(tx_workflow_uuid r, tx_function_id r) :=
            mkRecorded (tx_output r) (tx_error r)]> (transaction_outputs u)) u)
|}.

#[global] Instance clock : Clock state := {| elapse := fun _ u => u |}.

(** The context module: a context is inside a workflow when it has a
    workflow id, inside a step when it has a current step id, inside a
    transaction when it holds a session. *)
Definition set_step (fid step : Z) (c : DBOSContext) : DBOSContext :=
  mkCtx (workflow_id c) fid step
    (id_assigned_for_next_workflow c) (parent_workflow_id c) (in_recovery c)
    (app_id c) (app_version c) (executor_id c) (request c)
    (authenticated_user c) (authenticated_roles c) (assumed_role c)
    (sql_session c) (ctx_private c).

Definition set_sql_session (fid : Z) (s : option positive) (c : DBOSContext)
  : DBOSContext :=
  mkCtx (workflow_id c) fid (curr_step_function_id c)
    (id_assigned_for_next_workflow c) (parent_workflow_id c) (in_recovery c)
    (app_id c) (app_version c) (executor_id c) (request c)
    (authenticated_user c) (authenticated_roles c) (assumed_role c)
    s (ctx_private c).

Definition fresh_context : DBOSContext :=
  mkCtx "" 0 (-1) "" "" false "" "" "local" None None None None None [].

Definition child_of (c : DBOSContext) : DBOSContext :=
  mkCtx "" 0 (-1) (id_assigned_for_next_workflow c) (workflow_id c)
    (in_recovery c) (app_id c) (app_version c) (executor_id c) (request c)
    (authenticated_user c) (authenticated_roles c) (assumed_role c) None [].

Definition within (c : DBOSContext) : bool := negb (String.eqb (workflow_id c) "").
Definition in_step (c : DBOSContext) : bool := 0 <=? curr_step_function_id c.
Definition in_transaction (c : DBOSContext) : bool :=
  match sql_session c with Some _ => true | None => false end.

Definition no_context {A : Type} : result A := Raise (DBOSException "No DBOS context found").

#[global] Instance context_module : ContextModule state := {|
  is_workflow := fun c => within c && negb (in_step c) && negb (in_transaction c);
  is_within_workflow := within;
  is_step := in_step;
  create_child := fun c => (child_of c, set_id_assigned_for_next_workflow "" c);
  new_context := fresh_context;
  assign_workflow_id := fun c u =>
    if String.eqb (id_assigned_for_next_workflow c) ""
    then ("uuid-" +:+ pretty (next_uuid u),
          mkState (operation_outputs u) (transaction_outputs u) (workflow_status u)
            (workflow_inputs u) (script u) (next_uuid u + 1))
    else (id_assigned_for_next_workflow c, u);
  EnterDBOSStep := fun _ =>
    mkScope
      (fun cur => match cur with
                  | Some c => Ok (set_step (function_id c + 1) (function_id c + 1) c)
                  | None => no_context
                  end)
      (fun cur => match cur with
                  | Some c => Some (set_step (function_id c) (-1) c)
                  | None => None
                  end);
  EnterDBOSTransaction := fun session _ =>
    mkScope
      (fun cur => match cur with
                  | Some c => Ok (set_sql_session (function_id c + 1) (Some session) c)
                  | None => no_context
                  end)
      (fun cur => match cur with
                  | Some c => Some (set_sql_session (function_id c) None c)
                  | None => None
                  end);
  DBOSContextEnsure :=
    mkScope
      (fun cur => match cur with
                  | Some c => Ok c
                  | None => Ok fresh_context
                  end)
      (fun cur => cur);
  SetWorkflowID := fun wfid =>
    mkScope
      (fun cur => match cur with
                  | Some c => Ok (set_id_assigned_for_next_workflow wfid c)
                  | None => Ok (set_id_assigned_for_next_workflow wfid fresh_context)
                  end)
      (fun cur => match cur with
                  | Some c => Some (set_id_assigned_for_next_workflow "" c)
                  | None => None
                  end)
|}.

#[global] Instance registrations : Registrations := {|
  DBOSFuncInfo := unit;
  get_func_info := fun _ => Some tt;
  orig_func := fun f => f;
  get_dbos_func_name := wf_name;
  get_dbos_class_name := fun _ _ _ => None;
  get_config_name := fun _ _ _ => None;
  get_temp_workflow_type := fun _ => None
|}.

#[global] Instance runtime : DBOSRuntime state := {|
  retrieve_workflow := fun wfid _ u => (Ok (WorkflowHandlePolling wfid), u);
  executor_submit := fun _ _ _ _ _ u => (Ok 1%positive, u);
  future_result := fun _ u => (Ok PyNone, u)
|}.

(** A user function that plays the script: each call consumes one entry,
    and returns None once the script is used up. *)
Definition scripted (name : string) : Function state :=
  mkFunction state name (fun _ _ u =>
    match script u with
    | r :: rest => (r, with_script rest u)
    | [] => (Ok PyNone, u)
    end).

(** A user function that raises the same exception at every call. *)
Definition failing (name : string) (e : exn) : Function state :=
  mkFunction state name (fun _ _ u => (Raise e, u)).

Definition launched : DBOSRegistry := mkRegistry (Some DBOS_object) ∅ ∅ ∅.

(** A context inside workflow [wfid], with [fid] operations started so far. *)
Definition workflow_context (wfid : string) (fid : Z) : DBOSContext :=
  mkCtx wfid fid (-1) "" "" false "" "" "local" None None None None None [].

Definition in_workflow (wfid : string) (fid : Z) (u : state) : world state :=
  mkWorld (Some (workflow_context wfid fid)) u [].

End Bench.
(** * Properties *)

(** ** Traces *)

Arguments calls : simpl never.
Arguments sleeps : simpl never.
Arguments operation_records : simpl never.

Lemma calls_app (t1 t2 : list event) : calls (t1 ++ t2) = (calls t1 + calls t2)%nat.
Proof. unfold calls. by rewrite List.filter_app, length_app. Qed.

Lemma sleeps_app (t1 t2 : list event) : sleeps (t1 ++ t2) = sleeps t1 ++ sleeps t2.
Proof. unfold sleeps. apply omap_app. Qed.

Lemma operation_records_app (t1 t2 : list event) :
  operation_records (t1 ++ t2) = operation_records t1 ++ operation_records t2.
Proof. unfold operation_records. apply omap_app. Qed.

Lemma py_range_cons (lo hi : Z) :
  lo < hi -> py_range lo hi = lo :: py_range (lo + 1) hi.
Proof.
  intros Hlt. unfold py_range.
  replace (Z.to_nat (hi - lo)) with (S (Z.to_nat (hi - (lo + 1)))) by lia.
  cbn [seq map]. f_equal; [lia|].
  rewrite <- seq_shift, map_map.
  apply map_ext. intros i. lia.
Qed.

Lemma py_range_nil (lo hi : Z) : hi <= lo -> py_range lo hi = [].
Proof.
  intros Hle. unfold py_range.
  replace (Z.to_nat (hi - lo)) with O by lia. reflexivity.
Qed.

(** Counting over a trace that ends in a known list of events. *)
Ltac trace_simpl :=
  rewrite ?calls_app, ?sleeps_app, ?operation_records_app;
  unfold calls, sleeps, operation_records in *; cbn.

(** ** Backoff schedules *)

(** The waits of [n] failed attempts that are each followed by another:
    the first wait is [s], each later one is [next] of the one before. *)
Fixpoint schedule (next : float -> float) (n : nat) (s : float) : list float :=
  match n with
  | O => []
  | S n' => s :: schedule next n' (next s)
  end.

Lemma schedule_iter (next : float -> float) (s0 : float) (n j : nat) :
  schedule next n (Nat.iter j next s0)
  = map (fun k => Nat.iter k next s0) (seq j n).
Proof.
  revert j. induction n as [|n IH]; intros j; [reflexivity|].
  cbn [schedule seq map]. f_equal. apply (IH (S j)).
Qed.

Lemma schedule_length (next : float -> float) (n : nat) (s : float) :
  length (schedule next n s) = n.
Proof. revert s. induction n as [|n IH]; intros s; cbn; [reflexivity|]. by rewrite IH. Qed.

(** [time.sleep] accepts each of the first [n] waits of a schedule. *)
Definition schedule_allowed (next : float -> float) (n : nat) (s : float) : Prop :=
  forall j, (j < n)%nat -> sleep_argument_error (Nat.iter j next s) = None.

Lemma schedule_allowed_S (next : float -> float) (n : nat) (s : float) :
  schedule_allowed next (S n) s ->
  sleep_argument_error s = None /\ schedule_allowed next n (next s).
Proof.
  intros Hall. split; [apply (Hall O); lia|].
  intros j Hj. rewrite <- Nat.iter_succ_r. apply Hall. lia.
Qed.

(** [min(x, cap)] does not exceed [cap]. *)
Lemma py_min_capped (x cap : float) :
  PrimFloat.ltb cap cap = false -> PrimFloat.ltb cap (py_min x cap) = false.
Proof.
  intros Hcap. unfold py_min.
  destruct (PrimFloat.ltb cap x) eqn:E; [exact Hcap | exact E].
Qed.

(** Membership in an explicit list of events: one case per element, the
    impossible ones closed. *)
Ltac in_events H :=
  cbn in H;
  repeat (destruct H as [H|H]; [first [discriminate H | injection H as; subst]|]);
  try (destruct H).

(** ** The step engine *)

Section StepProperties.

Context {U : Type} `{!Utils, !SystemDatabase U, !ContextModule U, !Clock U}.

Variable dbosreg : DBOSRegistry.
Variable interval_seconds : float.
Variable max_attempts : Z.
Variable backoff_rate : float.
Variable func : Function U.

(** The interval after one more failed attempt. *)
Definition next_interval (s : float) : float :=
  py_min (s * backoff_rate)%float max_retry_interval_seconds.

(** The sleep before attempt [k + 2]: [interval_seconds], multiplied by
    [backoff_rate] and capped [k] times. *)
Definition retry_interval (k : nat) : float :=
  Nat.iter k next_interval interval_seconds.

(** An interval that went through the cap does not exceed it. *)
Lemma next_interval_capped (s : float) :
  PrimFloat.ltb max_retry_interval_seconds (next_interval s) = false.
Proof. apply py_min_capped. reflexivity. Qed.

(** [time.sleep] accepts each of the first [n] intervals: none is a NaN,
    negative, or too long for a 64-bit count of nanoseconds. *)
Definition intervals_allowed (n : nat) : Prop :=
  forall k, (k < n)%nat -> sleep_argument_error (retry_interval k) = None.

(** The body raises an [Exception] whenever it is called. *)
Definition always_raises (args : args_t) (kwargs : kwargs_t) : Prop :=
  forall u, exists e u', fn_call func args kwargs u = (Raise e, u') /\ is_Exception e = true.

(** Writing an operation result goes through. *)
Definition record_succeeds : Prop :=
  forall r u, exists u', record_operation_result r u = (Ok tt, u').

(** The retry loop when every attempt fails: from attempt [k] on, with [m]
    more attempts after it. *)
Lemma step_attempts_exhausted (args : args_t) (kwargs : kwargs_t) :
  always_raises args kwargs ->
  forall (m : nat) (k : Z) (l : step_locals) (w : world U),
    k + Z.of_nat m = max_attempts ->
    schedule_allowed next_interval m (sl_local_interval_seconds l) ->
    exists l' w' tr,
      step_attempts true max_attempts backoff_rate func args kwargs
        (py_range k (max_attempts + 1)) l w = (Ok l', w')
      /\ sl_error l' = Some DBOSMaxStepRetriesExceeded
      /\ sl_output l' = sl_output l
      /\ sl_step_output l' = sl_step_output l
      /\ local_ctx w' = local_ctx w
      /\ trace w' = trace w ++ tr
      /\ calls tr = S m
      /\ sleeps tr = schedule next_interval m (sl_local_interval_seconds l)
      /\ operation_records tr = []
      /\ exists pre post,
           tr = pre ++ EvCall (fn_name func) args kwargs :: post
           /\ calls post = O /\ sleeps post = [].
Proof.
  intros Hraise m. induction m as [|m IH]; intros k l w Hk Hallowed.
  - rewrite py_range_cons by lia. rewrite (py_range_nil (k + 1)) by lia.
    destruct (Hraise (ext w)) as (e & u' & Hcall & Hexc).
    cbn [step_attempts]. unfold call_func, ext_call. rewrite Hcall, Hexc.
    unfold bind, emit, local_max_attempts. cbn.
    replace (k =? max_attempts) with true by (symmetry; apply Z.eqb_eq; lia).
    cbn. eexists _, _, _. split; [reflexivity|]. cbn.
    do 4 (split; [reflexivity|]).
    split; [rewrite <- !app_assoc; reflexivity|].
    do 3 (split; [reflexivity|]).
    + exists [], [EvLogWarning
                    ("Step being automatically retried. (attempt " +:+
                     py_str_int k +:+ " of " +:+ py_str_int max_attempts +:+ "). ");
                  EvSpanAddEvent ("Step attempt " +:+ py_str_int k +:+ " failed")
                    (Some e) (sl_local_interval_seconds l)].
      repeat split.
  - rewrite py_range_cons by lia.
    destruct (Hraise (ext w)) as (e & u' & Hcall & Hexc).
    cbn [step_attempts]. unfold call_func, ext_call. rewrite Hcall, Hexc.
    unfold bind, emit, local_max_attempts. cbn.
    replace (k =? max_attempts) with false by (symmetry; apply Z.eqb_neq; lia).
    destruct (schedule_allowed_S _ _ _ Hallowed) as [Hsleep Hrest].
    unfold time_sleep, ext_call. rewrite Hsleep. cbn.
    match goal with
    | |- context [step_attempts _ _ _ _ _ _ _ ?l1 ?w1] =>
        destruct (IH (k + 1) l1 w1 ltac:(lia) Hrest)
          as (l' & w' & tr & Hrun & He & Ho & Hso & Hctx & Htr & Hcalls & Hsl & Hops & Hlast)
    end.
    cbn in Ho, Hso, Hctx, Htr, Hsl.
    exists l', w'. eexists. split; [exact Hrun|].
    split; [exact He|]. split; [exact Ho|]. split; [exact Hso|].
    split; [exact Hctx|].
    split; [rewrite Htr, <- !app_assoc; cbn; reflexivity|].
    split; [unfold calls in *; cbn; rewrite Hcalls; reflexivity|].
    split; [unfold sleeps in *; cbn; rewrite Hsl; reflexivity|].
    split; [unfold operation_records in *; cbn; exact Hops|].
    destruct Hlast as (pre & post & -> & Hc & Hs).
    eexists (_ :: _ :: _ :: _ :: pre), post. repeat split; assumption.
Qed.


Let step_attributes : TracedAttributes := mkAttrs (fn_name func) (Some STEP).

(** C1. A step whose (workflow_id, function_id) already has a recorded
    result does not run its body: the lookup is the only call made, the
    external state is the one the lookup left.  A record with an error raises
    the deserialized error; otherwise a record with an output returns the
    deserialized output; a record with neither raises. *)
Theorem invoke_step_replays_recorded_result
    (retries_allowed : bool) (args : args_t) (kwargs : kwargs_t) (w : world U)
    (dbos : DBOS) (ctx : DBOSContext) (recorded : RecordedResult) (u1 : U) :
  reg_dbos dbosreg = Some dbos ->
  scope_enter (EnterDBOSStep step_attributes) (local_ctx w) = Ok ctx ->
  check_operation_execution (workflow_id ctx) (function_id ctx) (ext w)
    = (Ok (Some recorded), u1) ->
  let '(r, w') :=
    invoke_step dbosreg retries_allowed interval_seconds max_attempts
      backoff_rate func args kwargs w in
  trace w' = trace w ++ [EvCheckOperationExecution (workflow_id ctx) (function_id ctx)]
  /\ calls (trace w') = calls (trace w)
  /\ ext w' = u1
  /\ (forall err, rr_error recorded = Some err ->
        r = py_raise (deserialize err)
        /\ forall e, deserialize err = PyExc e -> r = Raise e)
  /\ (forall out, rr_error recorded = None -> rr_output recorded = Some out ->
        r = Ok (deserialize out))
  /\ (rr_error recorded = None -> rr_output recorded = None ->
        r = Raise (Exception "Output and error are both None")).
Proof.
  intros Hreg Henter Hcheck.
  unfold invoke_step. rewrite Hreg.
  unfold with_scope. fold step_attributes. rewrite Henter.
  unfold bind, ext_call. cbn. rewrite Hcheck.
  destruct recorded as [[out|] [err|]]; cbn;
    (split; [reflexivity|]);
    (split; [trace_simpl; lia|]);
    (split; [reflexivity|]);
    repeat split; intros; try discriminate; try congruence.
  all: match goal with
       | H1 : Some _ = Some _, H2 : deserialize _ = PyExc _ |- _ =>
           injection H1 as <-; rewrite H2; reflexivity
       end.
Qed.

(** C2, as amended: with retries allowed, at least one attempt allowed,
    intervals that [time.sleep] accepts, and a body that raises an
    [Exception] at every call, the body runs max_attempts times, the one
    record written and the error raised are DBOSMaxStepRetriesExceeded, the
    sleeps are interval_seconds, then each time the previous interval times
    backoff_rate capped at 3600, one sleep fewer than attempts, and nothing
    sleeps after the last call of the body. *)
Theorem invoke_step_retries_exhausted
    (args : args_t) (kwargs : kwargs_t) (w : world U)
    (dbos : DBOS) (ctx : DBOSContext) (u1 : U) :
  reg_dbos dbosreg = Some dbos ->
  1 <= max_attempts ->
  intervals_allowed (Z.to_nat max_attempts - 1) ->
  scope_enter (EnterDBOSStep step_attributes) (local_ctx w) = Ok ctx ->
  check_operation_execution (workflow_id ctx) (function_id ctx) (ext w)
    = (Ok None, u1) ->
  always_raises args kwargs ->
  record_succeeds ->
  let '(r, w') :=
    invoke_step dbosreg true interval_seconds max_attempts
      backoff_rate func args kwargs w in
  let recorded :=
    mkOpResult (workflow_id ctx) (function_id ctx) None
      (Some (serialize (PyExc DBOSMaxStepRetriesExceeded))) in
  r = Raise DBOSMaxStepRetriesExceeded
  /\ calls (trace w') = (calls (trace w) + Z.to_nat max_attempts)%nat
  /\ operation_records (trace w') = operation_records (trace w) ++ [recorded]
  /\ sleeps (trace w')
     = sleeps (trace w) ++ map retry_interval (seq 0 (Z.to_nat max_attempts - 1))
  /\ (forall k,
        PrimFloat.ltb max_retry_interval_seconds (retry_interval (S k)) = false)
  /\ exists pre post,
       trace w' = pre ++ EvCall (fn_name func) args kwargs :: post
       /\ calls post = O /\ sleeps post = [].
Proof.
  intros Hreg Hmax Hallowed Henter Hcheck Hraise Hrecord.
  unfold invoke_step. rewrite Hreg.
  unfold with_scope. fold step_attributes. rewrite Henter.
  unfold bind at 1. unfold ext_call at 1. cbn [local_ctx ext trace].
  rewrite Hcheck. unfold bind at 1.
  set (l0 := mkStepLocals PyNone _ None interval_seconds).
  set (w0 := mkWorld _ u1 _).
  destruct (step_attempts_exhausted args kwargs Hraise
              (Z.to_nat (max_attempts - 1)) 1 l0 w0 ltac:(lia)
              ltac:(intros j Hj; apply Hallowed; lia))
    as (l' & w1 & tr & Hrun & He & Ho & Hso & Hctx & Htr & Hcalls & Hsl & Hops & Hlast).
  unfold local_max_attempts. rewrite Hrun.
  rewrite He, Hso. cbn [sl_step_output l0 op_workflow_uuid op_function_id op_output].
  unfold bind, ext_call.
  match goal with
  | |- context [record_operation_result ?r ?u] =>
      destruct (Hrecord r u) as (u3 & ->)
  end.
  cbn. rewrite Htr. cbn.
  split; [reflexivity|].
  split; [rewrite !calls_app, Hcalls; trace_simpl; lia|].
  split; [rewrite !operation_records_app, Hops; trace_simpl; rewrite <- !app_assoc; reflexivity|].
  split.
  { rewrite !sleeps_app, Hsl. unfold sleeps at 2 3. cbn. rewrite !app_nil_r.
    change interval_seconds with (Nat.iter 0 next_interval interval_seconds).
    rewrite schedule_iter. do 3 f_equal. lia. }
  split; [intros k; apply next_interval_capped|].
  destruct Hlast as (pre & post & -> & Hc & Hs).
  eexists ((trace w ++ [_]) ++ pre), (post ++ [_]).
  split; [rewrite <- !app_assoc; cbn; reflexivity|].
  split; [rewrite calls_app, Hc; reflexivity|].
  rewrite sleeps_app, Hs. reflexivity.
Qed.

(** C10, as amended: the exceptions recorded are the [Exception]s.
    Without retries, a body that raises an [Exception] on a first execution
    runs once; that exception is what the record holds as its error and what
    the caller gets. *)
Theorem invoke_step_single_failure
    (args : args_t) (kwargs : kwargs_t) (w : world U)
    (dbos : DBOS) (ctx : DBOSContext) (e : exn) (u1 u2 u3 : U) :
  let recorded :=
    mkOpResult (workflow_id ctx) (function_id ctx) None
      (Some (serialize (PyExc e))) in
  reg_dbos dbosreg = Some dbos ->
  scope_enter (EnterDBOSStep step_attributes) (local_ctx w) = Ok ctx ->
  check_operation_execution (workflow_id ctx) (function_id ctx) (ext w)
    = (Ok None, u1) ->
  fn_call func args kwargs u1 = (Raise e, u2) ->
  is_Exception e = true ->
  record_operation_result recorded u2 = (Ok tt, u3) ->
  let '(r, w') :=
    invoke_step dbosreg false interval_seconds max_attempts
      backoff_rate func args kwargs w in
  r = Raise e
  /\ calls (trace w') = (calls (trace w) + 1)%nat
  /\ operation_records (trace w') = operation_records (trace w) ++ [recorded]
  /\ trace w'
     = trace w ++ [EvCheckOperationExecution (workflow_id ctx) (function_id ctx);
                   EvCall (fn_name func) args kwargs;
                   EvRecordOperationResult recorded]
  /\ ext w' = u3.
Proof.
  intros recorded Hreg Henter Hcheck Hcall Hexc Hrecord.
  unfold invoke_step. rewrite Hreg.
  unfold with_scope. fold step_attributes. rewrite Henter.
  unfold bind at 1. unfold ext_call at 1. cbn [local_ctx ext trace].
  rewrite Hcheck. unfold bind at 1.
  unfold local_max_attempts. cbn [py_range Z.add Z.sub Z.to_nat].
  change (py_range 1 (1 + 1)) with [1].
  cbn [step_attempts]. unfold call_func, ext_call. cbn [local_ctx ext trace].
  rewrite Hcall, Hexc. unfold ret, bind. cbn.
  fold recorded. rewrite Hrecord. cbn.
  split; [reflexivity|].
  split; [trace_simpl; lia|].
  split; [trace_simpl; rewrite <- ?app_assoc; reflexivity|].
  split; [rewrite <- !app_assoc; reflexivity|reflexivity].
Qed.

End StepProperties.

(** *** First executions of a step *)

Section StepFirstExecution.

Context {U : Type} `{!Utils, !SystemDatabase U, !ContextModule U, !Clock U}.

Variable dbosreg : DBOSRegistry.
Variable interval_seconds : float.
Variable max_attempts : Z.
Variable backoff_rate : float.
Variable func : Function U.
Variable args : args_t.
Variable kwargs : kwargs_t.

Let attributes : TracedAttributes := mkAttrs (fn_name func) (Some STEP).
Let next (s : float) : float := next_interval backoff_rate s.

(** [attempts_fail j s u s' u']: from external state [u] with interval [s],
    the next [j] calls of the body each raise an [Exception], the engine
    sleeping after each for an interval that [time.sleep] accepts, and leave
    state [u'] and interval [s']. *)
Inductive attempts_fail : nat -> float -> U -> float -> U -> Prop :=
| attempts_fail_O s u : attempts_fail O s u s u
| attempts_fail_S j s u e u1 s' u' :
    fn_call func args kwargs u = (Raise e, u1) ->
    is_Exception e = true ->
    sleep_argument_error s = None ->
    attempts_fail j (next s) (elapse s u1) s' u' ->
    attempts_fail (S j) s u s' u'.

(** The loop when [j] attempts fail and the next one returns. *)
Lemma step_attempts_eventually_return (retries_allowed : bool) (j : nat) :
  let limit := local_max_attempts retries_allowed max_attempts in
  forall (k : Z) (l : step_locals) (w : world U) (s' : float) (u_j u' : U)
         (output : pyobj),
    attempts_fail j (sl_local_interval_seconds l) (ext w) s' u_j ->
    fn_call func args kwargs u_j = (Ok output, u') ->
    1 <= k -> k + Z.of_nat j <= limit ->
    exists tr,
      step_attempts retries_allowed max_attempts backoff_rate func args kwargs
        (py_range k (limit + 1)) l w
      = (Ok (mkStepLocals output
               (mkOpResult (op_workflow_uuid (sl_step_output l))
                  (op_function_id (sl_step_output l))
                  (Some (serialize output)) (op_error (sl_step_output l)))
               None s'),
         mkWorld (local_ctx w) u' (trace w ++ tr))
      /\ calls tr = S j
      /\ sleeps tr = schedule next j (sl_local_interval_seconds l)
      /\ operation_records tr = [].
Proof.
  intros limit.
  induction j as [|j IH]; intros k l w s' u_j u' output Hfail Hcall Hk Hlimit.
  - inversion Hfail; subst.
    rewrite py_range_cons by lia. cbn [step_attempts].
    unfold call_func, ext_call. rewrite Hcall.
    eexists. split; [reflexivity|]. repeat split.
  - inversion Hfail as [|j' s u e u1 s'' u'' Hraise Hexc Hsleep Hrest]; subst.
    rewrite py_range_cons by lia. cbn [step_attempts].
    unfold call_func, ext_call. rewrite Hraise, Hexc.
    subst limit. unfold local_max_attempts in *.
    destruct retries_allowed; [|lia].
    unfold bind, emit. cbn [local_ctx ext trace].
    replace (k =? max_attempts) with false by (symmetry; apply Z.eqb_neq; lia).
    unfold time_sleep, ext_call. rewrite Hsleep.
    cbn [local_ctx ext trace].
    match goal with
    | |- context [step_attempts _ _ _ _ _ _ _ ?l1 ?w1] =>
        destruct (IH (k + 1) l1 w1 s' u_j u' output) as (tr & Hrun & Hc & Hs & Ho);
          [exact Hrest | exact Hcall | lia | lia |]
    end.
    rewrite Hrun. cbn [local_ctx ext trace sl_step_output
      sl_local_interval_seconds].
    eexists. split; [rewrite <- !app_assoc; reflexivity|].
    cbn [app]. unfold calls, sleeps, operation_records in *. cbn.
    rewrite Hc, Hs, Ho. repeat split.
Qed.

(** X1. A first execution in which [j] attempts raise an [Exception], each
    followed by a sleep whose interval [time.sleep] accepts, and the next
    attempt returns, within the attempts allowed: the body ran [j + 1] times,
    the engine slept after each failure on the backoff schedule, the one
    record written holds the serialized output and no error, and the output
    is returned. *)
Theorem invoke_step_returns_after_failures
    (retries_allowed : bool) (w : world U) (dbos : DBOS) (ctx : DBOSContext)
    (j : nat) (s' : float) (u1 u_j u' u3 : U) (output : pyobj) :
  let recorded :=
    mkOpResult (workflow_id ctx) (function_id ctx) (Some (serialize output)) None in
  reg_dbos dbosreg = Some dbos ->
  scope_enter (EnterDBOSStep attributes) (local_ctx w) = Ok ctx ->
  check_operation_execution (workflow_id ctx) (function_id ctx) (ext w)
    = (Ok None, u1) ->
  attempts_fail j interval_seconds u1 s' u_j ->
  fn_call func args kwargs u_j = (Ok output, u') ->
  Z.of_nat j < local_max_attempts retries_allowed max_attempts ->
  record_operation_result recorded u' = (Ok tt, u3) ->
  let '(r, w') :=
    invoke_step dbosreg retries_allowed interval_seconds max_attempts
      backoff_rate func args kwargs w in
  r = Ok output
  /\ calls (trace w') = (calls (trace w) + S j)%nat
  /\ sleeps (trace w')
     = sleeps (trace w) ++ map (retry_interval interval_seconds backoff_rate) (seq 0 j)
  /\ operation_records (trace w') = operation_records (trace w) ++ [recorded]
  /\ ext w' = u3.
Proof.
  intros recorded Hreg Henter Hcheck Hfail Hcall Hj Hrecord.
  unfold invoke_step. rewrite Hreg.
  unfold with_scope. fold attributes. rewrite Henter.
  unfold bind at 1. unfold ext_call at 1. cbn [local_ctx ext trace].
  rewrite Hcheck. unfold bind at 1.
  match goal with
  | |- context [step_attempts _ _ _ _ _ _ _ ?l0 ?w0] =>
      destruct (step_attempts_eventually_return retries_allowed j 1 l0 w0
                  s' u_j u' output Hfail Hcall ltac:(lia) ltac:(lia))
        as (tr & -> & Hc & Hs & Ho)
  end.
  unfold bind, ext_call, ret. cbn [local_ctx ext trace sl_error sl_output
    sl_step_output op_workflow_uuid op_function_id op_output op_error].
  fold recorded. rewrite Hrecord. cbn [local_ctx ext trace].
  split; [reflexivity|].
  rewrite <- !app_assoc.
  split; [rewrite !calls_app, Hc; trace_simpl; lia|].
  split.
  { rewrite !sleeps_app, Hs. unfold sleeps at 2 3. cbn. rewrite app_nil_r.
    change interval_seconds with (Nat.iter 0 next interval_seconds) at 1.
    rewrite schedule_iter. reflexivity. }
  split; [rewrite !operation_records_app, Ho; trace_simpl; reflexivity|reflexivity].
Qed.

(** X2. A body that raises something that is not an [Exception] (a
    KeyboardInterrupt) on its first attempt: it is raised as it is, with or
    without retries; no retry, no sleep and no record follow the call. *)
Theorem invoke_step_base_exception_propagates
    (retries_allowed : bool) (w : world U) (dbos : DBOS) (ctx : DBOSContext)
    (e : exn) (u1 u2 : U) :
  reg_dbos dbosreg = Some dbos ->
  scope_enter (EnterDBOSStep attributes) (local_ctx w) = Ok ctx ->
  check_operation_execution (workflow_id ctx) (function_id ctx) (ext w)
    = (Ok None, u1) ->
  1 <= local_max_attempts retries_allowed max_attempts ->
  fn_call func args kwargs u1 = (Raise e, u2) ->
  is_Exception e = false ->
  let '(r, w') :=
    invoke_step dbosreg retries_allowed interval_seconds max_attempts
      backoff_rate func args kwargs w in
  r = Raise e
  /\ trace w'
     = trace w ++ [EvCheckOperationExecution (workflow_id ctx) (function_id ctx);
                   EvCall (fn_name func) args kwargs]
  /\ ext w' = u2.
Proof.
  intros Hreg Henter Hcheck Hlimit Hcall Hexc.
  unfold invoke_step. rewrite Hreg.
  unfold with_scope. fold attributes. rewrite Henter.
  unfold bind at 1. unfold ext_call at 1. cbn [local_ctx ext trace].
  rewrite Hcheck. unfold bind at 1.
  rewrite py_range_cons by lia. cbn [step_attempts].
  unfold call_func, ext_call. cbn [local_ctx ext trace]. rewrite Hcall, Hexc.
  cbn [local_ctx ext trace].
  split; [reflexivity|]. split; [rewrite <- app_assoc; reflexivity|reflexivity].
Qed.

(** X3. When the write of the record raises, that exception is the outcome
    of the step: the output the body returned is not returned. *)
Theorem invoke_step_record_failure_is_raised
    (retries_allowed : bool) (w : world U) (dbos : DBOS) (ctx : DBOSContext)
    (e' : exn) (u1 u2 u3 : U) (output : pyobj) :
  let recorded :=
    mkOpResult (workflow_id ctx) (function_id ctx) (Some (serialize output)) None in
  reg_dbos dbosreg = Some dbos ->
  scope_enter (EnterDBOSStep attributes) (local_ctx w) = Ok ctx ->
  check_operation_execution (workflow_id ctx) (function_id ctx) (ext w)
    = (Ok None, u1) ->
  1 <= local_max_attempts retries_allowed max_attempts ->
  fn_call func args kwargs u1 = (Ok output, u2) ->
  record_operation_result recorded u2 = (Raise e', u3) ->
  let '(r, w') :=
    invoke_step dbosreg retries_allowed interval_seconds max_attempts
      backoff_rate func args kwargs w in
  r = Raise e' /\ calls (trace w') = (calls (trace w) + 1)%nat /\ ext w' = u3.
Proof.
  intros recorded Hreg Henter Hcheck Hlimit Hcall Hrecord.
  unfold invoke_step. rewrite Hreg.
  unfold with_scope. fold attributes. rewrite Henter.
  unfold bind at 1. unfold ext_call at 1. cbn [local_ctx ext trace].
  rewrite Hcheck. unfold bind at 1.
  rewrite py_range_cons by lia. cbn [step_attempts].
  unfold call_func, ext_call. cbn [local_ctx ext trace]. rewrite Hcall.
  unfold bind. cbn [local_ctx ext trace sl_error sl_output
    sl_step_output op_workflow_uuid op_function_id op_output op_error].
  fold recorded. rewrite Hrecord. cbn [local_ctx ext trace].
  split; [reflexivity|]. split; [trace_simpl; lia|reflexivity].
Qed.

(** *** Replay after a first execution *)






End StepFirstExecution.

(** *** The step engine on concrete inputs *)

(** Workflow "wf" has started no operation yet; its first one, function id
    1, already has the output "hello" on record. *)
Definition replayed_state : Bench.state :=
  Bench.with_operation_outputs
    {[ ("wf", 1) := mkRecorded (Some "str:hello") None ]} Bench.empty_state.

Lemma invoke_step_replays_recorded_result_witness :
  let '(r, w') :=
    invoke_step Bench.launched false 1%float 3 2%float (Bench.scripted "s") [] []
      (Bench.in_workflow "wf" 0 replayed_state) in
  trace w' = [EvCheckOperationExecution "wf" 1]
  /\ calls (trace w') = O
  /\ r = Ok (PyStr "hello").
Proof.
  pose proof
    (invoke_step_replays_recorded_result Bench.launched 1%float 3 2%float
       (Bench.scripted "s") false [] []
       (Bench.in_workflow "wf" 0 replayed_state) DBOS_object
       (Bench.set_step 1 1 (Bench.workflow_context "wf" 0))
       (mkRecorded (Some "str:hello") None) replayed_state
       eq_refl eq_refl eq_refl) as H.
  destruct (invoke_step _ _ _ _ _ _ _ _ _) as [r w'].
  destruct H as (Ht & Hc & _ & _ & Ho & _).
  split; [exact Ht|]. split; [exact Hc|]. exact (Ho _ eq_refl eq_refl).
Defined.

(** [time.sleep] accepts the intervals 1 s and 2 s. *)
Lemma one_then_two_seconds_allowed : intervals_allowed 1%float 2%float 2.
Proof. intros [|[|k]] Hk; [reflexivity|reflexivity|lia]. Defined.

(** Scenario S5: three attempts allowed, every one fails; the sleeps are 1 s
    and 2 s. *)
Lemma invoke_step_retries_exhausted_witness :
  let '(r, w') :=
    invoke_step Bench.launched true 1%float 3 2%float
      (Bench.failing "s" (UserError "boom")) [] []
      (Bench.in_workflow "wf" 0 Bench.empty_state) in
  r = Raise DBOSMaxStepRetriesExceeded
  /\ calls (trace w') = 3%nat
  /\ operation_records (trace w')
     = [mkOpResult "wf" 1 None (Some "exc:DBOSMaxStepRetriesExceeded")]
  /\ sleeps (trace w') = [1%float; 2%float].
Proof.
  pose proof
    (invoke_step_retries_exhausted Bench.launched 1%float 3 2%float
       (Bench.failing "s" (UserError "boom")) [] []
       (Bench.in_workflow "wf" 0 Bench.empty_state) DBOS_object
       (Bench.set_step 1 1 (Bench.workflow_context "wf" 0)) Bench.empty_state
       eq_refl ltac:(lia) one_then_two_seconds_allowed eq_refl eq_refl
       (fun u => ex_intro _ (UserError "boom")
                   (ex_intro _ u (conj eq_refl eq_refl)))
       (fun r u => ex_intro _ _ eq_refl)) as H.
  destruct (invoke_step _ _ _ _ _ _ _ _ _) as [r w'].
  destruct H as (Hr & Hc & Ho & Hs & _).
  split; [exact Hr|]. split; [exact Hc|]. split; [exact Ho|]. exact Hs.
Defined.

(** The claim C2 read without its three conditions.  With zero attempts
    allowed the body is not called, no error is raised and the record holds
    no error.  With an interval of -1 s the first sleep is refused: the
    ValueError of [time.sleep] is raised after one call of the body, and
    nothing is recorded.  With a body that raises a KeyboardInterrupt, which
    is not an [Exception], it is raised after one call, and nothing is
    recorded. *)
Lemma invoke_step_retries_not_exhausted :
  (let '(r, w') :=
     invoke_step Bench.launched true 1%float 0 2%float
       (Bench.failing "s" (UserError "boom")) [] []
       (Bench.in_workflow "wf" 0 Bench.empty_state) in
   r = Ok PyNone
   /\ calls (trace w') = O
   /\ operation_records (trace w') = [mkOpResult "wf" 1 None None])
  /\ (let '(r, w') :=
        invoke_step Bench.launched true (-1)%float 3 2%float
          (Bench.failing "s" (UserError "boom")) [] []
          (Bench.in_workflow "wf" 0 Bench.empty_state) in
      r = Raise (ValueError "sleep length must be non-negative")
      /\ calls (trace w') = 1%nat
      /\ operation_records (trace w') = [])
  /\ (let '(r, w') :=
        invoke_step Bench.launched true 1%float 3 2%float
          (Bench.failing "s" KeyboardInterrupt) [] []
          (Bench.in_workflow "wf" 0 Bench.empty_state) in
      r = Raise KeyboardInterrupt
      /\ calls (trace w') = 1%nat
      /\ operation_records (trace w') = []).
Proof. vm_compute. repeat split. Qed.

(** The claim C10 read for any exception: a body that raises a
    KeyboardInterrupt, which is not an [Exception], runs once, and nothing is
    recorded for it. *)
Lemma invoke_step_single_failure_not_recorded :
  let '(r, w') :=
    invoke_step Bench.launched false 1%float 3 2%float
      (Bench.failing "s" KeyboardInterrupt) [] []
      (Bench.in_workflow "wf" 0 Bench.empty_state) in
  r = Raise KeyboardInterrupt
  /\ calls (trace w') = 1%nat
  /\ operation_records (trace w') = [].
Proof. vm_compute. repeat split. Qed.

Lemma invoke_step_single_failure_witness :
  let '(r, w') :=
    invoke_step Bench.launched false 1%float 3 2%float
      (Bench.failing "s" (UserError "boom")) [] []
      (Bench.in_workflow "wf" 0 Bench.empty_state) in
  r = Raise (UserError "boom")
  /\ calls (trace w') = 1%nat
  /\ operation_records (trace w')
     = [mkOpResult "wf" 1 None (Some "exc:UserError:boom")].
Proof.
  pose proof
    (invoke_step_single_failure Bench.launched 1%float 3 2%float
       (Bench.failing "s" (UserError "boom")) [] []
       (Bench.in_workflow "wf" 0 Bench.empty_state) DBOS_object
       (Bench.set_step 1 1 (Bench.workflow_context "wf" 0))
       (UserError "boom") Bench.empty_state Bench.empty_state _
       eq_refl eq_refl eq_refl eq_refl eq_refl eq_refl) as H.
  destruct (invoke_step _ _ _ _ _ _ _ _ _) as [r w'].
  destruct H as (Hr & Hc & Ho & _).
  split; [exact Hr|]. split; [exact Hc|]. exact Ho.
Defined.

(** ** The transaction engine *)

Section TransactionProperties.

Context {U : Type} `{!Utils, !ApplicationDatabase U, !ContextModule U, !Clock U}.

Variable isolation_level : string.
Variable func : Function U.

(** The wait after one more serialization failure. *)
Definition next_retry_wait (s : float) : float :=
  py_min (s * backoff_factor)%float max_retry_wait_seconds.

(** The wait after the failure of pass [k + 1]: 1 ms, multiplied by 1.5
    and capped at 2 s [k] times. *)
Definition retry_wait (k : nat) : float :=
  Nat.iter k next_retry_wait initial_retry_wait_seconds.

Lemma retry_wait_capped (k : nat) :
  PrimFloat.ltb max_retry_wait_seconds (retry_wait k) = false.
Proof.
  destruct k as [|k]; [reflexivity|].
  apply py_min_capped. reflexivity.
Qed.

Lemma retry_wait_next (k : nat) :
  retry_wait (S k) = next_retry_wait (retry_wait k).
Proof. reflexivity. Qed.

(** From the failure of pass 20 on the wait is the cap. *)
Lemma retry_wait_at_cap (k : nat) : retry_wait (19 + k) = max_retry_wait_seconds.
Proof.
  induction k as [|k IH]; [vm_compute; reflexivity|].
  rewrite Nat.add_succ_r, retry_wait_next, IH. vm_compute. reflexivity.
Qed.

(** [time.sleep] accepts every wait of the schedule: all lie between 1 ms
    and 2 s. *)
Lemma retry_wait_allowed (k : nat) : sleep_argument_error (retry_wait k) = None.
Proof.
  destruct (le_lt_dec 19 k) as [Hk|Hk].
  - replace k with (19 + (k - 19))%nat by lia.
    rewrite retry_wait_at_cap. vm_compute. reflexivity.
  - do 19 (destruct k as [|k]; [vm_compute; reflexivity|]). lia.
Qed.

(** The state as a pass of the loop finds it: [has_recorded_error = False]. *)
Definition begin_pass (s : tx_locals * world U) : tx_locals * world U :=
  (mkTxLocals (tl_txn_output (fst s)) false, snd s).

(** The state after the handler of a serialization failure: the tracing
    event, then a sleep that takes place. *)
Definition after_conflict (wait : float) (s : tx_locals * world U)
  : tx_locals * world U :=
  (fst s,
   mkWorld (local_ctx (snd s)) (elapse wait (ext (snd s)))
     ((trace (snd s) ++
       [EvSpanAddEvent "Transaction Serialization Failure" None wait]) ++
      [EvSleep wait])).

Section OnePass.

Variable session : positive.
Variable ctx : DBOSContext.
Variable args : args_t.
Variable kwargs : kwargs_t.

Let try_block := tx_try_block isolation_level func session ctx args kwargs.
Let loop (fuel : nat) := tx_loop isolation_level func fuel session ctx args kwargs.

(** [conflicts n wait s wait' s']: from state [s] with wait [wait], the next
    [n] passes each end in a DBAPIError with SQLSTATE 40001, and leave the
    loop in state [s'] with wait [wait']. *)
Inductive conflicts :
  nat -> float -> tx_locals * world U -> float -> tx_locals * world U -> Prop :=
| conflicts_O wait s : conflicts O wait s wait s
| conflicts_S n wait s s1 wait' s' :
    try_block (begin_pass s) = (Raise (DBAPIError "40001"), s1) ->
    conflicts n (next_retry_wait wait) (after_conflict wait s1) wait' s' ->
    conflicts (S n) wait s wait' s'.

(** A pass that is not a serialization failure. *)
Definition leaves_loop (o : result tx_flow) : Prop :=
  match o with
  | Ok _ => True
  | Raise e => dbapi_sqlstate e <> Some "40001"
  end.

(** *** Computations that never sleep *)

Definition quiet {A : Type} (m : St (tx_locals * world U) A) : Prop :=
  forall s, sleeps (trace (snd (snd (m s)))) = sleeps (trace (snd s)).

Lemma quiet_ret {A : Type} (a : A) : quiet (ret a).
Proof. intros s. reflexivity. Qed.

Lemma quiet_raise {A : Type} (e : exn) : quiet (@raise _ A e).
Proof. intros s. reflexivity. Qed.

Lemma quiet_raise_obj {A : Type} (x : pyobj) : quiet (@raise_obj _ A x).
Proof. intros s. reflexivity. Qed.

Lemma quiet_get_locals : quiet get_locals.
Proof. intros s. reflexivity. Qed.

Lemma quiet_set_locals (l : tx_locals) : quiet (set_locals l).
Proof. intros s. reflexivity. Qed.

Lemma quiet_bind {A B : Type} (m : St (tx_locals * world U) A)
    (k : A -> St (tx_locals * world U) B) :
  quiet m -> (forall a, quiet (k a)) -> quiet (bind m k).
Proof.
  intros Hm Hk s. unfold bind. specialize (Hm s).
  destruct (m s) as [[a|e] s1]; cbn in *; [|exact Hm].
  rewrite (Hk a s1). exact Hm.
Qed.

Lemma quiet_ext_call {A : Type} (ev : event) (f : ext_fun U A) :
  sleep_of ev = None -> quiet (lift (ext_call ev f)).
Proof.
  intros Hev [l w]. unfold lift, ext_call. cbn.
  destruct (f (ext w)) as [r u]. cbn.
  rewrite sleeps_app. unfold sleeps at 2. cbn. rewrite Hev. apply app_nil_r.
Qed.

Lemma quiet_with_session_begin {A : Type} (body : St (tx_locals * world U) A) :
  quiet body -> quiet (with_session_begin session body).
Proof.
  intros Hbody s. unfold with_session_begin.
  pose proof (quiet_ext_call EvSessionBegin (session_begin session) eq_refl s) as H1.
  destruct (lift (ext_call EvSessionBegin (session_begin session)) s)
    as [[[]|e] s1]; cbn in *; [|exact H1].
  specialize (Hbody s1).
  destruct (body s1) as [[a|e] s2]; cbn in *.
  - pose proof (quiet_ext_call EvSessionCommit (session_commit session) eq_refl s2) as H2.
    destruct (lift (ext_call EvSessionCommit (session_commit session)) s2)
      as [[[]|e] s3]; cbn in *; congruence.
  - pose proof (quiet_ext_call EvSessionRollback (session_rollback session) eq_refl s2)
      as H2.
    destruct (lift (ext_call EvSessionRollback (session_rollback session)) s2)
      as [[[]|e'] s3]; cbn in *; congruence.
Qed.

Create HintDb quiet.
#[local] Hint Resolve quiet_ret quiet_raise quiet_raise_obj quiet_get_locals
  quiet_set_locals quiet_with_session_begin : quiet.
#[local] Hint Extern 1 (quiet (lift (ext_call _ _))) =>
  apply quiet_ext_call; reflexivity : quiet.
#[local] Hint Extern 2 (quiet (bind _ _)) => apply quiet_bind; [|intros ?] : quiet.
#[local] Hint Extern 3 (quiet (match ?x with _ => _ end)) => destruct x : quiet.

(** The try block never sleeps. *)
Lemma tx_try_block_quiet : quiet try_block.
Proof. subst try_block. unfold tx_try_block. auto 20 with quiet. Qed.

(** *** The retry loop *)

Lemma tx_loop_conflict (fuel : nat) (wait : float) (s s1 : tx_locals * world U) :
  try_block (begin_pass s) = (Raise (DBAPIError "40001"), s1) ->
  sleep_argument_error wait = None ->
  loop (S fuel) wait s = loop fuel (next_retry_wait wait) (after_conflict wait s1).
Proof.
  intros Htry Hsleep. subst loop try_block. cbn [tx_loop].
  unfold begin_pass in Htry. rewrite Htry. cbn.
  unfold bind, lift, emit, time_sleep, ext_call. cbn. rewrite Hsleep.
  destruct s1 as [l1 w1]. reflexivity.
Qed.

Lemma conflicts_loop (n : nat) (wait wait' : float) (s s' : tx_locals * world U) :
  conflicts n wait s wait' s' ->
  schedule_allowed next_retry_wait n wait ->
  forall fuel, loop (n + fuel) wait s = loop fuel wait' s'.
Proof.
  induction 1 as [|n wait s s1 wait' s' Htry _ IH]; intros Hallowed fuel;
    [reflexivity|].
  destruct (schedule_allowed_S _ _ _ Hallowed) as [Hsleep Hrest].
  cbn [Nat.add]. rewrite (tx_loop_conflict _ _ _ _ Htry Hsleep). apply IH.
  exact Hrest.
Qed.

Lemma conflicts_schedule (n : nat) (wait wait' : float) (s s' : tx_locals * world U) :
  conflicts n wait s wait' s' ->
  wait' = Nat.iter n next_retry_wait wait
  /\ sleeps (trace (snd s'))
     = sleeps (trace (snd s)) ++ schedule next_retry_wait n wait.
Proof.
  induction 1 as [|n wait s s1 wait' s' Htry _ [IHw IHs]].
  - split; [reflexivity|]. cbn. by rewrite app_nil_r.
  - split; [rewrite IHw; symmetry; apply Nat.iter_succ_r|].
    rewrite IHs. unfold after_conflict. cbn [snd trace schedule].
    rewrite !sleeps_app.
    pose proof (tx_try_block_quiet (begin_pass s)) as Hq. rewrite Htry in Hq.
    cbn [snd fst begin_pass] in Hq. rewrite Hq.
    unfold sleeps at 2 3. cbn. rewrite <- !app_assoc. reflexivity.
Qed.

(** A pass that is not a serialization failure is the last one. *)
Lemma tx_loop_last_pass (fuel : nat) (wait : float) (s s1 : tx_locals * world U)
    (o : result tx_flow) :
  try_block (begin_pass s) = (o, s1) ->
  leaves_loop o ->
  exists r s',
    loop (S fuel) wait s = (r, s')
    /\ r <> Ok None
    /\ sleeps (trace (snd s')) = sleeps (trace (snd s))
    /\ (forall flow, o = Ok flow -> r = Ok (Some flow) /\ s' = s1)
    /\ (forall e sqlstate, o = Raise e -> dbapi_sqlstate e = Some sqlstate ->
          r = Raise e /\ s' = s1).
Proof.
  intros Htry Hleave.
  pose proof (tx_try_block_quiet (begin_pass s)) as Hq. rewrite Htry in Hq.
  cbn [snd fst begin_pass] in Hq.
  subst loop try_block. cbn [tx_loop].
  unfold begin_pass in Htry. rewrite Htry.
  destruct o as [flow|e].
  - eexists _, _. split; [reflexivity|].
    split; [discriminate|]. split; [exact Hq|].
    split; [intros ? [= <-]; split; reflexivity | intros ? ? [=]].
  - cbn in Hleave. destruct (dbapi_sqlstate e) as [sqlstate|] eqn:Esql.
    + destruct (String.eqb sqlstate "40001") eqn:E.
      { apply String.eqb_eq in E. congruence. }
      eexists _, _. split; [reflexivity|].
      split; [discriminate|]. split; [exact Hq|].
      split; [intros ? [=] | intros ? ? [= <-] _; split; reflexivity].
    + destruct (is_Exception e); [destruct (tl_has_recorded_error (fst s1))|].
      * eexists _, _. split; [reflexivity|].
        split; [discriminate|]. split; [exact Hq|].
        split; [intros ? [=] | intros ? ? [= <-]; congruence].
      * unfold bind, set_locals, lift, ext_call, raise. cbn.
        destruct (record_transaction_error _ _) as [[[]|e'] u'];
          (eexists _, _; split; [reflexivity|]);
          (split; [discriminate|]);
          (split; [cbn; rewrite sleeps_app, Hq; unfold sleeps at 2; cbn;
                   apply app_nil_r|]);
          (split; [intros ? [=] | intros ? ? [= <-]; congruence]).
      * eexists _, _. split; [reflexivity|].
        split; [discriminate|]. split; [exact Hq|].
        split; [intros ? [=] | intros ? ? [= <-]; congruence].
Qed.

(** C3. When the first [n] passes of the loop each raise a DBAPIError with
    SQLSTATE 40001 and the next pass does not, the loop ends in that pass,
    whatever [n] is: it slept [n] times, the waits being 0.001 s and then
    each time the previous wait times 1.5 (in binary64 arithmetic), capped
    at 2 s; an outcome of the last pass that is a return, or a DBAPIError of
    another SQLSTATE, is the outcome of the loop, with no further sleep. *)
Theorem tx_loop_retries_serialization_failures
    (n : nat) (s s_n s_last : tx_locals * world U) (wait_n : float)
    (o : result tx_flow) :
  conflicts n initial_retry_wait_seconds s wait_n s_n ->
  try_block (begin_pass s_n) = (o, s_last) ->
  leaves_loop o ->
  forall fuel, (n < fuel)%nat ->
    let '(r, s') := loop fuel initial_retry_wait_seconds s in
    r <> Ok None
    /\ sleeps (trace (snd s'))
       = sleeps (trace (snd s)) ++ map retry_wait (seq 0 n)
    /\ retry_wait 0 = 0.001%float
    /\ (forall k, retry_wait (S k)
                  = py_min (retry_wait k * 1.5)%float 2.0%float)
    /\ (forall k, PrimFloat.ltb 2.0%float (retry_wait k) = false)
    /\ (forall flow, o = Ok flow -> r = Ok (Some flow) /\ s' = s_last)
    /\ (forall e sqlstate, o = Raise e -> dbapi_sqlstate e = Some sqlstate ->
          r = Raise e /\ s' = s_last).
Proof.
  intros Hconf Htry Hleave fuel Hfuel.
  replace fuel with (n + S (fuel - S n))%nat by lia.
  rewrite (conflicts_loop _ _ _ _ _ Hconf (fun j _ => retry_wait_allowed j)).
  destruct (conflicts_schedule _ _ _ _ _ Hconf) as [-> Hsl].
  destruct (tx_loop_last_pass (fuel - S n) (Nat.iter n next_retry_wait
              initial_retry_wait_seconds) _ _ _ Htry Hleave)
    as (r & s' & -> & Hr & Hs & Hok & Herr).
  split; [exact Hr|].
  split.
  { rewrite Hs, Hsl.
    change initial_retry_wait_seconds
      with (Nat.iter 0 next_retry_wait initial_retry_wait_seconds) at 1.
    rewrite schedule_iter. reflexivity. }
  split; [reflexivity|].
  split; [intros k; reflexivity|].
  split; [exact retry_wait_capped|].
  split; assumption.
Qed.

(** *** Replay of a recorded transaction

    What a pass does when the lookup finds a row, for columns that count as
    true (neither None nor the empty string), and for a row with two None
    columns.  The session calls are taken to go through. *)
Lemma tx_loop_replays_recorded_result
    (fuel : nat) (wait : float) (l : tx_locals) (w : world U)
    (recorded : RecordedResult) (u1 u2 u3 u4 : U) :
  session_begin session (ext w) = (Ok tt, u1) ->
  session_connection session isolation_level u1 = (Ok tt, u2) ->
  check_transaction_execution session (workflow_id ctx) (function_id ctx) u2
    = (Ok (Some recorded), u3) ->
  let lookup :=
    [EvSessionBegin; EvSessionConnection isolation_level;
     EvCheckTransactionExecution (workflow_id ctx) (function_id ctx)] in
  (forall err e,
     truthy_column (rr_error recorded) = Some err ->
     deserialize err = PyExc e ->
     dbapi_sqlstate e = None ->
     session_rollback session u3 = (Ok tt, u4) ->
     loop (S fuel) wait (l, w)
     = (Raise e,
        (mkTxLocals (tl_txn_output l) true,
         mkWorld (local_ctx w) u4 (trace w ++ lookup ++ [EvSessionRollback]))))
  /\ (forall out,
        truthy_column (rr_error recorded) = None ->
        truthy_column (rr_output recorded) = Some out ->
        session_commit session u3 = (Ok tt, u4) ->
        loop (S fuel) wait (l, w)
        = (Ok (Some (FlowReturn (deserialize out))),
           (mkTxLocals (tl_txn_output l) false,
            mkWorld (local_ctx w) u4 (trace w ++ lookup ++ [EvSessionCommit]))))
  /\ (forall u5,
        rr_error recorded = None ->
        rr_output recorded = None ->
        session_rollback session u3 = (Ok tt, u4) ->
        let e := Exception "Output and error are both None" in
        let txn_output :=
          set_txn_output_error (Some (serialize (PyExc e))) (tl_txn_output l) in
        record_transaction_error txn_output u4 = (Ok tt, u5) ->
        loop (S fuel) wait (l, w)
        = (Raise e,
           (mkTxLocals txn_output false,
            mkWorld (local_ctx w) u5
              (trace w ++ lookup ++
               [EvSessionRollback; EvRecordTransactionError txn_output])))).
Proof.
  intros Hbegin Hconn Hcheck lookup.
  subst loop try_block lookup.
  repeat split.
  - intros err e Herr Hdes Hsql Hrollback.
    cbn [tx_loop]. unfold tx_try_block, with_session_begin, lift, bind, ext_call,
      get_locals, set_locals, raise_obj.
    cbn [fst snd local_ctx ext trace]. rewrite Hbegin. cbn [fst snd local_ctx ext trace].
    rewrite Hconn. cbn [fst snd local_ctx ext trace]. rewrite Hcheck.
    cbn [fst snd local_ctx ext trace]. rewrite Herr, Hdes.
    cbn [fst snd local_ctx ext trace py_raise tl_txn_output]. rewrite Hrollback.
    cbn [fst snd local_ctx ext trace]. rewrite Hsql.
    destruct (is_Exception e); cbn; rewrite <- !app_assoc; reflexivity.
  - intros out Herr Hout Hcommit.
    cbn [tx_loop]. unfold tx_try_block, with_session_begin, lift, bind, ext_call,
      get_locals, set_locals, raise_obj, ret.
    cbn [fst snd local_ctx ext trace]. rewrite Hbegin. cbn [fst snd local_ctx ext trace].
    rewrite Hconn. cbn [fst snd local_ctx ext trace]. rewrite Hcheck.
    cbn [fst snd local_ctx ext trace]. rewrite Herr, Hout.
    cbn [fst snd local_ctx ext trace]. rewrite Hcommit.
    cbn. rewrite <- !app_assoc. reflexivity.
  - intros u5 Herr Hout Hrollback e txn_output Hrecord.
    cbn [tx_loop]. unfold tx_try_block, with_session_begin, lift, bind, ext_call,
      get_locals, set_locals, raise_obj, raise.
    cbn [fst snd local_ctx ext trace]. rewrite Hbegin. cbn [fst snd local_ctx ext trace].
    rewrite Hconn. cbn [fst snd local_ctx ext trace]. rewrite Hcheck.
    cbn [fst snd local_ctx ext trace]. rewrite Herr, Hout.
    cbn [fst snd local_ctx ext trace truthy_column]. rewrite Hrollback.
    cbn [fst snd local_ctx ext trace dbapi_sqlstate is_Exception tl_has_recorded_error
         tl_txn_output].
    fold e. fold txn_output. rewrite Hrecord.
    cbn. rewrite <- !app_assoc. reflexivity.
Qed.

(** What core.py writes into the output and error columns is None or
    [utils.serialize] of a value, and a serializer does not return the empty
    string: the rows a lookup can find have columns of this kind. *)
Definition serialize_never_empty : Prop := forall x, serialize x <> "".

Definition serialized_column (c : option string) : Prop :=
  match c with
  | Some s => exists x, s = serialize x
  | None => True
  end.

Definition written_row (recorded : RecordedResult) : Prop :=
  serialized_column (rr_output recorded) /\ serialized_column (rr_error recorded).

Lemma serialized_column_truthy (c : option string) (s : string) :
  serialize_never_empty ->
  serialized_column c ->
  c = Some s ->
  truthy_column c = Some s.
Proof.
  intros Hne Hcol ->. destruct Hcol as [x ->]. cbn.
  destruct (String.eqb_spec (serialize x) "") as [Hempty|_]; [|reflexivity].
  destruct (Hne x Hempty).
Qed.

(** C5. A pass of the loop whose lookup finds a recorded row does not call
    the body.  A recorded error is deserialized and raised after the
    rollback, with the mark that it is recorded already set and no error
    row written; otherwise a recorded output is deserialized and returned
    after the commit; a row with neither raises the exception "Output and
    error are both None", which the handler then records as the error of
    the transaction.  The row is one that core.py can have written: its
    columns are None or serialized values, and the error on record is no
    DBAPIError, which invoke_tx never records.  The session calls are taken
    to go through. *)
Theorem tx_loop_replays_recorded_transaction
    (fuel : nat) (wait : float) (l : tx_locals) (w : world U)
    (recorded : RecordedResult) (u1 u2 u3 u4 : U) :
  serialize_never_empty ->
  written_row recorded ->
  session_begin session (ext w) = (Ok tt, u1) ->
  session_connection session isolation_level u1 = (Ok tt, u2) ->
  check_transaction_execution session (workflow_id ctx) (function_id ctx) u2
    = (Ok (Some recorded), u3) ->
  let lookup :=
    [EvSessionBegin; EvSessionConnection isolation_level;
     EvCheckTransactionExecution (workflow_id ctx) (function_id ctx)] in
  (forall err e,
     rr_error recorded = Some err ->
     deserialize err = PyExc e ->
     dbapi_sqlstate e = None ->
     session_rollback session u3 = (Ok tt, u4) ->
     loop (S fuel) wait (l, w)
     = (Raise e,
        (mkTxLocals (tl_txn_output l) true,
         mkWorld (local_ctx w) u4 (trace w ++ lookup ++ [EvSessionRollback]))))
  /\ (forall out,
        rr_error recorded = None ->
        rr_output recorded = Some out ->
        session_commit session u3 = (Ok tt, u4) ->
        loop (S fuel) wait (l, w)
        = (Ok (Some (FlowReturn (deserialize out))),
           (mkTxLocals (tl_txn_output l) false,
            mkWorld (local_ctx w) u4 (trace w ++ lookup ++ [EvSessionCommit]))))
  /\ (forall u5,
        rr_error recorded = None ->
        rr_output recorded = None ->
        session_rollback session u3 = (Ok tt, u4) ->
        let e := Exception "Output and error are both None" in
        let txn_output :=
          set_txn_output_error (Some (serialize (PyExc e))) (tl_txn_output l) in
        record_transaction_error txn_output u4 = (Ok tt, u5) ->
        loop (S fuel) wait (l, w)
        = (Raise e,
           (mkTxLocals txn_output false,
            mkWorld (local_ctx w) u5
              (trace w ++ lookup ++
               [EvSessionRollback; EvRecordTransactionError txn_output])))).
Proof.
  intros Hne [Hout_col Herr_col] Hbegin Hconn Hcheck lookup.
  destruct (tx_loop_replays_recorded_result fuel wait l w recorded u1 u2 u3 u4
              Hbegin Hconn Hcheck) as (Herr & Hout & Hnone).
  split; [|split].
  - intros err e Hcol Hdes Hsql Hrollback.
    apply (Herr err e); try assumption.
    apply serialized_column_truthy; assumption.
  - intros out Hnoerr Hcol Hcommit.
    apply (Hout out); try assumption.
    + rewrite Hnoerr. reflexivity.
    + apply serialized_column_truthy; assumption.
  - exact Hnone.
Qed.

End OnePass.

End TransactionProperties.

(** *** First executions of a transaction *)

Section TransactionFirstExecution.

Context {U : Type} `{!Utils, !ApplicationDatabase U, !ContextModule U, !Clock U}.

Variable isolation_level : string.
Variable func : Function U.
Variable session : positive.
Variable ctx : DBOSContext.
Variable args : args_t.
Variable kwargs : kwargs_t.

Let loop (fuel : nat) := tx_loop isolation_level func fuel session ctx args kwargs.

(** The calls of a pass up to and including the body. *)
Let until_body : list event :=
  [EvSessionBegin; EvSessionConnection isolation_level;
   EvCheckTransactionExecution (workflow_id ctx) (function_id ctx);
   EvCall (fn_name func) args kwargs].

(** A pass reaches the body: the session calls go through and the lookup
    finds no row. *)
Definition pass_reaches_body (u u3 : U) : Prop :=
  exists u1 u2,
    session_begin session u = (Ok tt, u1)
    /\ session_connection session isolation_level u1 = (Ok tt, u2)
    /\ check_transaction_execution session (workflow_id ctx) (function_id ctx) u2
       = (Ok None, u3).

Ltac enter_pass Hpass :=
  destruct Hpass as (?u & ?u & Hbegin & Hconn & Hcheck);
  subst loop until_body; cbn [tx_loop];
  unfold tx_try_block, with_session_begin, lift, bind, ext_call, get_locals,
    set_locals, raise_obj, raise, ret;
  cbn [fst snd local_ctx ext trace]; rewrite Hbegin;
  cbn [fst snd local_ctx ext trace]; rewrite Hconn;
  cbn [fst snd local_ctx ext trace]; rewrite Hcheck;
  cbn [fst snd local_ctx ext trace].

(** X5. A first execution whose body returns: the output row is written
    after the body and before the commit, through the session of the
    context, and the loop is left with the body's output. *)
Theorem tx_loop_commits_output_with_body
    (fuel : nat) (wait : float) (l : tx_locals) (w : world U)
    (sql : positive) (output : pyobj) (u3 u4 u5 u6 : U) :
  let txn_output :=
    set_txn_output_output (Some (serialize output)) (tl_txn_output l) in
  pass_reaches_body (ext w) u3 ->
  fn_call func args kwargs u3 = (Ok output, u4) ->
  sql_session ctx = Some sql ->
  record_transaction_output sql txn_output u4 = (Ok tt, u5) ->
  session_commit session u5 = (Ok tt, u6) ->
  loop (S fuel) wait (l, w)
  = (Ok (Some (FlowBreak output)),
     (mkTxLocals txn_output false,
      mkWorld (local_ctx w) u6
        (trace w ++ until_body ++
         [EvRecordTransactionOutput txn_output; EvSessionCommit]))).
Proof.
  intros txn_output Hpass Hcall Hsql Hrecord Hcommit.
  enter_pass Hpass.
  rewrite Hcall. cbn [fst snd local_ctx ext trace tl_txn_output tl_has_recorded_error].
  rewrite Hsql. fold txn_output. cbn [fst snd local_ctx ext trace].
  rewrite Hrecord. cbn [fst snd local_ctx ext trace].
  rewrite Hcommit. cbn. rewrite <- !app_assoc. reflexivity.
Qed.

(** X6. A first execution whose body raises an [Exception] that is not a
    DBAPIError: the transaction is rolled back, then an error row holding
    the serialized exception is written, and the exception is raised; the
    body is not called again. *)
Theorem tx_loop_records_error_after_rollback
    (fuel : nat) (wait : float) (l : tx_locals) (w : world U)
    (e : exn) (u3 u4 u5 u6 : U) :
  let txn_output :=
    set_txn_output_error (Some (serialize (PyExc e))) (tl_txn_output l) in
  pass_reaches_body (ext w) u3 ->
  fn_call func args kwargs u3 = (Raise e, u4) ->
  is_Exception e = true ->
  dbapi_sqlstate e = None ->
  session_rollback session u4 = (Ok tt, u5) ->
  record_transaction_error txn_output u5 = (Ok tt, u6) ->
  loop (S fuel) wait (l, w)
  = (Raise e,
     (mkTxLocals txn_output false,
      mkWorld (local_ctx w) u6
        (trace w ++ until_body ++
         [EvSessionRollback; EvRecordTransactionError txn_output]))).
Proof.
  intros txn_output Hpass Hcall Hexc Hsql Hrollback Hrecord.
  enter_pass Hpass.
  rewrite Hcall. cbn [fst snd local_ctx ext trace].
  rewrite Hrollback. cbn [fst snd local_ctx ext trace tl_txn_output
    tl_has_recorded_error].
  rewrite Hsql, Hexc. fold txn_output. rewrite Hrecord.
  cbn. rewrite <- !app_assoc. reflexivity.
Qed.

(** X7. A first execution whose body raises a DBAPIError of a SQLSTATE
    other than 40001, or something that is not an [Exception]: after the
    rollback it is raised as it is, and no error row is written. *)
Theorem tx_loop_does_not_record_database_errors
    (fuel : nat) (wait : float) (l : tx_locals) (w : world U)
    (e : exn) (u3 u4 u5 : U) :
  pass_reaches_body (ext w) u3 ->
  fn_call func args kwargs u3 = (Raise e, u4) ->
  ((exists sqlstate, dbapi_sqlstate e = Some sqlstate /\ sqlstate <> "40001")
   \/ (dbapi_sqlstate e = None /\ is_Exception e = false)) ->
  session_rollback session u4 = (Ok tt, u5) ->
  loop (S fuel) wait (l, w)
  = (Raise e,
     (mkTxLocals (tl_txn_output l) false,
      mkWorld (local_ctx w) u5 (trace w ++ until_body ++ [EvSessionRollback]))).
Proof.
  intros Hpass Hcall Hkind Hrollback.
  enter_pass Hpass.
  rewrite Hcall. cbn [fst snd local_ctx ext trace].
  rewrite Hrollback. cbn [fst snd local_ctx ext trace tl_txn_output
    tl_has_recorded_error].
  destruct Hkind as [(sqlstate & -> & Hne)|[-> ->]].
  - apply String.eqb_neq in Hne. rewrite Hne.
    rewrite <- !app_assoc. reflexivity.
  - rewrite <- !app_assoc. reflexivity.
Qed.

(** X8. A body that returned, followed by a write of the output row that
    raises an [Exception] which is not a DBAPIError (or by a context without
    session): the error row then written holds the serialized output of the
    body next to the serialized exception. *)
Theorem tx_loop_error_row_keeps_output
    (fuel : nat) (wait : float) (l : tx_locals) (w : world U)
    (sql : option positive) (output : pyobj) (e : exn) (u3 u4 u5 u6 u7 : U) :
  let with_output :=
    set_txn_output_output (Some (serialize output)) (tl_txn_output l) in
  let txn_output := set_txn_output_error (Some (serialize (PyExc e))) with_output in
  pass_reaches_body (ext w) u3 ->
  fn_call func args kwargs u3 = (Ok output, u4) ->
  sql_session ctx = sql ->
  match sql with
  | Some sql => record_transaction_output sql with_output u4 = (Raise e, u5)
  | None => e = AssertionError "Cannot find a database connection" /\ u5 = u4
  end ->
  is_Exception e = true ->
  dbapi_sqlstate e = None ->
  session_rollback session u5 = (Ok tt, u6) ->
  record_transaction_error txn_output u6 = (Ok tt, u7) ->
  let '(r, (l', w')) := loop (S fuel) wait (l, w) in
  r = Raise e
  /\ transaction_error_records (trace w')
     = transaction_error_records (trace w) ++ [txn_output]
  /\ tx_output txn_output = Some (serialize output)
  /\ tx_error txn_output = Some (serialize (PyExc e))
  /\ calls (trace w') = (calls (trace w) + 1)%nat.
Proof.
  intros with_output txn_output Hpass Hcall Hsql Hwrite Hexc Hdb Hrollback Hrecord.
  enter_pass Hpass.
  rewrite Hcall. cbn [fst snd local_ctx ext trace tl_txn_output tl_has_recorded_error].
  rewrite Hsql. fold with_output.
  destruct sql as [sql|].
  - cbn [fst snd local_ctx ext trace]. rewrite Hwrite.
    cbn [fst snd local_ctx ext trace]. rewrite Hrollback.
    cbn [fst snd local_ctx ext trace tl_txn_output tl_has_recorded_error].
    rewrite Hdb, Hexc. fold txn_output. rewrite Hrecord.
    cbn [fst snd local_ctx ext trace].
    split; [reflexivity|].
    split; [unfold transaction_error_records; rewrite !omap_app; cbn;
            rewrite !app_nil_r; reflexivity|].
    split; [reflexivity|]. split; [reflexivity|].
    rewrite !calls_app. unfold calls. cbn. lia.
  - destruct Hwrite as [-> ->].
    cbn [fst snd local_ctx ext trace]. rewrite Hrollback.
    cbn [fst snd local_ctx ext trace tl_txn_output tl_has_recorded_error
         dbapi_sqlstate is_Exception].
    fold txn_output. rewrite Hrecord.
    cbn [fst snd local_ctx ext trace].
    split; [reflexivity|].
    split; [unfold transaction_error_records; rewrite !omap_app; cbn;
            rewrite !app_nil_r; reflexivity|].
    split; [reflexivity|]. split; [reflexivity|].
    rewrite !calls_app. unfold calls. cbn. lia.
Qed.

End TransactionFirstExecution.

Lemma retry_wait_succ (k : nat) :
  retry_wait (S k) = next_retry_wait (retry_wait k).
Proof. reflexivity. Qed.

(** X9. The wait between passes grows for nineteen failures and then stays
    at the cap: the waits after failures 1 to 19 are below 2 s, each wait
    from the one after failure 20 on is 2 s exactly. *)
Theorem retry_wait_reaches_cap :
  Forall (fun k => PrimFloat.ltb (retry_wait k) max_retry_wait_seconds = true)
    (seq 0 19)
  /\ forall k, retry_wait (19 + k) = max_retry_wait_seconds.
Proof.
  split.
  - repeat constructor.
  - induction k as [|k IH].
    + rewrite Nat.add_0_r. vm_compute. reflexivity.
    + rewrite Nat.add_succ_r, retry_wait_succ, IH. vm_compute. reflexivity.
Qed.

(** *** The transaction engine on concrete inputs *)

(** The context of a transaction of workflow "wf" that is its first
    operation, and the loop's state at its first pass. *)
Definition first_transaction : DBOSContext :=
  Bench.set_sql_session 1 (Some 1%positive) (Bench.workflow_context "wf" 0).

Definition first_pass (u : Bench.state) : tx_locals * world Bench.state :=
  (mkTxLocals (mkTxResult "wf" 1 None None "" None None) false,
   mkWorld (Some first_transaction) u []).

(** Scenario S6: the body raises SQLSTATE 40001 twice, then returns 7. *)
Definition two_conflicts : Bench.state :=
  Bench.with_script
    [Raise (DBAPIError "40001"); Raise (DBAPIError "40001"); Ok (PyInt 7)]
    Bench.empty_state.

Lemma tx_loop_retries_serialization_failures_witness :
  let '(r, s') :=
    tx_loop "SERIALIZABLE" (Bench.scripted "t") 5 1%positive first_transaction
      [] [] initial_retry_wait_seconds (first_pass two_conflicts) in
  r = Ok (Some (FlowBreak (PyInt 7)))
  /\ sleeps (trace (snd s')) = [0.001%float; 0.0015%float].
Proof.
  set (s0 := first_pass two_conflicts).
  set (pass := tx_try_block "SERIALIZABLE" (Bench.scripted "t") 1%positive
                 first_transaction [] []).
  set (wait1 := next_retry_wait initial_retry_wait_seconds).
  set (s1 := after_conflict initial_retry_wait_seconds (snd (pass (begin_pass s0)))).
  set (s2 := after_conflict wait1 (snd (pass (begin_pass s1)))).
  assert (H1 : pass (begin_pass s0)
               = (Raise (DBAPIError "40001"), snd (pass (begin_pass s0))))
    by (vm_compute; reflexivity).
  assert (H2 : pass (begin_pass s1)
               = (Raise (DBAPIError "40001"), snd (pass (begin_pass s1))))
    by (vm_compute; reflexivity).
  assert (H3 : pass (begin_pass s2)
               = (Ok (FlowBreak (PyInt 7)), snd (pass (begin_pass s2))))
    by (vm_compute; reflexivity).
  pose proof
    (tx_loop_retries_serialization_failures "SERIALIZABLE" (Bench.scripted "t")
       1%positive first_transaction [] [] 2 s0 s2 _ _ _
       (conflicts_S _ _ _ _ _ _ _ _ _ _ _ _ H1
          (conflicts_S _ _ _ _ _ _ _ _ _ _ _ _ H2
             (conflicts_O _ _ _ _ _ _ _ _)))
       H3 I 5%nat ltac:(lia)) as H.
  cbv beta zeta in H.
  destruct (tx_loop _ _ _ _ _ _ _ _ _) as [r s'].
  destruct H as (_ & Hs & _ & _ & _ & Hok & _).
  destruct (Hok _ eq_refl) as [Hr _].
  split; [exact Hr|exact Hs].
Defined.

(** *** Replay on concrete inputs *)

Lemma bench_serialize_never_empty : serialize_never_empty (H := Bench.utils).
Proof. intros [| [] | z | s | e | a] Hempty; discriminate Hempty. Defined.

(** The first transaction of workflow "wf" has the output "hello" on
    record. *)
Definition output_on_record_hello : Bench.state :=
  Bench.with_transaction_outputs
    {[ ("wf", 1) := mkRecorded (Some "str:hello") None ]} Bench.empty_state.

(** The first transaction of workflow "wf" has failed with the user error
    "boom". *)
Definition error_on_record_boom : Bench.state :=
  Bench.with_transaction_outputs
    {[ ("wf", 1) := mkRecorded None (Some "exc:UserError:boom") ]} Bench.empty_state.

Lemma tx_loop_replays_recorded_transaction_witness :
  (let '(r, s') :=
     tx_loop "SERIALIZABLE" (Bench.scripted "t") 1 1%positive first_transaction
       [] [] initial_retry_wait_seconds (first_pass output_on_record_hello) in
   r = Ok (Some (FlowReturn (PyStr "hello")))
   /\ trace (snd s')
      = [EvSessionBegin; EvSessionConnection "SERIALIZABLE";
         EvCheckTransactionExecution "wf" 1; EvSessionCommit])
  /\ (let '(r, s') :=
        tx_loop "SERIALIZABLE" (Bench.scripted "t") 1 1%positive first_transaction
          [] [] initial_retry_wait_seconds (first_pass error_on_record_boom) in
      r = Raise (UserError "boom")
      /\ tl_has_recorded_error (fst s') = true
      /\ trace (snd s')
         = [EvSessionBegin; EvSessionConnection "SERIALIZABLE";
            EvCheckTransactionExecution "wf" 1; EvSessionRollback]).
Proof.
  set (l0 := mkTxLocals (mkTxResult "wf" 1 None None "" None None) false).
  split.
  - set (u := output_on_record_hello).
    assert (Hcheck : check_transaction_execution 1%positive
                       (workflow_id first_transaction)
                       (function_id first_transaction) u
                     = (Ok (Some (mkRecorded (Some "str:hello") None)), u))
      by (vm_compute; reflexivity).
    destruct
      (tx_loop_replays_recorded_transaction
         (ApplicationDatabase0 := Bench.application_database)
         "SERIALIZABLE" (Bench.scripted "t")
         1%positive first_transaction [] [] 0 initial_retry_wait_seconds
         l0 (mkWorld (Some first_transaction) u [])
         (mkRecorded (Some "str:hello") None) u u u u
         bench_serialize_never_empty
         (conj (ex_intro _ (PyStr "hello") eq_refl) I)
         eq_refl eq_refl Hcheck) as (_ & Hout & _).
    unfold first_pass. fold l0. fold u.
    rewrite (Hout "str:hello" eq_refl eq_refl eq_refl).
    split; reflexivity.
  - set (u := error_on_record_boom).
    assert (Hcheck : check_transaction_execution 1%positive
                       (workflow_id first_transaction)
                       (function_id first_transaction) u
                     = (Ok (Some (mkRecorded None (Some "exc:UserError:boom"))), u))
      by (vm_compute; reflexivity).
    destruct
      (tx_loop_replays_recorded_transaction
         (ApplicationDatabase0 := Bench.application_database)
         "SERIALIZABLE" (Bench.scripted "t")
         1%positive first_transaction [] [] 0 initial_retry_wait_seconds
         l0 (mkWorld (Some first_transaction) u [])
         (mkRecorded None (Some "exc:UserError:boom")) u u u u
         bench_serialize_never_empty
         (conj I (ex_intro _ (PyExc (UserError "boom")) eq_refl))
         eq_refl eq_refl Hcheck) as (Herr & _ & _).
    unfold first_pass. fold l0. fold u.
    rewrite (Herr "exc:UserError:boom" (UserError "boom") eq_refl eq_refl eq_refl
               eq_refl).
    split; [reflexivity|]. split; reflexivity.
Defined.

(** Why the columns are taken to be serialized values: they are tested by
    truth value, so an empty string, which no serializer writes, would
    count as a column that is not set. *)
Lemma truthy_column_empty : truthy_column (Some "") = None.
Proof. reflexivity. Qed.
(** *** Calls before DBOS is launched *)

Section BeforeLaunch.

Context {U : Type}
  `{!Utils, !SystemDatabase U, !ApplicationDatabase U, !ContextModule U, !Clock U}.

(** X22. A step or a transaction invoked while the registry holds no DBOS
    object raises a DBOSException that names the function; no scope is
    entered, no session is opened, the body is not called and nothing is
    looked up or recorded, whatever the retry settings. *)
Theorem invoke_before_launch
    (dbosreg : DBOSRegistry) (func : Function U) (args : args_t)
    (kwargs : kwargs_t) (w : world U) :
  reg_dbos dbosreg = None ->
  let refused {A : Type} : result A :=
    Raise (DBOSException
             ("Function " +:+ fn_name func +:+ " invoked before DBOS initialized")) in
  (forall retries_allowed interval_seconds max_attempts backoff_rate,
     invoke_step dbosreg retries_allowed interval_seconds max_attempts
       backoff_rate func args kwargs w
     = (refused, w))
  /\ (forall isolation_level fuel,
        invoke_tx dbosreg isolation_level func fuel args kwargs w = (refused, w)).
Proof.
  intros Hreg refused. unfold invoke_step, invoke_tx. rewrite Hreg.
  split; reflexivity.
Qed.

End BeforeLaunch.

(** ** The workflow engine *)

Section WorkflowProperties.

Context {U : Type}
  `{!Utils, !SystemDatabase U, !ContextModule U, !Registrations, !DBOSRuntime U}.

(** The events of a trace that write a status row. *)
Definition status_writes (tr : list event) : list event :=
  List.filter is_status_write tr.

(** The events of a trace that write any record. *)
Definition record_writes (tr : list event) : list event :=
  List.filter is_record_write tr.

(** C6, as amended: the exceptions recorded are the [Exception]s.  A body
    that returns leaves the status dict at SUCCESS with the
    serialized output, and the one call that follows the body is the
    buffered status write.  A body that raises an [Exception] other than
    DBOSWorkflowConflictIDError leaves the dict at ERROR with the serialized
    exception, the one call that follows is the synchronous status write,
    and the exception is raised to the caller.  (The write is taken to go
    through in both cases.) *)
Theorem _execute_workflow_records_terminal_status
    (status : WorkflowStatusInternal) (func : args_t -> kwargs_t -> M U pyobj)
    (args : args_t) (kwargs : kwargs_t) (w : world U) :
  (forall output w1 u2,
     func args kwargs w = (Ok output, w1) ->
     let status' :=
       set_ws_output (Some (serialize output)) (set_ws_status "SUCCESS" status) in
     buffer_workflow_status status' (ext w1) = (Ok tt, u2) ->
     _execute_workflow status func args kwargs w
     = ((Ok output, status'),
        mkWorld (local_ctx w1) u2 (trace w1 ++ [EvBufferWorkflowStatus status']))
     /\ ws_status status' = "SUCCESS"
     /\ ws_output status' = Some (serialize output)
     /\ status_writes [EvBufferWorkflowStatus status']
        = [EvBufferWorkflowStatus status'])
  /\ (forall error w1 u2,
        func args kwargs w = (Raise error, w1) ->
        is_Exception error = true ->
        is_DBOSWorkflowConflictIDError error = false ->
        let status' :=
          set_ws_error (Some (serialize (PyExc error)))
            (set_ws_status "ERROR" status) in
        update_workflow_status status' None None (ext w1) = (Ok tt, u2) ->
        _execute_workflow status func args kwargs w
        = ((Raise error, status'),
           mkWorld (local_ctx w1) u2
             (trace w1 ++ [EvUpdateWorkflowStatus status' None None]))
        /\ ws_status status' = "ERROR"
        /\ ws_error status' = Some (serialize (PyExc error))).
Proof.
  split.
  - intros output w1 u2 Hfunc status' Hbuffer.
    unfold _execute_workflow, bind, lift, get_locals, set_locals, ext_call, ret.
    cbn [fst snd]. rewrite Hfunc. cbn [fst snd local_ctx ext trace].
    fold status'. rewrite Hbuffer. repeat split.
  - intros error w1 u2 Hfunc Hexc Hconflict status' Hupdate.
    unfold _execute_workflow, bind, lift, get_locals, set_locals, ext_call, ret.
    cbn [fst snd]. rewrite Hfunc. cbn [fst snd local_ctx ext trace].
    rewrite Hconflict, Hexc. fold status'. rewrite Hupdate. repeat split.
Qed.

(** C7. A body that raises DBOSWorkflowConflictIDError: the status dict is
    left as it was, the calls that follow the body are the lookup of a
    handle for the same workflow id and the wait for that handle's result,
    neither of which writes a record, and what the wait returns or raises is
    the outcome.  With a polling handle for that id, the outcome is that of
    [await_workflow_result] on the id. *)
Theorem _execute_workflow_conflict_awaits_existing
    (status : WorkflowStatusInternal) (func : args_t -> kwargs_t -> M U pyobj)
    (args : args_t) (kwargs : kwargs_t) (w w1 : world U)
    (error : exn) (handle : WorkflowHandle) (u2 : U) :
  func args kwargs w = (Raise error, w1) ->
  is_DBOSWorkflowConflictIDError error = true ->
  retrieve_workflow (ws_workflow_uuid status) false (ext w1) = (Ok handle, u2) ->
  let '((r, status'), w') := _execute_workflow status func args kwargs w in
  let w2 :=
    mkWorld (local_ctx w1) u2
      (trace w1 ++ [EvRetrieveWorkflow (ws_workflow_uuid status) false]) in
  status' = status
  /\ (r, w') = get_result handle w2
  /\ (exists ev,
        trace w'
        = trace w1 ++ [EvRetrieveWorkflow (ws_workflow_uuid status) false; ev]
        /\ record_writes
             [EvRetrieveWorkflow (ws_workflow_uuid status) false; ev] = [])
  /\ (handle = WorkflowHandlePolling (ws_workflow_uuid status) ->
      r = fst (await_workflow_result (ws_workflow_uuid status) u2)
      /\ trace w'
         = trace w1 ++ [EvRetrieveWorkflow (ws_workflow_uuid status) false;
                        EvAwaitWorkflowResult (ws_workflow_uuid status)]).
Proof.
  intros Hfunc Hconflict Hretrieve.
  unfold _execute_workflow, bind, lift, get_locals, set_locals, ext_call, ret.
  cbn [fst snd]. rewrite Hfunc. cbn [fst snd local_ctx ext trace].
  rewrite Hconflict, Hretrieve.
  destruct handle as [wfid future|wfid]; cbn [get_result]; unfold ext_call;
    cbn [local_ctx ext trace].
  - destruct (future_result future u2) as [r u3] eqn:E.
    split; [reflexivity|]. split; [reflexivity|].
    split; [eexists; split; [rewrite <- app_assoc; reflexivity | reflexivity]|].
    discriminate.
  - destruct (await_workflow_result wfid u2) as [r u3] eqn:E.
    split; [reflexivity|]. split; [reflexivity|].
    split; [eexists; split; [rewrite <- app_assoc; reflexivity | reflexivity]|].
    intros [= ->]. rewrite E. split; [reflexivity|].
    rewrite <- app_assoc. reflexivity.
Qed.


(** *** Starting a child workflow *)

(** The id [_init_workflow] files the workflow under. *)
Definition init_wfid (ctx : DBOSContext) : string :=
  if (0 <? Z.of_nat (String.length (workflow_id ctx)))
  then workflow_id ctx else id_assigned_for_next_workflow ctx.

Lemma append_dash_nonempty (s t : string) : s +:+ "-" +:+ t <> "".
Proof. destruct s; discriminate. Qed.

(** [_init_workflow] leaves the current context alone, submits nothing, and
    writes its status row under [init_wfid]. *)
Lemma _init_workflow_events (ctx : DBOSContext) (inputs : WorkflowInputs)
    (name : string) (cls cfg tmp : option string) (w : world U) :
  let '(r, w') := _init_workflow ctx inputs name cls cfg tmp w in
  local_ctx w' = local_ctx w
  /\ (forall st, r = Ok st -> ws_workflow_uuid st = init_wfid ctx)
  /\ exists tr,
       trace w' = trace w ++ tr
       /\ (forall wfid nm, ~ In (EvExecutorSubmit wfid nm) tr)
       /\ (forall st a b, In (EvUpdateWorkflowStatus st a b) tr ->
             ws_workflow_uuid st = init_wfid ctx).
Proof.
  unfold _init_workflow. fold (init_wfid ctx).
  set (status := mkStatus _ _ _ _ _ _ _ _ _ _ _ _ _ _ _).
  set (inputs' := match cls with Some _ => _ | None => inputs end).
  unfold bind, ext_call, ret.
  destruct (negb (py_opt_str_eqb tmp "transaction")).
  - destruct (update_workflow_status _ _ _ _) as [[[]|e] u1];
      cbn [local_ctx ext trace];
      [destruct (update_workflow_inputs _ _ _) as [[[]|e] u2]|];
      cbn [local_ctx ext trace];
      (split; [reflexivity|]);
      (split; [intros st Hst; first [discriminate Hst | injection Hst as <-];
               reflexivity|]);
      (eexists; split; [rewrite <- ?app_assoc; reflexivity|]);
      (split; [intros wfid nm Hin; in_events Hin|]);
      intros st a b Hin; in_events Hin; reflexivity.
  - destruct (buffer_workflow_inputs _ _ _) as [[[]|e] u1];
      cbn [local_ctx ext trace];
      (split; [reflexivity|]);
      (split; [intros st Hst; first [discriminate Hst | injection Hst as <-];
               reflexivity|]);
      (eexists; split; [rewrite <- ?app_assoc; reflexivity|]);
      (split; [intros wfid nm Hin; in_events Hin|]);
      intros st a b Hin; in_events Hin; reflexivity.
Qed.

(** What the claim takes from the context module, which is not part of
    core.py: a child context inherits the id reserved for it, creating it
    leaves the caller's counter alone, and a context with a reserved id is
    assigned that id. *)
Definition child_inherits_reserved_id : Prop :=
  forall p, id_assigned_for_next_workflow (fst (create_child p))
            = id_assigned_for_next_workflow p.

Definition create_child_keeps_function_id : Prop :=
  forall p, function_id (snd (create_child p)) = function_id p.

Definition reserved_id_is_assigned : Prop :=
  forall x u, id_assigned_for_next_workflow x <> "" ->
              fst (assign_workflow_id x u) = id_assigned_for_next_workflow x.

(** C4. [_start_workflow] called in a workflow context (not in a step) that
    has no id assigned for the next workflow: the caller's function_id is
    one more afterwards, and the new workflow's id is the caller's
    workflow_id, a dash and that incremented function_id.  The handle
    carries this id, the executor is given it, and, when the child context
    starts without a workflow id of its own, the status row is written under
    it. *)
Theorem _start_workflow_child_id
    (func : Workflow) (args : args_t) (kwargs : kwargs_t) (w : world U)
    (fi : DBOSFuncInfo) (c : DBOSContext) :
  child_inherits_reserved_id ->
  create_child_keeps_function_id ->
  reserved_id_is_assigned ->
  get_func_info func = Some fi ->
  local_ctx w = Some c ->
  is_within_workflow c = true ->
  is_workflow c = true ->
  id_assigned_for_next_workflow c = "" ->
  let child_id := workflow_id c +:+ "-" +:+ py_str_int (function_id c + 1) in
  let '(r, w') := _start_workflow func args kwargs w in
  (function_id <$> local_ctx w') = Some (function_id c + 1)
  /\ (forall h, r = Ok h -> get_workflow_id h = child_id)
  /\ exists tr,
       trace w' = trace w ++ tr
       /\ (forall wfid nm, In (EvExecutorSubmit wfid nm) tr -> wfid = child_id)
       /\ ((forall p, workflow_id (fst (create_child p)) = "") ->
           forall st a b, In (EvUpdateWorkflowStatus st a b) tr ->
                          ws_workflow_uuid st = child_id).
Proof.
  intros Hinherit Hkeep Hassign Hfi Hctx Hwithin Hwf Hnone child_id.
  unfold _start_workflow. rewrite Hfi.
  unfold bind at 1. unfold get_local_dbos_context. rewrite Hctx.
  unfold bind at 1. rewrite Hwithin, Hwf.
  set (c1 := set_id_assigned_for_next_workflow child_id
               (set_function_id (function_id c + 1) c)).
  match goal with
  | |- context [if ?b then ?x else ?y] =>
      replace (if b then x else y) with c1
        by (cbn [set_function_id id_assigned_for_next_workflow];
            rewrite Hnone; reflexivity)
  end.
  unfold bind at 1. unfold set_local_ctx at 1. unfold ret at 1.
  unfold bind at 1.
  pose proof (Hinherit c1) as Hchild. pose proof (Hkeep c1) as Hparent.
  destruct (create_child c1) as [child c2] eqn:Hcreate.
  cbn [fst snd] in Hchild, Hparent.
  unfold bind at 1. unfold set_local_ctx at 1. unfold ret at 1.
  unfold bind at 1. cbn [local_ctx ext trace].
  pose proof (Hassign child (ext w)) as Hid.
  rewrite Hchild in Hid. specialize (Hid (append_dash_nonempty _ _)).
  destruct (assign_workflow_id child (ext w)) as [wfid u1]. cbn [fst] in Hid.
  subst wfid.
  change (id_assigned_for_next_workflow c1) with child_id in *.
  change (id_assigned_for_next_workflow
            (set_id_assigned_for_next_workflow child_id child))
    with child_id.
  unfold bind at 1.
  match goal with
  | |- context [_init_workflow ?x ?i ?n ?cl ?cf ?t ?w0] =>
      pose proof (_init_workflow_events x i n cl cf t w0) as Hinit;
      destruct (_init_workflow x i n cl cf t w0) as [[status|e] w2]
  end; destruct Hinit as (Hlocal & _ & tr & Htr & Hsubmit & Hstatus);
    cbn [local_ctx ext trace] in Hlocal, Htr.
  - unfold bind, ext_call, ret.
    destruct (executor_submit _ _ _ _ _ _) as [[future|e] u3];
      cbn [local_ctx ext trace];
      (rewrite Hlocal; cbn [fmap option_fmap option_map]; rewrite Hparent;
       split; [reflexivity|]);
      (split; [intros h Hh; first [discriminate Hh | injection Hh as <-];
               reflexivity|]);
      (exists (tr ++ [EvExecutorSubmit child_id (wf_name (orig_func func))]);
       split; [rewrite Htr, <- app_assoc; reflexivity|]);
      (split;
       [intros wfid nm Hin; apply in_app_or in Hin as [Hin|Hin];
        [destruct (Hsubmit _ _ Hin) | in_events Hin; reflexivity]
       |intros Hfresh st a b Hin; apply in_app_or in Hin as [Hin|Hin];
        [rewrite (Hstatus _ _ _ Hin); unfold init_wfid;
         pose proof (Hfresh c1) as Hf; rewrite Hcreate in Hf; cbn [fst] in Hf;
         cbn [workflow_id set_id_assigned_for_next_workflow
              id_assigned_for_next_workflow];
         rewrite Hf; reflexivity
        |in_events Hin]]).
  - rewrite Hlocal. cbn [fmap option_fmap option_map]. rewrite Hparent.
    split; [reflexivity|]. split; [discriminate|].
    exists tr. split; [exact Htr|].
    split; [intros wfid nm Hin; destruct (Hsubmit _ _ Hin)|].
    intros Hfresh st a b Hin. rewrite (Hstatus _ _ _ Hin). unfold init_wfid.
    pose proof (Hfresh c1) as Hf. rewrite Hcreate in Hf. cbn [fst] in Hf.
    cbn [workflow_id set_id_assigned_for_next_workflow
         id_assigned_for_next_workflow].
    rewrite Hf. reflexivity.
Qed.

(** *** Recovery *)

(** One case of the recovery function: the premises that do not fit the
    case contradict what the lookups returned, the others give the outcome
    by computation. *)
Ltac recovery_leaf :=
  cbn [local_ctx ext trace] in *;
  repeat (split || intro);
  repeat match goal with
         | H1 : ?f = _, H2 : ?f = _ |- _ => rewrite H1 in H2
         end;
  simplify_eq; try congruence;
  rewrite <- ?app_assoc; reflexivity.

(** C9. What recovery by id raises, in the order of its checks: no status
    row, or no inputs row, is a DBOSRecoveryError; with both rows, a name
    that the workflow registry does not have, an instance "class/config"
    that the instance registry does not have when the row names a config,
    or a class that the class registry does not have when the row names a
    class and no config, is a DBOSWorkflowFunctionNotFoundError.  In each
    case the error is the outcome of the call, and nothing was handed to
    the executor. *)
Theorem _execute_workflow_id_errors
    (dbosreg : DBOSRegistry) (wfid : string) (w : world U) :
  let '(r, w') := _execute_workflow_id dbosreg wfid w in
  (forall u1,
     get_workflow_status wfid (ext w) = (Ok None, u1) ->
     r = Raise (DBOSRecoveryError wfid "Workflow status not found")
     /\ trace w' = trace w ++ [EvGetWorkflowStatus wfid])
  /\ (forall st u1,
        get_workflow_status wfid (ext w) = (Ok (Some st), u1) ->
        let lookups := [EvGetWorkflowStatus wfid; EvGetWorkflowInputs wfid] in
        (forall u2,
           get_workflow_inputs wfid u1 = (Ok None, u2) ->
           r = Raise (DBOSRecoveryError wfid "Workflow inputs not found")
           /\ trace w' = trace w ++ lookups)
        /\ (forall inputs u2,
              get_workflow_inputs wfid u1 = (Ok (Some inputs), u2) ->
              (workflow_info_map dbosreg !! ws_name st = None ->
               r = Raise (DBOSWorkflowFunctionNotFoundError wfid
                            "Workflow function not found")
               /\ trace w' = trace w ++ lookups)
              /\ (forall wf_func ctx,
                    workflow_info_map dbosreg !! ws_name st = Some wf_func ->
                    scope_enter DBOSContextEnsure (local_ctx w) = Ok ctx ->
                    (forall config_name,
                       ws_config_name st = Some config_name ->
                       let iname :=
                         py_str_opt (ws_class_name st) +:+ "/" +:+ config_name in
                       instance_info_map dbosreg !! iname = None ->
                       r = Raise (DBOSWorkflowFunctionNotFoundError wfid
                                    ("Cannot execute workflow because instance '" +:+
                                     iname +:+ "' is not registered"))
                       /\ trace w' = trace w ++ lookups)
                    /\ (forall class_name,
                          ws_config_name st = None ->
                          ws_class_name st = Some class_name ->
                          class_info_map dbosreg !! class_name = None ->
                          r = Raise (DBOSWorkflowFunctionNotFoundError wfid
                                       ("Cannot execute workflow because class '" +:+
                                        class_name +:+ "' is not registered"))
                          /\ trace w' = trace w ++ lookups)))).
Proof.
  unfold _execute_workflow_id, bind, ext_call, with_scope, set_local_ctx, raise.
  cbn [local_ctx ext trace].
  destruct (get_workflow_status wfid (ext w)) as [[[st|]|e] u1] eqn:Hstatus;
    cbn [local_ctx ext trace].
  2,3: solve [recovery_leaf].
  destruct (get_workflow_inputs wfid u1) as [[[inputs|]|e] u2] eqn:Hinputs;
    cbn [local_ctx ext trace].
  2,3: solve [recovery_leaf].
  destruct (workflow_info_map dbosreg !! ws_name st) as [wf_func|] eqn:Hfunc.
  2: solve [recovery_leaf].
  cbn [local_ctx ext trace].
  destruct (scope_enter DBOSContextEnsure (local_ctx w)) as [ctx|e] eqn:Henter.
  2: solve [recovery_leaf].
  cbn [local_ctx ext trace].
  destruct (ws_config_name st) as [config_name|] eqn:Hconfig.
  - destruct (instance_info_map dbosreg !! _) as [instance|] eqn:Hinstance.
    + destruct (scope_enter (SetWorkflowID wfid) _) as [c|e]; [|solve [recovery_leaf]].
      destruct (_start_workflow _ _ _ _) as [r w']. solve [recovery_leaf].
    + solve [recovery_leaf].
  - destruct (ws_class_name st) as [class_name|] eqn:Hclass.
    + destruct (class_info_map dbosreg !! class_name) as [cls|] eqn:Hcls.
      * destruct (scope_enter (SetWorkflowID wfid) _) as [c|e]; [|solve [recovery_leaf]].
        destruct (_start_workflow _ _ _ _) as [r w']. solve [recovery_leaf].
      * solve [recovery_leaf].
    + destruct (scope_enter (SetWorkflowID wfid) _) as [c|e]; [|solve [recovery_leaf]].
      destruct (_start_workflow _ _ _ _) as [r w']. solve [recovery_leaf].
Qed.

End WorkflowProperties.

(** *** Other outcomes of a workflow body *)

Section WorkflowOutcomes.

Context {U : Type}
  `{!Utils, !SystemDatabase U, !ContextModule U, !Registrations, !DBOSRuntime U}.

Variable status : WorkflowStatusInternal.
Variable func : args_t -> kwargs_t -> M U pyobj.
Variable args : args_t.
Variable kwargs : kwargs_t.

(** X10. A body that raises something that is not an [Exception]: no
    status is written, the status dict is left as it was, and it is raised as
    it is. *)
Theorem _execute_workflow_base_exception_not_recorded
    (w w1 : world U) (e : exn) :
  func args kwargs w = (Raise e, w1) ->
  is_Exception e = false ->
  _execute_workflow status func args kwargs w = ((Raise e, status), w1).
Proof.
  intros Hfunc Hexc.
  unfold _execute_workflow, bind, lift, get_locals, set_locals, ext_call, ret.
  cbn [fst snd]. rewrite Hfunc. cbn [fst snd local_ctx ext trace].
  destruct e; try discriminate Hexc. reflexivity.
Qed.

(** X11. A body that returns, followed by a buffered status write that
    raises an [Exception] other than DBOSWorkflowConflictIDError: the
    workflow is then recorded as failed.  The row written synchronously has
    status ERROR and holds both the serialized output of the body and the
    serialized exception, which is raised to the caller. *)
Theorem _execute_workflow_buffer_failure_is_an_error
    (w w1 : world U) (output : pyobj) (e : exn) (u2 u3 : U) :
  let succeeded :=
    set_ws_output (Some (serialize output)) (set_ws_status "SUCCESS" status) in
  let failed :=
    set_ws_error (Some (serialize (PyExc e))) (set_ws_status "ERROR" succeeded) in
  func args kwargs w = (Ok output, w1) ->
  buffer_workflow_status succeeded (ext w1) = (Raise e, u2) ->
  is_Exception e = true ->
  is_DBOSWorkflowConflictIDError e = false ->
  update_workflow_status failed None None u2 = (Ok tt, u3) ->
  _execute_workflow status func args kwargs w
  = ((Raise e, failed),
     mkWorld (local_ctx w1) u3
       (trace w1 ++ [EvBufferWorkflowStatus succeeded;
                     EvUpdateWorkflowStatus failed None None]))
  /\ ws_status failed = "ERROR"
  /\ ws_output failed = Some (serialize output)
  /\ ws_error failed = Some (serialize (PyExc e)).
Proof.
  intros succeeded failed Hfunc Hbuffer Hexc Hconflict Hupdate.
  unfold _execute_workflow, bind, lift, get_locals, set_locals, ext_call, ret.
  cbn [fst snd]. rewrite Hfunc. cbn [fst snd local_ctx ext trace].
  fold succeeded. rewrite Hbuffer. cbn [fst snd local_ctx ext trace].
  rewrite Hconflict, Hexc. fold failed. rewrite Hupdate.
  rewrite <- app_assoc. repeat split.
Qed.

(** X12. A body that raises an [Exception] other than
    DBOSWorkflowConflictIDError, followed by a status write that raises:
    the caller gets the exception of the write, not the one of the body. *)
Theorem _execute_workflow_write_failure_is_raised
    (w w1 : world U) (e e' : exn) (u2 : U) :
  let failed :=
    set_ws_error (Some (serialize (PyExc e))) (set_ws_status "ERROR" status) in
  func args kwargs w = (Raise e, w1) ->
  is_Exception e = true ->
  is_DBOSWorkflowConflictIDError e = false ->
  update_workflow_status failed None None (ext w1) = (Raise e', u2) ->
  _execute_workflow status func args kwargs w
  = ((Raise e', failed),
     mkWorld (local_ctx w1) u2
       (trace w1 ++ [EvUpdateWorkflowStatus failed None None])).
Proof.
  intros failed Hfunc Hexc Hconflict Hupdate.
  unfold _execute_workflow, bind, lift, get_locals, set_locals, ext_call, ret.
  cbn [fst snd]. rewrite Hfunc. cbn [fst snd local_ctx ext trace].
  rewrite Hconflict, Hexc. fold failed. rewrite Hupdate. reflexivity.
Qed.

End WorkflowOutcomes.

(** *** Initialisation of a workflow *)

Section WorkflowInitialisation.

Context {U : Type}
  `{!Utils, !SystemDatabase U, !ContextModule U, !Registrations, !DBOSRuntime U}.

Variable ctx : DBOSContext.
Variable inputs : WorkflowInputs.
Variable wf_name' : string.
Variable class_name config_name temp_wf_type : option string.

(** The inputs as they are persisted: without the first argument when the
    workflow belongs to a class. *)
Definition persisted_inputs : WorkflowInputs :=
  match class_name with
  | Some _ => mkInputs (tail (wi_args inputs)) (wi_kwargs inputs)
  | None => inputs
  end.

(** X13. Initialisation of a workflow that is not a single-transaction
    workflow writes the status row, PENDING and without output or error,
    under the context's workflow id or else the id assigned for the next
    workflow, and then the inputs row under the same id.  When the status
    write raises, the inputs are not written. *)
Theorem _init_workflow_writes_status_before_inputs (w : world U) :
  py_opt_str_eqb temp_wf_type "transaction" = false ->
  exists st,
    ws_workflow_uuid st = init_wfid ctx
    /\ ws_status st = "PENDING" /\ ws_output st = None /\ ws_error st = None
    /\ ws_name st = wf_name' /\ ws_class_name st = class_name
    /\ ws_config_name st = config_name
    /\ let write := EvUpdateWorkflowStatus st (Some false) (Some (in_recovery ctx)) in
       let write_inputs :=
         EvUpdateWorkflowInputs (init_wfid ctx) (serialize_inputs persisted_inputs) in
       (forall u1 u2,
          update_workflow_status st (Some false) (Some (in_recovery ctx)) (ext w)
            = (Ok tt, u1) ->
          update_workflow_inputs (init_wfid ctx) (serialize_inputs persisted_inputs) u1
            = (Ok tt, u2) ->
          _init_workflow ctx inputs wf_name' class_name config_name temp_wf_type w
          = (Ok st, mkWorld (local_ctx w) u2 (trace w ++ [write; write_inputs])))
       /\ (forall e u1,
             update_workflow_status st (Some false) (Some (in_recovery ctx)) (ext w)
               = (Raise e, u1) ->
             _init_workflow ctx inputs wf_name' class_name config_name temp_wf_type w
             = (Raise e, mkWorld (local_ctx w) u1 (trace w ++ [write]))).
Proof.
  intros Htemp. unfold _init_workflow. rewrite Htemp. cbn [negb].
  fold (init_wfid ctx). fold persisted_inputs.
  match goal with
  | |- context [EvUpdateWorkflowStatus ?st (Some false)] => exists st
  end.
  do 7 (split; [reflexivity|]).
  split.
  - intros u1 u2 Hstatus Hinputs.
    unfold bind, ext_call, ret. rewrite Hstatus. cbn [local_ctx ext trace].
    rewrite Hinputs. cbn. rewrite <- app_assoc. reflexivity.
  - intros e u1 Hstatus.
    unfold bind, ext_call, ret. rewrite Hstatus. reflexivity.
Qed.

(** X14. Initialisation of a single-transaction workflow writes no status
    row: its one call buffers the inputs. *)
Theorem _init_workflow_transaction_buffers_inputs (w : world U) (u1 : U) :
  temp_wf_type = Some "transaction" ->
  buffer_workflow_inputs (init_wfid ctx) (serialize_inputs persisted_inputs) (ext w)
    = (Ok tt, u1) ->
  let '(r, w') :=
    _init_workflow ctx inputs wf_name' class_name config_name temp_wf_type w in
  trace w'
  = trace w ++ [EvBufferWorkflowInputs (init_wfid ctx)
                  (serialize_inputs persisted_inputs)]
  /\ status_writes (trace w') = status_writes (trace w)
  /\ exists st, r = Ok st /\ ws_status st = "PENDING"
                /\ ws_workflow_uuid st = init_wfid ctx.
Proof.
  intros -> Hbuffer. unfold _init_workflow.
  cbn [py_opt_str_eqb]. rewrite String.eqb_refl. cbn [negb].
  fold (init_wfid ctx). fold persisted_inputs.
  unfold bind, ext_call, ret. rewrite Hbuffer. cbn [local_ctx ext trace].
  split; [reflexivity|].
  split; [unfold status_writes; rewrite List.filter_app; cbn; apply app_nil_r|].
  eexists. repeat split.
Qed.

End WorkflowInitialisation.

(** The part of [_start_workflow] that follows the choice of the new
    context: assignment of the id, initialisation, submission. *)
Ltac start_tail :=
  cbn [fst snd local_ctx ext trace];
  unfold bind at 1; cbv beta; cbn [fst snd local_ctx ext trace];
  match goal with
  | |- context [assign_workflow_id ?x ?u] =>
      destruct (assign_workflow_id x u) as [? ?];
      cbn [fst local_ctx ext trace id_assigned_for_next_workflow
           set_id_assigned_for_next_workflow]
  end;
  unfold bind at 1;
  match goal with
  | |- context [_init_workflow ?x ?i ?n ?cl ?cf ?t ?w2] =>
      let Hinit := fresh "Hinit" in
      pose proof (_init_workflow_events x i n cl cf t w2) as Hinit;
      destruct (_init_workflow x i n cl cf t w2) as [[?|?] ?];
      destruct Hinit as (? & _ & ? & ? & ? & ?)
  end;
  repeat match goal with
         | H : local_ctx _ = local_ctx _ |- _ => cbn [local_ctx ext trace] in H
         | H : trace _ = trace _ ++ _ |- _ => cbn [local_ctx ext trace] in H
         end;
  match goal with
  | Hlocal : local_ctx _ = _,
    Htr : trace _ = _ ++ ?tr,
    Hsubmit : forall wfid nm, ~ In (EvExecutorSubmit wfid nm) ?tr |- _ =>
      first
      [ unfold bind, ext_call, ret;
        match goal with
        | |- context [executor_submit ?a ?b ?c ?d ?e ?u] =>
            destruct (executor_submit a b c d e u) as [[?|?] ?]
        end;
        cbn [local_ctx ext trace];
        (split; [first [exact Hlocal | congruence]|]);
        (split; [let Hh := fresh "Hh" in
                 intros ? Hh; first [discriminate Hh | injection Hh as <-];
                 reflexivity|]);
        (eexists (tr ++ [EvExecutorSubmit _ _]);
         split; [rewrite Htr, <- app_assoc; reflexivity|]);
        (split;
         [let Hin := fresh "Hin" in
          intros ? ? Hin; apply in_app_or in Hin as [Hin|Hin];
          [destruct (Hsubmit _ _ Hin) | in_events Hin; reflexivity]
         |let Hin := fresh "Hin" in
          intros ? ? ? Hin; apply in_app_or in Hin as [Hin|Hin];
          [eauto | in_events Hin]])
      | split; [first [exact Hlocal | congruence]|]; split; [discriminate|];
        exists tr; split; [exact Htr|];
        split; [let Hin := fresh "Hin" in
                intros ? ? Hin; destruct (Hsubmit _ _ Hin)|];
        eauto ]
  end.

(** *** Starting a workflow *)

Section WorkflowStart.

Context {U : Type}
  `{!Utils, !SystemDatabase U, !ContextModule U, !Registrations, !DBOSRuntime U}.

Variable func : Workflow.
Variable args : args_t.
Variable kwargs : kwargs_t.

(** X15. [_start_workflow] refuses, before it touches anything, a function
    that has no registration info, with DBOSWorkflowFunctionNotFoundError
    under the id "<NONE>", and a call from inside a step or transaction of
    a workflow, with an AssertionError: the caller's function_id is not
    incremented, nothing is written and nothing is submitted. *)
Theorem _start_workflow_refusals (w : world U) :
  (get_func_info func = None ->
   _start_workflow func args kwargs w
   = (Raise (DBOSWorkflowFunctionNotFoundError "<NONE>"
               ("start_workflow: function " +:+ wf_name func +:+
                " is not registered")), w))
  /\ (forall fi c,
        get_func_info func = Some fi ->
        local_ctx w = Some c ->
        is_within_workflow c = true ->
        is_workflow c = false ->
        _start_workflow func args kwargs w = (Raise (AssertionError ""), w)).
Proof.
  split.
  - intros Hfi. unfold _start_workflow. rewrite Hfi. reflexivity.
  - intros fi c Hfi Hctx Hwithin Hstep.
    unfold _start_workflow. rewrite Hfi.
    unfold bind, get_local_dbos_context. rewrite Hctx, Hwithin, Hstep.
    reflexivity.
Qed.

(** The caller's context as [_start_workflow] prepares it inside a
    workflow: function_id incremented, and a child id reserved unless an id
    is assigned already. *)
Definition reserve_child_id (c : DBOSContext) : DBOSContext :=
  let c := set_function_id (function_id c + 1) c in
  if (Z.of_nat (String.length (id_assigned_for_next_workflow c)) =? 0)
  then set_id_assigned_for_next_workflow
         (workflow_id c +:+ "-" +:+ py_str_int (function_id c)) c
  else c.

(** The context the new workflow's context is derived from. *)
Definition start_parent (cur : option DBOSContext) : option DBOSContext :=
  match cur with
  | Some c => if is_within_workflow c then Some (reserve_child_id c) else Some c
  | None => None
  end.

(** The new workflow's context, before its id is assigned. *)
Definition start_context (cur : option DBOSContext) : DBOSContext :=
  match start_parent cur with
  | Some p => fst (create_child p)
  | None => new_context
  end.

(** Whatever the caller's context, short of the two refusals: the id of the
    new workflow is what [assign_workflow_id] returns for the new context;
    the handle and the submission carry it; the caller's context is what
    [create_child] left of the prepared one. *)
Lemma _start_workflow_assigned_id (w : world U) (fi : DBOSFuncInfo) :
  get_func_info func = Some fi ->
  (forall c, local_ctx w = Some c -> is_within_workflow c = true ->
             is_workflow c = true) ->
  let new_wf_id := fst (assign_workflow_id (start_context (local_ctx w)) (ext w)) in
  let '(r, w') := _start_workflow func args kwargs w in
  local_ctx w' = (fun p => snd (create_child p)) <$> start_parent (local_ctx w)
  /\ (forall h, r = Ok h -> get_workflow_id h = new_wf_id)
  /\ exists tr,
       trace w' = trace w ++ tr
       /\ (forall wfid nm, In (EvExecutorSubmit wfid nm) tr -> wfid = new_wf_id)
       /\ (forall st a b, In (EvUpdateWorkflowStatus st a b) tr ->
             ws_workflow_uuid st
             = init_wfid (set_id_assigned_for_next_workflow new_wf_id
                            (start_context (local_ctx w)))).
Proof.
  intros Hfi Hguard new_wf_id. subst new_wf_id.
  unfold _start_workflow. rewrite Hfi.
  unfold bind at 1. unfold get_local_dbos_context.
  unfold start_context, start_parent.
  destruct (local_ctx w) as [c|] eqn:Hctx;
    cbn [fst snd local_ctx ext trace fmap option_fmap option_map].
  - destruct (is_within_workflow c) eqn:Hwithin;
      cbn [fst snd local_ctx ext trace fmap option_fmap option_map].
    + rewrite (Hguard c eq_refl Hwithin).
      fold (reserve_child_id c).
      unfold bind at 1. unfold bind at 1. unfold set_local_ctx at 1.
      unfold ret at 1. unfold bind at 1.
      destruct (create_child (reserve_child_id c)) as [child p'] eqn:Hcreate.
      unfold bind at 1. unfold set_local_ctx at 1. unfold ret at 1.
      start_tail.
    + unfold bind at 1. unfold ret at 1. unfold bind at 1.
      destruct (create_child c) as [child p'] eqn:Hcreate.
      unfold bind at 1. unfold set_local_ctx at 1. unfold ret at 1.
      start_tail.
  - unfold bind at 1. unfold ret at 1. unfold bind at 1. unfold ret at 1.
    start_tail.
Qed.

(** X16. [_start_workflow] in a workflow context that already has an id
    assigned for the next workflow (by SetWorkflowID): the new workflow gets
    that id, not one derived from the caller's, and the caller's function_id
    is incremented all the same. *)
Theorem _start_workflow_explicit_id
    (w : world U) (fi : DBOSFuncInfo) (c : DBOSContext) :
  child_inherits_reserved_id ->
  create_child_keeps_function_id ->
  reserved_id_is_assigned ->
  get_func_info func = Some fi ->
  local_ctx w = Some c ->
  is_within_workflow c = true ->
  is_workflow c = true ->
  id_assigned_for_next_workflow c <> "" ->
  let '(r, w') := _start_workflow func args kwargs w in
  (function_id <$> local_ctx w') = Some (function_id c + 1)
  /\ (forall h, r = Ok h -> get_workflow_id h = id_assigned_for_next_workflow c)
  /\ exists tr,
       trace w' = trace w ++ tr
       /\ forall wfid nm, In (EvExecutorSubmit wfid nm) tr ->
                          wfid = id_assigned_for_next_workflow c.
Proof.
  intros Hinherit Hkeep Hassign Hfi Hctx Hwithin Hwf Hid.
  pose proof (_start_workflow_assigned_id w fi Hfi) as Hstart.
  cbv zeta in Hstart. rewrite Hctx in Hstart.
  specialize (Hstart ltac:(intros c' [= <-] _; exact Hwf)).
  unfold start_context, start_parent in Hstart. rewrite Hwithin in Hstart.
  assert (Hreserve : reserve_child_id c = set_function_id (function_id c + 1) c).
  { unfold reserve_child_id. cbn [set_function_id id_assigned_for_next_workflow].
    destruct (id_assigned_for_next_workflow c) as [|a s]; [congruence|reflexivity]. }
  rewrite Hreserve in Hstart.
  set (p := set_function_id (function_id c + 1) c) in *.
  assert (Hnew : fst (assign_workflow_id (fst (create_child p)) (ext w))
                 = id_assigned_for_next_workflow c).
  { rewrite Hassign; rewrite (Hinherit p); [reflexivity|exact Hid]. }
  rewrite Hnew in Hstart.
  destruct (_start_workflow func args kwargs w) as [r w'].
  destruct Hstart as (Hlocal & Hhandle & tr & Htr & Hsubmit & _).
  split; [rewrite Hlocal; cbn; rewrite (Hkeep p); reflexivity|].
  split; [exact Hhandle|]. exists tr. split; assumption.
Qed.

(** X17. [_start_workflow] outside any workflow: with no context at all the
    new context is a fresh one and the thread stays without context; with a
    context that is not inside a workflow the new context is its child and
    its function_id is not incremented.  In both cases the id of the new
    workflow is the one [assign_workflow_id] gives the new context. *)
Theorem _start_workflow_outside_workflow (w : world U) (fi : DBOSFuncInfo) :
  get_func_info func = Some fi ->
  (local_ctx w = None ->
   let '(r, w') := _start_workflow func args kwargs w in
   local_ctx w' = None
   /\ forall h, r = Ok h ->
                get_workflow_id h = fst (assign_workflow_id new_context (ext w)))
  /\ (forall c,
        local_ctx w = Some c ->
        is_within_workflow c = false ->
        create_child_keeps_function_id ->
        let '(r, w') := _start_workflow func args kwargs w in
        (function_id <$> local_ctx w') = Some (function_id c)
        /\ forall h, r = Ok h ->
                     get_workflow_id h
                     = fst (assign_workflow_id (fst (create_child c)) (ext w))).
Proof.
  intros Hfi. split.
  - intros Hctx.
    pose proof (_start_workflow_assigned_id w fi Hfi) as Hstart.
    cbv zeta in Hstart. rewrite Hctx in Hstart.
    specialize (Hstart ltac:(intros c' [=])).
    destruct (_start_workflow func args kwargs w) as [r w'].
    destruct Hstart as (Hlocal & Hhandle & _). split; assumption.
  - intros c Hctx Hwithin Hkeep.
    pose proof (_start_workflow_assigned_id w fi Hfi) as Hstart.
    cbv zeta in Hstart. rewrite Hctx in Hstart.
    specialize (Hstart ltac:(intros c' [= <-] Hc; congruence)).
    unfold start_context, start_parent in Hstart. rewrite Hwithin in Hstart.
    destruct (_start_workflow func args kwargs w) as [r w'].
    destruct Hstart as (Hlocal & Hhandle & _).
    split; [rewrite Hlocal; cbn; rewrite (Hkeep c); reflexivity|exact Hhandle].
Qed.

End WorkflowStart.
(** *** The inputs persisted for a workflow *)

Section WorkflowInputsPersisted.

Context {U : Type}
  `{!Utils, !SystemDatabase U, !ContextModule U, !Registrations, !DBOSRuntime U}.

(** An inputs row, written or buffered. *)
Definition inputs_row (s : string) (tr : list event) : Prop :=
  exists wfid,
    In (EvUpdateWorkflowInputs wfid s) tr \/ In (EvBufferWorkflowInputs wfid s) tr.

(** [_init_workflow] writes no inputs but [persisted_inputs], and has
    written them when it returns. *)
Lemma _init_workflow_inputs_events (ctx : DBOSContext) (inputs : WorkflowInputs)
    (name : string) (cls cfg tmp : option string) (w : world U) :
  let '(r, w') := _init_workflow ctx inputs name cls cfg tmp w in
  exists tr,
    trace w' = trace w ++ tr
    /\ (forall s, inputs_row s tr ->
                  s = serialize_inputs (persisted_inputs inputs cls))
    /\ (forall st, r = Ok st ->
                   inputs_row (serialize_inputs (persisted_inputs inputs cls)) tr).
Proof.
  unfold _init_workflow. fold (init_wfid ctx). fold (persisted_inputs inputs cls).
  set (status := mkStatus _ _ _ _ _ _ _ _ _ _ _ _ _ _ _).
  unfold bind, ext_call, ret, inputs_row.
  destruct (negb (py_opt_str_eqb tmp "transaction")).
  - destruct (update_workflow_status _ _ _ _) as [[[]|e] u1];
      cbn [local_ctx ext trace];
      [destruct (update_workflow_inputs _ _ _) as [[[]|e] u2]|];
      cbn [local_ctx ext trace];
      (eexists; split; [rewrite <- ?app_assoc; reflexivity|]);
      (split; [intros s [wfid [Hin|Hin]]; in_events Hin; reflexivity|]);
      intros st Hst; try discriminate Hst;
      exists (init_wfid ctx); left; cbn; auto.
  - destruct (buffer_workflow_inputs _ _ _) as [[[]|e] u1];
      cbn [local_ctx ext trace];
      (eexists; split; [rewrite <- ?app_assoc; reflexivity|]);
      (split; [intros s [wfid [Hin|Hin]]; in_events Hin; reflexivity|]);
      intros st Hst; try discriminate Hst;
      exists (init_wfid ctx); right; cbn; auto.
Qed.

Variable func : Workflow.
Variable args : args_t.
Variable kwargs : kwargs_t.

(** The arguments the class and config names are read from. *)
Definition gin_args : args_t :=
  match wf_self func with
  | Some self => [self]
  | None => args
  end.

Ltac inputs_tail :=
  cbn [fst snd local_ctx ext trace];
  unfold bind at 1; cbv beta; cbn [fst snd local_ctx ext trace];
  match goal with
  | |- context [assign_workflow_id ?x ?u] =>
      destruct (assign_workflow_id x u) as [? ?];
      cbn [fst local_ctx ext trace id_assigned_for_next_workflow
           set_id_assigned_for_next_workflow]
  end;
  unfold bind at 1;
  match goal with
  | |- context [_init_workflow ?x ?i ?n ?cl ?cf ?t ?w2] =>
      let Hinit := fresh "Hinit" in
      pose proof (_init_workflow_inputs_events x i n cl cf t w2) as Hinit;
      destruct (_init_workflow x i n cl cf t w2) as [[?|?] ?];
      destruct Hinit as (? & ? & ? & ?)
  end;
  repeat match goal with
         | H : trace _ = trace _ ++ _ |- _ => cbn [local_ctx ext trace] in H
         end;
  match goal with
  | Htr : trace _ = _ ++ ?tr,
    Honly : forall s, inputs_row s ?tr -> s = _,
    Hdone : forall st, _ = Ok st -> inputs_row _ ?tr |- _ =>
      first
      [ unfold bind, ext_call, ret;
        match goal with
        | |- context [executor_submit ?a ?b ?c ?d ?e ?u] =>
            destruct (executor_submit a b c d e u) as [[?|?] ?]
        end;
        cbn [local_ctx ext trace];
        (eexists (tr ++ [EvExecutorSubmit _ _]);
         split; [rewrite Htr, <- app_assoc; reflexivity|]);
        (split;
         [let Hin := fresh "Hin" in
          intros ? [? [Hin|Hin]]; apply in_app_or in Hin as [Hin|Hin];
          [apply Honly; eexists; left; exact Hin | in_events Hin
          |apply Honly; eexists; right; exact Hin | in_events Hin]
         |let Hh := fresh "Hh" in
          intros ? Hh; try discriminate Hh;
          destruct (Hdone _ eq_refl) as [? [?|?]];
          eexists; first [left; apply in_or_app; left; eassumption
                         |right; apply in_or_app; left; eassumption]])
      | exists tr; split; [exact Htr|]; split; [exact Honly|discriminate] ]
  end.

(** Whatever the caller's context, short of the two refusals: the only
    inputs [_start_workflow] writes are [persisted_inputs] of its arguments,
    under the class name read from [gin_args]; they are written when it
    returns a handle. *)
Lemma _start_workflow_persisted_inputs (w : world U) (fi : DBOSFuncInfo) :
  get_func_info func = Some fi ->
  (forall c, local_ctx w = Some c -> is_within_workflow c = true ->
             is_workflow c = true) ->
  let stored :=
    serialize_inputs
      (persisted_inputs (mkInputs args kwargs)
         (get_dbos_class_name fi (orig_func func) gin_args)) in
  let '(r, w') := _start_workflow func args kwargs w in
  exists tr,
    trace w' = trace w ++ tr
    /\ (forall s, inputs_row s tr -> s = stored)
    /\ (forall h, r = Ok h -> inputs_row stored tr).
Proof.
  intros Hfi Hguard stored. subst stored.
  unfold _start_workflow. rewrite Hfi. fold gin_args.
  unfold bind at 1. unfold get_local_dbos_context.
  destruct (local_ctx w) as [c|] eqn:Hctx;
    cbn [fst snd local_ctx ext trace].
  - destruct (is_within_workflow c) eqn:Hwithin;
      cbn [fst snd local_ctx ext trace].
    + rewrite (Hguard c eq_refl Hwithin).
      unfold bind at 1. unfold bind at 1. unfold set_local_ctx at 1.
      unfold ret at 1. unfold bind at 1.
      match goal with
      | |- context [create_child ?p] =>
          destruct (create_child p) as [child p'] eqn:Hcreate
      end.
      unfold bind at 1. unfold set_local_ctx at 1. unfold ret at 1.
      inputs_tail.
    + unfold bind at 1. unfold ret at 1. unfold bind at 1.
      destruct (create_child c) as [child p'] eqn:Hcreate.
      unfold bind at 1. unfold set_local_ctx at 1. unfold ret at 1.
      inputs_tail.
  - unfold bind at 1. unfold ret at 1. unfold bind at 1. unfold ret at 1.
    inputs_tail.
Qed.

(** X18. For a workflow that has a class name, the inputs [_start_workflow]
    persists are its positional arguments without the first.  The class name
    is read from the instance alone when the function is a bound method, so
    there the first of [args], which is not the instance, is what is left
    out.  No other inputs are written, and these are written when a handle
    is returned. *)
Theorem _start_workflow_class_inputs_omit_first_argument
    (w : world U) (fi : DBOSFuncInfo) (class_name : string) :
  get_func_info func = Some fi ->
  (forall c, local_ctx w = Some c -> is_within_workflow c = true ->
             is_workflow c = true) ->
  get_dbos_class_name fi (orig_func func) gin_args = Some class_name ->
  let stored := serialize_inputs (mkInputs (tail args) kwargs) in
  let '(r, w') := _start_workflow func args kwargs w in
  exists tr,
    trace w' = trace w ++ tr
    /\ (forall s, inputs_row s tr -> s = stored)
    /\ (forall h, r = Ok h -> inputs_row stored tr).
Proof.
  intros Hfi Hguard Hclass stored.
  pose proof (_start_workflow_persisted_inputs w fi Hfi Hguard) as Hstart.
  cbv zeta in Hstart. rewrite Hclass in Hstart. exact Hstart.
Qed.

End WorkflowInputsPersisted.
(** *** Recovery of a workflow under its id *)

Section WorkflowRecovery.

Context {U : Type}
  `{!Utils, !SystemDatabase U, !ContextModule U, !Registrations, !DBOSRuntime U}.



Variable dbosreg : DBOSRegistry.



(** The object recovery puts in front of the stored arguments: the
    registered instance when the row names a config, else the registered
    class when it names a class, else nothing. *)
Definition recovery_target (st : WorkflowStatusInternal)
  : option (option pyobj) :=
  match ws_config_name st with
  | Some config_name =>
      Some <$> instance_info_map dbosreg
                 !! (py_str_opt (ws_class_name st) +:+ "/" +:+ config_name)
  | None =>
      match ws_class_name st with
      | Some class_name => Some <$> class_info_map dbosreg !! class_name
      | None => Some None
      end
  end.

Definition recovery_args (target : option pyobj) (inputs : WorkflowInputs)
  : args_t :=
  match target with
  | Some t => t :: wi_args inputs
  | None => wi_args inputs
  end.

(** X20. Round trip of the inputs through recovery.  When the registered
    function is a plain function and has a class name exactly when recovery
    puts an instance or class in front of the stored arguments, the inputs
    recovery writes are the stored inputs again, serialized: the object put
    in front is not persisted, and no stored argument is lost. *)
Theorem _execute_workflow_id_writes_back_inputs
    (wfid : string) (w : world U) (st : WorkflowStatusInternal)
    (inputs : WorkflowInputs) (u1 u2 : U) (wf_func : Workflow)
    (fi : DBOSFuncInfo) (ctx c : DBOSContext) (target : option pyobj) :
  get_workflow_status wfid (ext w) = (Ok (Some st), u1) ->
  get_workflow_inputs wfid u1 = (Ok (Some inputs), u2) ->
  workflow_info_map dbosreg !! ws_name st = Some wf_func ->
  get_func_info wf_func = Some fi ->
  recovery_target st = Some target ->
  scope_enter DBOSContextEnsure (local_ctx w) = Ok ctx ->
  scope_enter (SetWorkflowID wfid)
    (Some (set_request (deserialize <$> ws_request st) ctx)) = Ok c ->
  is_within_workflow c = false ->
  wf_self wf_func = None ->
  (is_Some target
   <-> is_Some (get_dbos_class_name fi (orig_func wf_func)
                  (recovery_args target inputs))) ->
  let '(r, w') := _execute_workflow_id dbosreg wfid w in
  exists tr,
    trace w'
    = trace w ++ [EvGetWorkflowStatus wfid; EvGetWorkflowInputs wfid] ++ tr
    /\ (forall s, inputs_row s tr -> s = serialize_inputs inputs)
    /\ (forall h, r = Ok h -> inputs_row (serialize_inputs inputs) tr).
Proof.
  intros Hstatus Hinputs Hwf Hfi Htarget Hensure Henter Hwithin Hself Hclass.
  unfold _execute_workflow_id.
  unfold bind at 1. unfold ext_call at 1. rewrite Hstatus.
  unfold bind at 1. unfold ext_call at 1. cbn [local_ctx ext trace].
  rewrite Hinputs, Hwf.
  unfold with_scope at 1. cbn [local_ctx ext trace]. rewrite Hensure.
  unfold bind at 1. unfold set_local_ctx at 1. cbn [local_ctx ext trace].
  assert (Hrequest :
            match ws_request st with
            | Some r => Some (deserialize r)
            | None => None
            end = deserialize <$> ws_request st)
    by (destruct (ws_request st); reflexivity).
  rewrite Hrequest.
  assert (Hrun :
    let '(r, w') :=
      with_scope (SetWorkflowID wfid)
        (fun _ => _start_workflow wf_func (recovery_args target inputs)
                    (wi_kwargs inputs))
        (mkWorld (Some (set_request (deserialize <$> ws_request st) ctx)) u2
           ((trace w ++ [EvGetWorkflowStatus wfid]) ++ [EvGetWorkflowInputs wfid])) in
    exists tr,
      trace w'
      = trace w ++ [EvGetWorkflowStatus wfid; EvGetWorkflowInputs wfid] ++ tr
      /\ (forall s, inputs_row s tr -> s = serialize_inputs inputs)
      /\ (forall h, r = Ok h -> inputs_row (serialize_inputs inputs) tr)).
  { unfold with_scope. cbn [local_ctx ext trace]. rewrite Henter.
    match goal with
    | |- context [_start_workflow ?f ?a ?kw ?w2] =>
        pose proof (_start_workflow_persisted_inputs f a kw w2 fi Hfi) as Hstart;
          cbv zeta in Hstart; cbn [local_ctx ext trace] in Hstart;
          specialize (Hstart ltac:(intros c' [= <-] Hc; congruence));
          destruct (_start_workflow f a kw w2) as [r w1]
    end.
    unfold gin_args in Hstart. rewrite Hself in Hstart.
    assert (Hsame :
              persisted_inputs
                (mkInputs (recovery_args target inputs) (wi_kwargs inputs))
                (get_dbos_class_name fi (orig_func wf_func)
                   (recovery_args target inputs))
              = inputs).
    { unfold persisted_inputs. cbn [wi_args wi_kwargs].
      destruct (get_dbos_class_name _ _ _) as [cn|];
        destruct target as [t|]; cbn [recovery_args tail].
      - destruct inputs; reflexivity.
      - destruct Hclass as [_ Hc]. destruct (Hc ltac:(eexists; reflexivity)) as [? [=]].
      - destruct Hclass as [Hc _]. destruct (Hc ltac:(eexists; reflexivity)) as [? [=]].
      - destruct inputs; reflexivity. }
    rewrite Hsame in Hstart.
    destruct Hstart as (tr & Htr & Hrest). cbn [local_ctx ext trace].
    exists tr. split; [rewrite Htr; rewrite <- !app_assoc; reflexivity|exact Hrest]. }
  unfold recovery_target in Htarget.
  destruct (ws_config_name st) as [config_name|].
  - destruct (instance_info_map dbosreg !! _) as [instance|]; [|discriminate].
    injection Htarget as <-. cbn [recovery_args] in Hrun.
    destruct (with_scope _ _ _) as [r w1]. cbn [local_ctx ext trace]. exact Hrun.
  - destruct (ws_class_name st) as [class_name|].
    + destruct (class_info_map dbosreg !! _) as [cls|]; [|discriminate].
      injection Htarget as <-. cbn [recovery_args] in Hrun.
      destruct (with_scope _ _ _) as [r w1]. cbn [local_ctx ext trace]. exact Hrun.
    + injection Htarget as <-. cbn [recovery_args] in Hrun.
      destruct (with_scope _ _ _) as [r w1]. cbn [local_ctx ext trace]. exact Hrun.
Qed.

End WorkflowRecovery.

(** ** Coordination primitives *)

Section CoordinationProperties.

Context {U : Type} `{!SystemDatabase U, !ContextModule U}.

(** What the claim takes from the step scope of the context module, which
    is not part of core.py: entered from a workflow context it yields that
    context with function_id one more and that id as the current step's;
    leaving it keeps function_id. *)
Definition step_scope_reserves_one_id : Prop :=
  forall attributes c,
    is_workflow c = true ->
    exists c1,
      scope_enter (EnterDBOSStep attributes) (Some c) = Ok c1
      /\ function_id c1 = function_id c + 1
      /\ curr_step_function_id c1 = function_id c + 1
      /\ workflow_id c1 = workflow_id c.

Definition step_scope_exit_keeps_function_id : Prop :=
  forall attributes c,
    exists c',
      scope_exit (EnterDBOSStep attributes) (Some c) = Some c'
      /\ function_id c' = function_id c.

(** C8. In a workflow context with function_id [n], [_recv] and
    [_get_event] each make one call to the system database, giving it
    [n + 1] for the operation and [n + 2] for the timeout, and leave
    function_id at [n + 2].  [_get_event] with no context, or with a context
    that is not inside a workflow, makes the same call with no caller
    context, and leaves the current context as it was. *)
Theorem timed_waits_reserve_two_function_ids
    (topic : option string) (wfid key : string) (timeout_seconds : float)
    (w : world U) :
  step_scope_reserves_one_id ->
  step_scope_exit_keeps_function_id ->
  (forall c,
     local_ctx w = Some c ->
     is_workflow c = true ->
     let '(_, w') := _recv topic timeout_seconds w in
     trace w'
     = trace w ++ [EvSysRecv (workflow_id c) (function_id c + 1)
                     (function_id c + 2) topic timeout_seconds]
     /\ (function_id <$> local_ctx w') = Some (function_id c + 2))
  /\ (forall c,
        local_ctx w = Some c ->
        is_within_workflow c = true ->
        is_workflow c = true ->
        let '(_, w') := _get_event wfid key timeout_seconds w in
        trace w'
        = trace w ++ [EvSysGetEvent wfid key timeout_seconds
                        (Some (mkGetEventCtx (workflow_id c) (function_id c + 1)
                                 (function_id c + 2)))]
        /\ (function_id <$> local_ctx w') = Some (function_id c + 2))
  /\ ((local_ctx w = None
       \/ exists c, local_ctx w = Some c /\ is_within_workflow c = false) ->
      let '(r, w') := _get_event wfid key timeout_seconds w in
      trace w' = trace w ++ [EvSysGetEvent wfid key timeout_seconds None]
      /\ local_ctx w' = local_ctx w
      /\ (r, ext w') = sys_get_event wfid key timeout_seconds None (ext w)).
Proof.
  intros Henter Hexit. split; [|split].
  - intros c Hctx Hwf.
    unfold _recv, bind, get_local_dbos_context. rewrite Hctx, Hwf.
    unfold with_scope. cbn [local_ctx ext trace]. rewrite ?Hctx.
    destruct (Henter (mkAttrs "recv" None) c Hwf) as (c1 & -> & Hfid & Hstep & Hid).
    unfold incr_function_id, ext_call. cbn [local_ctx ext trace].
    change (function_id (set_function_id (function_id c1 + 1) c1))
      with (function_id c1 + 1).
    destruct (sys_recv _ _ _ _ _ _) as [r u1]. cbn [local_ctx ext trace].
    rewrite Hstep, Hid, Hfid.
    replace (function_id c + 1 + 1) with (function_id c + 2) by lia.
    split; [reflexivity|].
    destruct (Hexit (mkAttrs "recv" None) (set_function_id (function_id c + 2) c1))
      as (c' & -> & Hkeep).
    cbn. rewrite Hkeep. reflexivity.
  - intros c Hctx Hwithin Hwf.
    unfold _get_event, bind, get_local_dbos_context. rewrite Hctx, Hwithin, Hwf.
    unfold with_scope. cbn [local_ctx ext trace]. rewrite ?Hctx.
    destruct (Henter (mkAttrs "get_event" None) c Hwf)
      as (c1 & -> & Hfid & Hstep & Hid).
    unfold incr_function_id, ext_call. cbn [local_ctx ext trace].
    change (function_id (set_function_id (function_id c1 + 1) c1))
      with (function_id c1 + 1).
    destruct (sys_get_event _ _ _ _ _) as [r u1]. cbn [local_ctx ext trace].
    rewrite Hstep, Hid, Hfid.
    replace (function_id c + 1 + 1) with (function_id c + 2) by lia.
    split; [reflexivity|].
    destruct (Hexit (mkAttrs "get_event" None)
                (set_function_id (function_id c + 2) c1))
      as (c' & -> & Hkeep).
    cbn. rewrite Hkeep. reflexivity.
  - intros Houtside.
    unfold _get_event, bind, get_local_dbos_context.
    destruct Houtside as [Hnone|(c & Hctx & Hout)].
    + rewrite Hnone. unfold ext_call.
      destruct (sys_get_event _ _ _ _ _) as [r u1]. cbn.
      rewrite Hnone. repeat split.
    + rewrite Hctx, Hout. unfold ext_call.
      destruct (sys_get_event _ _ _ _ _) as [r u1]. cbn.
      rewrite Hctx. repeat split.
Qed.

End CoordinationProperties.
(** *** Where the timed waits may be called from *)

Section CoordinationRefusals.

Context {U : Type} `{!SystemDatabase U, !ContextModule U}.

(** X21. [_recv] without a context raises a DBOSException, and with a
    context that is not a workflow's own (a step, a transaction, or no
    workflow at all) an AssertionError.  [_get_event] raises the
    AssertionError only inside a step or transaction of a workflow.  Each
    refusal comes before anything else: no function id is reserved and the
    system database is not called. *)
Theorem timed_waits_refusals
    (topic : option string) (wfid key : string) (timeout_seconds : float)
    (w : world U) :
  (local_ctx w = None ->
   _recv topic timeout_seconds w
   = (Raise (DBOSException "recv() must be called from within a workflow"), w))
  /\ (forall c,
        local_ctx w = Some c ->
        is_workflow c = false ->
        _recv topic timeout_seconds w
        = (Raise (AssertionError "recv() must be called from within a workflow"),
           w))
  /\ (forall c,
        local_ctx w = Some c ->
        is_within_workflow c = true ->
        is_workflow c = false ->
        _get_event wfid key timeout_seconds w
        = (Raise (AssertionError
                    "get_event() must be called from within a workflow"), w)).
Proof.
  unfold _recv, _get_event, bind, get_local_dbos_context.
  split; [|split].
  - intros ->. reflexivity.
  - intros c -> ->. reflexivity.
  - intros c -> -> ->. reflexivity.
Qed.

End CoordinationRefusals.

(** *** The workflow engine on concrete inputs *)

Definition pending (wfid name : string) : WorkflowStatusInternal :=
  mkStatus wfid "PENDING" name None None None None "" "" "local"
    None None None None None.

(** Scenario S1: a workflow body of two steps, which adds what they return. *)
Definition two_steps : args_t -> kwargs_t -> M Bench.state pyobj :=
  fun _ _ =>
    a <- invoke_step Bench.launched false 1%float 3 2%float (Bench.scripted "S1") [] [] ;;
    b <- invoke_step Bench.launched false 1%float 3 2%float (Bench.scripted "S2") [] [] ;;
    match a, b with
    | PyInt x, PyInt y => ret (PyInt (x + y))
    | _, _ => raise (TypeError "unsupported operand")
    end.

Definition steps_return_10_20 : world Bench.state :=
  Bench.in_workflow "wf" 0 (Bench.with_script [Ok (PyInt 10); Ok (PyInt 20)] Bench.empty_state).

Definition second_step_fails : world Bench.state :=
  Bench.in_workflow "wf" 0
    (Bench.with_script [Ok (PyInt 10); Raise (UserError "boom")] Bench.empty_state).

Lemma _execute_workflow_records_terminal_status_witness :
  (let '((r, status), w') :=
     _execute_workflow (pending "wf" "W") two_steps [] [] steps_return_10_20 in
   r = Ok (PyInt 30)
   /\ ws_status status = "SUCCESS" /\ ws_output status = Some "int:30"
   /\ status_writes (trace w') = [EvBufferWorkflowStatus status]
   /\ operation_records (trace w')
      = [mkOpResult "wf" 1 (Some "int:10") None;
         mkOpResult "wf" 2 (Some "int:20") None])
  /\ (let '((r, status), w') :=
        _execute_workflow (pending "wf" "W") two_steps [] [] second_step_fails in
      r = Raise (UserError "boom")
      /\ ws_status status = "ERROR"
      /\ ws_error status = Some "exc:UserError:boom"
      /\ status_writes (trace w') = [EvUpdateWorkflowStatus status None None]).
Proof.
  split.
  - destruct (_execute_workflow_records_terminal_status (pending "wf" "W")
                two_steps [] [] steps_return_10_20) as [Hok _].
    assert (Hbody : two_steps [] [] steps_return_10_20
                    = (Ok (PyInt 30), snd (two_steps [] [] steps_return_10_20)))
      by (vm_compute; reflexivity).
    set (status' := set_ws_output (Some (serialize (PyInt 30)))
                      (set_ws_status "SUCCESS" (pending "wf" "W"))).
    set (w1 := snd (two_steps [] [] steps_return_10_20)) in *.
    assert (Hwrite : buffer_workflow_status status' (ext w1)
                     = (Ok tt, snd (buffer_workflow_status status' (ext w1))))
      by (vm_compute; reflexivity).
    destruct (Hok _ _ _ Hbody Hwrite) as (-> & _ & _ & _).
    vm_compute. repeat split.
  - destruct (_execute_workflow_records_terminal_status (pending "wf" "W")
                two_steps [] [] second_step_fails) as [_ Herr].
    assert (Hbody : two_steps [] [] second_step_fails
                    = (Raise (UserError "boom"),
                       snd (two_steps [] [] second_step_fails)))
      by (vm_compute; reflexivity).
    set (status' := set_ws_error (Some (serialize (PyExc (UserError "boom"))))
                      (set_ws_status "ERROR" (pending "wf" "W"))).
    set (w1 := snd (two_steps [] [] second_step_fails)) in *.
    assert (Hwrite : update_workflow_status status' None None (ext w1)
                     = (Ok tt, snd (update_workflow_status status' None None (ext w1))))
      by (vm_compute; reflexivity).
    destruct (Herr _ _ _ Hbody eq_refl eq_refl Hwrite) as (-> & _ & _).
    vm_compute. repeat split.
Defined.

(** The claim C6 read for any exception: a body that raises a
    KeyboardInterrupt, which is not an [Exception], leaves the status at
    PENDING without error, and no status is written. *)
Lemma _execute_workflow_interrupt_leaves_pending :
  let '((r, status), w') :=
    _execute_workflow (pending "wf" "W") (fun _ _ => raise KeyboardInterrupt) [] []
      (Bench.in_workflow "wf" 0 Bench.empty_state) in
  r = Raise KeyboardInterrupt
  /\ ws_status status = "PENDING"
  /\ ws_error status = None
  /\ status_writes (trace w') = [].
Proof. vm_compute. repeat split. Qed.

(** Another executor already completed workflow "wf" with output "done";
    here its body hits the id conflict. *)
Definition completed_elsewhere : world Bench.state :=
  Bench.in_workflow "wf" 0
    (Bench.with_workflow_status
       {[ "wf" := set_ws_output (Some "str:done")
                    (set_ws_status "SUCCESS" (pending "wf" "W")) ]}
       Bench.empty_state).

Definition hits_conflict : args_t -> kwargs_t -> M Bench.state pyobj :=
  fun _ _ => raise (DBOSWorkflowConflictIDError "wf").

Lemma _execute_workflow_conflict_awaits_existing_witness :
  let '((r, status), w') :=
    _execute_workflow (pending "wf" "W") hits_conflict [] [] completed_elsewhere in
  r = Ok (PyStr "done")
  /\ status = pending "wf" "W"
  /\ trace w' = [EvRetrieveWorkflow "wf" false; EvAwaitWorkflowResult "wf"].
Proof.
  pose proof
    (_execute_workflow_conflict_awaits_existing (pending "wf" "W") hits_conflict
       [] [] completed_elsewhere completed_elsewhere
       (DBOSWorkflowConflictIDError "wf") (WorkflowHandlePolling "wf")
       (ext completed_elsewhere) eq_refl eq_refl eq_refl) as H.
  cbv beta zeta in H.
  destruct (_execute_workflow _ _ _ _ _) as [[r status] w'].
  destruct H as (Hst & _ & _ & Hpoll).
  destruct (Hpoll eq_refl) as [Hr Htr].
  split; [rewrite Hr; vm_compute; reflexivity|].
  split; [exact Hst|exact Htr].
Defined.

Lemma bench_child_inherits_reserved_id : child_inherits_reserved_id (U := Bench.state).
Proof. intros p. reflexivity. Defined.

Lemma bench_create_child_keeps_function_id :
  create_child_keeps_function_id (U := Bench.state).
Proof. intros p. reflexivity. Defined.

Lemma bench_reserved_id_is_assigned : reserved_id_is_assigned (U := Bench.state).
Proof.
  intros x u Hx. cbn.
  destruct (String.eqb_spec (id_assigned_for_next_workflow x) ""); [contradiction|].
  reflexivity.
Defined.

(** Scenario S3: workflow "p1" starts a child as its first operation. *)
Lemma _start_workflow_child_id_witness :
  let '(r, w') :=
    _start_workflow (mkWorkflow "C" None) [PyInt 5] []
      (Bench.in_workflow "p1" 0 Bench.empty_state) in
  (function_id <$> local_ctx w') = Some 1
  /\ match r with
     | Ok h => get_workflow_id h = "p1-1"
     | Raise _ => False
     end.
Proof.
  pose proof
    (_start_workflow_child_id (mkWorkflow "C" None) [PyInt 5] []
       (Bench.in_workflow "p1" 0 Bench.empty_state) tt
       (Bench.workflow_context "p1" 0)
       bench_child_inherits_reserved_id bench_create_child_keeps_function_id
       bench_reserved_id_is_assigned eq_refl eq_refl eq_refl eq_refl eq_refl) as H.
  cbv beta zeta in H.
  destruct (_start_workflow _ _ _ _) as [r w'] eqn:E.
  destruct H as (Hfid & Hid & _).
  split; [exact Hfid|].
  vm_compute in E. injection E as <- _. exact (Hid _ eq_refl).
Defined.

(** *** Recovery on concrete inputs *)

(** A status row and an inputs row for workflow "wf", whose function "Gone"
    is in no registry. *)
Definition rows_of_unknown_function : world Bench.state :=
  mkWorld None
    (Bench.with_workflow_inputs {[ "wf" := mkInputs [PyInt 5] [] ]}
       (Bench.with_workflow_status {[ "wf" := pending "wf" "Gone" ]}
          Bench.empty_state)) [].

Lemma _execute_workflow_id_errors_witness :
  (let '(r, w') :=
     _execute_workflow_id Bench.launched "nope" rows_of_unknown_function in
   r = Raise (DBOSRecoveryError "nope" "Workflow status not found")
   /\ trace w' = [EvGetWorkflowStatus "nope"])
  /\ (let '(r, w') :=
        _execute_workflow_id Bench.launched "wf" rows_of_unknown_function in
      r = Raise (DBOSWorkflowFunctionNotFoundError "wf" "Workflow function not found")
      /\ trace w' = [EvGetWorkflowStatus "wf"; EvGetWorkflowInputs "wf"]).
Proof.
  split.
  - pose proof (_execute_workflow_id_errors Bench.launched "nope"
                  rows_of_unknown_function) as H.
    destruct (_execute_workflow_id _ _ _) as [r w'].
    destruct H as [Hstatus _].
    exact (Hstatus (ext rows_of_unknown_function) eq_refl).
  - pose proof (_execute_workflow_id_errors Bench.launched "wf"
                  rows_of_unknown_function) as H.
    destruct (_execute_workflow_id _ _ _) as [r w'].
    destruct H as [_ Hrows].
    destruct (Hrows (pending "wf" "Gone") (ext rows_of_unknown_function) eq_refl)
      as [_ Hfunc].
    destruct (Hfunc (mkInputs [PyInt 5] []) (ext rows_of_unknown_function) eq_refl)
      as [Hmissing _].
    exact (Hmissing eq_refl).
Defined.

(** *** Timed waits on concrete inputs *)

Lemma bench_step_scope_reserves_one_id :
  step_scope_reserves_one_id (U := Bench.state).
Proof. intros attributes c _. eexists. repeat split. Defined.

Lemma bench_step_scope_exit_keeps_function_id :
  step_scope_exit_keeps_function_id (U := Bench.state).
Proof. intros attributes c. eexists. split; reflexivity. Defined.

Lemma timed_waits_reserve_two_function_ids_witness :
  (let '(_, w') :=
     _recv (Some "t") 60%float (Bench.in_workflow "wf" 3 Bench.empty_state) in
   trace w' = [EvSysRecv "wf" 4 5 (Some "t") 60%float]
   /\ (function_id <$> local_ctx w') = Some 5)
  /\ (let '(_, w') :=
        _get_event "other" "k" 60%float (Bench.in_workflow "wf" 3 Bench.empty_state) in
      trace w'
      = [EvSysGetEvent "other" "k" 60%float (Some (mkGetEventCtx "wf" 4 5))]
      /\ (function_id <$> local_ctx w') = Some 5)
  /\ (let '(_, w') :=
        _get_event "other" "k" 60%float (mkWorld None Bench.empty_state []) in
      trace w' = [EvSysGetEvent "other" "k" 60%float None]
      /\ local_ctx w' = None).
Proof.
  destruct (timed_waits_reserve_two_function_ids (Some "t") "other" "k" 60%float
              (Bench.in_workflow "wf" 3 Bench.empty_state)
              bench_step_scope_reserves_one_id
              bench_step_scope_exit_keeps_function_id) as (Hrecv & Hget & _).
  destruct (timed_waits_reserve_two_function_ids (Some "t") "other" "k" 60%float
              (mkWorld None Bench.empty_state [])
              bench_step_scope_reserves_one_id
              bench_step_scope_exit_keeps_function_id) as (_ & _ & Hout).
  specialize (Hrecv (Bench.workflow_context "wf" 3) eq_refl eq_refl).
  specialize (Hget (Bench.workflow_context "wf" 3) eq_refl eq_refl eq_refl).
  specialize (Hout (or_introl eq_refl)).
  split; [exact Hrecv|]. split; [exact Hget|].
  destruct (_get_event _ _ _ _) as [r w']. destruct Hout as (Ht & Hc & _).
  split; [exact Ht|exact Hc].
Defined.

(** *** First executions on concrete inputs *)

(** A system database whose writes can be made to raise. *)
Definition faulty_system_database (fail_record fail_update fail_buffer : option exn)
  : SystemDatabase Bench.state := {|
  check_operation_execution := check_operation_execution;
  record_operation_result := fun r u =>
    match fail_record with
    | Some e => (Raise e, u)
    | None => record_operation_result r u
    end;
  update_workflow_status := fun st a b u =>
    match fail_update with
    | Some e => (Raise e, u)
    | None => update_workflow_status st a b u
    end;
  buffer_workflow_status := fun st u =>
    match fail_buffer with
    | Some e => (Raise e, u)
    | None => buffer_workflow_status st u
    end;
  update_workflow_inputs := update_workflow_inputs;
  buffer_workflow_inputs := buffer_workflow_inputs;
  get_workflow_status := get_workflow_status;
  get_workflow_inputs := get_workflow_inputs;
  await_workflow_result := await_workflow_result;
  sys_recv := sys_recv;
  sys_get_event := sys_get_event
|}.

Definition step_context : DBOSContext :=
  Bench.set_step 1 1 (Bench.workflow_context "wf" 0).

(** The first attempt fails, the second returns 7. *)
Definition fails_once : world Bench.state :=
  Bench.in_workflow "wf" 0
    (Bench.with_script [Raise (UserError "boom"); Ok (PyInt 7)] Bench.empty_state).

Lemma invoke_step_returns_after_failures_witness :
  let '(r, w') :=
    invoke_step Bench.launched true 1%float 3 2%float (Bench.scripted "s") [] []
      fails_once in
  r = Ok (PyInt 7)
  /\ calls (trace w') = 2%nat
  /\ sleeps (trace w') = [1%float]
  /\ operation_records (trace w') = [mkOpResult "wf" 1 (Some "int:7") None].
Proof.
  set (u1 := ext fails_once).
  set (u2 := Bench.with_script [Ok (PyInt 7)] Bench.empty_state).
  set (u3 := Bench.with_script [] Bench.empty_state).
  assert (Hfail : attempts_fail 2%float (Bench.scripted "s") [] [] 1 1%float u1
                    (next_interval 2%float 1%float) u2).
  { apply (attempts_fail_S _ _ _ _ 0 1%float u1 (UserError "boom") u2
             (next_interval 2%float 1%float) u2);
      [reflexivity | reflexivity | reflexivity | apply attempts_fail_O]. }
  pose proof
    (invoke_step_returns_after_failures Bench.launched 1%float 3 2%float
       (Bench.scripted "s") [] [] true fails_once DBOS_object step_context
       1 (next_interval 2%float 1%float) u1 u2 u3
       (snd (record_operation_result
               (mkOpResult "wf" 1 (Some "int:7") None) u3))
       (PyInt 7) eq_refl eq_refl eq_refl Hfail eq_refl ltac:(cbn; lia) eq_refl) as H.
  cbv beta zeta in H.
  destruct (invoke_step _ _ _ _ _ _ _ _ _) as [r w'].
  destruct H as (Hr & Hc & Hs & Ho & _).
  split; [exact Hr|]. split; [exact Hc|]. split; [exact Hs|exact Ho].
Defined.

Definition interrupted : Function Bench.state := Bench.failing "s" KeyboardInterrupt.

Lemma invoke_step_base_exception_propagates_witness :
  let '(r, w') :=
    invoke_step Bench.launched true 1%float 3 2%float interrupted [] []
      (Bench.in_workflow "wf" 0 Bench.empty_state) in
  r = Raise KeyboardInterrupt
  /\ trace w' = [EvCheckOperationExecution "wf" 1; EvCall "s" [] []].
Proof.
  pose proof
    (invoke_step_base_exception_propagates Bench.launched 1%float 3 2%float
       interrupted [] [] true (Bench.in_workflow "wf" 0 Bench.empty_state)
       DBOS_object step_context KeyboardInterrupt Bench.empty_state
       Bench.empty_state eq_refl eq_refl eq_refl ltac:(cbn; lia) eq_refl eq_refl)
    as H.
  cbv beta zeta in H.
  destruct (invoke_step _ _ _ _ _ _ _ _ _) as [r w'].
  destruct H as (Hr & Ht & _). split; [exact Hr|exact Ht].
Defined.

(** The body returns 7, and the write of its record fails. *)
Lemma invoke_step_record_failure_is_raised_witness :
  let '(r, w') :=
    invoke_step
      (SystemDatabase0 :=
         faulty_system_database (Some (Exception "connection lost")) None None)
      Bench.launched false 1%float 3 2%float (Bench.scripted "s") [] []
      (Bench.in_workflow "wf" 0 (Bench.with_script [Ok (PyInt 7)] Bench.empty_state)) in
  r = Raise (Exception "connection lost") /\ calls (trace w') = 1%nat.
Proof.
  pose proof
    (invoke_step_record_failure_is_raised
       (SystemDatabase0 :=
          faulty_system_database (Some (Exception "connection lost")) None None)
       Bench.launched 1%float 3 2%float (Bench.scripted "s") [] [] false
       (Bench.in_workflow "wf" 0 (Bench.with_script [Ok (PyInt 7)] Bench.empty_state))
       DBOS_object step_context (Exception "connection lost")
       (Bench.with_script [Ok (PyInt 7)] Bench.empty_state)
       (Bench.with_script [] Bench.empty_state)
       (Bench.with_script [] Bench.empty_state)
       (PyInt 7) eq_refl eq_refl eq_refl ltac:(cbn; lia) eq_refl eq_refl) as H.
  cbv beta zeta in H.
  destruct (invoke_step _ _ _ _ _ _ _ _ _) as [r w'].
  destruct H as (Hr & Hc & _). split; [exact Hr|exact Hc].
Defined.




(** *** First executions of a transaction on concrete inputs *)

Definition returns_7 : Bench.state :=
  Bench.with_script [Ok (PyInt 7)] Bench.empty_state.

Definition script_used_up : Bench.state := Bench.with_script [] Bench.empty_state.

Definition first_row : TransactionResultInternal :=
  mkTxResult "wf" 1 None None "" None None.

Lemma bench_pass_reaches_body (ctx : DBOSContext) (u : Bench.state) :
  Bench.transaction_outputs u !! (workflow_id ctx, function_id ctx) = None ->
  pass_reaches_body "SERIALIZABLE" 1%positive ctx u u.
Proof.
  intros Hnone. exists u, u. split; [reflexivity|]. split; [reflexivity|].
  cbn. rewrite Hnone. reflexivity.
Defined.

Lemma tx_loop_commits_output_with_body_witness :
  let '(r, s') :=
    tx_loop "SERIALIZABLE" (Bench.scripted "t") 1 1%positive first_transaction
      [] [] initial_retry_wait_seconds (first_pass returns_7) in
  r = Ok (Some (FlowBreak (PyInt 7)))
  /\ trace (snd s')
     = [EvSessionBegin; EvSessionConnection "SERIALIZABLE";
        EvCheckTransactionExecution "wf" 1; EvCall "t" [] [];
        EvRecordTransactionOutput
          (mkTxResult "wf" 1 (Some "int:7") None "" None None);
        EvSessionCommit].
Proof.
  set (written := snd (record_transaction_output 1%positive
                         (set_txn_output_output (Some "int:7") first_row)
                         script_used_up)).
  pose proof
    (tx_loop_commits_output_with_body "SERIALIZABLE" (Bench.scripted "t")
       1%positive first_transaction [] [] 0 initial_retry_wait_seconds
       (mkTxLocals first_row false) (mkWorld (Some first_transaction) returns_7 [])
       1%positive (PyInt 7) returns_7 script_used_up written written
       (bench_pass_reaches_body first_transaction returns_7 eq_refl)
       eq_refl eq_refl eq_refl eq_refl) as H.
  cbv beta zeta in H. unfold first_pass. fold first_row. rewrite H.
  split; reflexivity.
Defined.

Definition raises (e : exn) : Bench.state := Bench.with_script [Raise e] Bench.empty_state.

Lemma tx_loop_records_error_after_rollback_witness :
  let '(r, s') :=
    tx_loop "SERIALIZABLE" (Bench.scripted "t") 1 1%positive first_transaction
      [] [] initial_retry_wait_seconds (first_pass (raises (UserError "boom"))) in
  r = Raise (UserError "boom")
  /\ trace (snd s')
     = [EvSessionBegin; EvSessionConnection "SERIALIZABLE";
        EvCheckTransactionExecution "wf" 1; EvCall "t" [] [];
        EvSessionRollback;
        EvRecordTransactionError
          (mkTxResult "wf" 1 None (Some "exc:UserError:boom") "" None None)].
Proof.
  set (written := snd (record_transaction_error
                         (set_txn_output_error (Some "exc:UserError:boom") first_row)
                         script_used_up)).
  pose proof
    (tx_loop_records_error_after_rollback "SERIALIZABLE" (Bench.scripted "t")
       1%positive first_transaction [] [] 0 initial_retry_wait_seconds
       (mkTxLocals first_row false)
       (mkWorld (Some first_transaction) (raises (UserError "boom")) [])
       (UserError "boom") (raises (UserError "boom")) script_used_up
       script_used_up written
       (bench_pass_reaches_body first_transaction (raises (UserError "boom")) eq_refl)
       eq_refl eq_refl eq_refl eq_refl eq_refl) as H.
  cbv beta zeta in H. unfold first_pass. fold first_row. rewrite H.
  split; reflexivity.
Defined.

(** A unique-key violation, SQLSTATE 23505, is raised without a row. *)
Lemma tx_loop_does_not_record_database_errors_witness :
  let '(r, s') :=
    tx_loop "SERIALIZABLE" (Bench.scripted "t") 1 1%positive first_transaction
      [] [] initial_retry_wait_seconds (first_pass (raises (DBAPIError "23505"))) in
  r = Raise (DBAPIError "23505")
  /\ transaction_error_records (trace (snd s')) = []
  /\ sleeps (trace (snd s')) = [].
Proof.
  assert (Hkind :
            (exists sqlstate,
               dbapi_sqlstate (DBAPIError "23505") = Some sqlstate
               /\ sqlstate <> "40001")
            \/ (dbapi_sqlstate (DBAPIError "23505") = None
                /\ is_Exception (DBAPIError "23505") = false)).
  { left. exists "23505". split; [reflexivity|]. intros Heq. discriminate Heq. }
  pose proof
    (tx_loop_does_not_record_database_errors "SERIALIZABLE" (Bench.scripted "t")
       1%positive first_transaction [] [] 0 initial_retry_wait_seconds
       (mkTxLocals first_row false)
       (mkWorld (Some first_transaction) (raises (DBAPIError "23505")) [])
       (DBAPIError "23505") (raises (DBAPIError "23505")) script_used_up
       script_used_up
       (bench_pass_reaches_body first_transaction (raises (DBAPIError "23505")) eq_refl)
       eq_refl Hkind eq_refl) as H.
  cbv beta zeta in H. unfold first_pass. fold first_row. rewrite H.
  split; [reflexivity|]. split; reflexivity.
Defined.

(** A transaction context that holds no session: the body returns 7, the
    write of the output row cannot be made, and the error row written after
    the rollback holds the 7 next to the AssertionError. *)
Lemma tx_loop_error_row_keeps_output_witness :
  let ctx := Bench.workflow_context "wf" 1 in
  let '(r, s') :=
    tx_loop "SERIALIZABLE" (Bench.scripted "t") 1 1%positive ctx
      [] [] initial_retry_wait_seconds
      (mkTxLocals first_row false, mkWorld (Some ctx) returns_7 []) in
  r = Raise (AssertionError "Cannot find a database connection")
  /\ transaction_error_records (trace (snd s'))
     = [mkTxResult "wf" 1 (Some "int:7") (Some "exc:Exception") "" None None].
Proof.
  intros ctx.
  set (e := AssertionError "Cannot find a database connection").
  set (row := set_txn_output_error (Some (serialize (PyExc e)))
                (set_txn_output_output (Some "int:7") first_row)).
  set (written := snd (record_transaction_error row script_used_up)).
  pose proof
    (tx_loop_error_row_keeps_output "SERIALIZABLE" (Bench.scripted "t")
       1%positive ctx [] [] 0 initial_retry_wait_seconds
       (mkTxLocals first_row false) (mkWorld (Some ctx) returns_7 [])
       None (PyInt 7) e returns_7 script_used_up script_used_up script_used_up
       written
       (bench_pass_reaches_body ctx returns_7 eq_refl)
       eq_refl eq_refl (conj eq_refl eq_refl) eq_refl eq_refl eq_refl eq_refl) as H.
  cbv beta zeta in H.
  destruct (tx_loop _ _ _ _ _ _ _ _ _) as [r [l' w']].
  destruct H as (Hr & Hrows & _). split; [exact Hr|exact Hrows].
Defined.

(** *** Outcomes of a workflow on concrete inputs *)

Definition lost : exn := Exception "connection lost".

Definition interrupted_body : args_t -> kwargs_t -> M Bench.state pyobj :=
  fun _ _ => raise KeyboardInterrupt.

Definition returns_7_body : args_t -> kwargs_t -> M Bench.state pyobj :=
  fun _ _ => ret (PyInt 7).

Definition boom_body : args_t -> kwargs_t -> M Bench.state pyobj :=
  fun _ _ => raise (UserError "boom").

Definition idle : world Bench.state := Bench.in_workflow "wf" 0 Bench.empty_state.

Lemma _execute_workflow_base_exception_not_recorded_witness :
  _execute_workflow (pending "wf" "W") interrupted_body [] [] idle
  = ((Raise KeyboardInterrupt, pending "wf" "W"), idle).
Proof.
  exact (_execute_workflow_base_exception_not_recorded (pending "wf" "W")
           interrupted_body [] [] idle idle KeyboardInterrupt eq_refl eq_refl).
Defined.

Lemma _execute_workflow_buffer_failure_is_an_error_witness :
  let '((r, st), w') :=
    _execute_workflow
      (SystemDatabase0 := faulty_system_database None None (Some lost))
      (pending "wf" "W") returns_7_body [] [] idle in
  r = Raise lost
  /\ ws_status st = "ERROR"
  /\ ws_output st = Some "int:7"
  /\ ws_error st = Some "exc:Exception".
Proof.
  set (succeeded := set_ws_output (Some (serialize (PyInt 7)))
                      (set_ws_status "SUCCESS" (pending "wf" "W"))).
  set (failed := set_ws_error (Some (serialize (PyExc lost)))
                   (set_ws_status "ERROR" succeeded)).
  set (db := faulty_system_database None None (Some lost)).
  assert (Hupdate :
            update_workflow_status (SystemDatabase := db) failed None None
              Bench.empty_state
            = (Ok tt,
               snd (update_workflow_status (SystemDatabase := db) failed None None
                      Bench.empty_state)))
    by (vm_compute; reflexivity).
  destruct
    (_execute_workflow_buffer_failure_is_an_error (SystemDatabase0 := db)
       (pending "wf" "W") returns_7_body [] [] idle idle (PyInt 7) lost
       Bench.empty_state
       (snd (update_workflow_status (SystemDatabase := db) failed None None
               Bench.empty_state))
       eq_refl eq_refl eq_refl eq_refl Hupdate) as (Hrun & Hst & Hout & Herr).
  rewrite Hrun.
  split; [reflexivity|]. split; [exact Hst|].
  split; [rewrite Hout|rewrite Herr]; vm_compute; reflexivity.
Defined.

Lemma _execute_workflow_write_failure_is_raised_witness :
  let '((r, st), w') :=
    _execute_workflow
      (SystemDatabase0 := faulty_system_database None (Some lost) None)
      (pending "wf" "W") boom_body [] [] idle in
  r = Raise lost /\ ws_error st = Some "exc:UserError:boom".
Proof.
  rewrite
    (_execute_workflow_write_failure_is_raised
       (SystemDatabase0 := faulty_system_database None (Some lost) None)
       (pending "wf" "W") boom_body [] [] idle idle (UserError "boom") lost
       Bench.empty_state eq_refl eq_refl eq_refl eq_refl).
  split; reflexivity.
Defined.

(** *** Initialisation on concrete inputs *)

(** The context of a new workflow that was given the id "wf". *)
Definition reserved_wf : DBOSContext :=
  set_id_assigned_for_next_workflow "wf" Bench.fresh_context.

Definition no_context_yet : world Bench.state := mkWorld None Bench.empty_state [].

Lemma _init_workflow_writes_status_before_inputs_witness :
  let '(r, w') :=
    _init_workflow reserved_wf (mkInputs [PyInt 5] []) "W" None None None
      no_context_yet in
  exists st,
    r = Ok st
    /\ ws_workflow_uuid st = "wf"
    /\ ws_status st = "PENDING"
    /\ trace w'
       = [EvUpdateWorkflowStatus st (Some false) (Some false);
          EvUpdateWorkflowInputs "wf" "inputs:1"].
Proof.
  destruct
    (_init_workflow_writes_status_before_inputs reserved_wf (mkInputs [PyInt 5] [])
       "W" None None None no_context_yet eq_refl)
    as (st & Hid & Hstatus & _ & _ & _ & _ & _ & Hok & _).
  set (u1 := Bench.with_workflow_status
               (<[ws_workflow_uuid st := st]> (Bench.workflow_status Bench.empty_state))
               Bench.empty_state).
  assert (Hwrite : update_workflow_status st (Some false)
                     (Some (in_recovery reserved_wf)) (ext no_context_yet)
                   = (Ok tt, u1)) by reflexivity.
  assert (Hinputs : update_workflow_inputs (init_wfid reserved_wf)
                      (serialize_inputs
                         (persisted_inputs (mkInputs [PyInt 5] []) None)) u1
                    = (Ok tt, u1)) by reflexivity.
  rewrite (Hok u1 u1 Hwrite Hinputs).
  exists st. split; [reflexivity|]. split; [exact Hid|]. split; [exact Hstatus|].
  reflexivity.
Defined.

Lemma _init_workflow_transaction_buffers_inputs_witness :
  let '(r, w') :=
    _init_workflow reserved_wf (mkInputs [PyInt 5] []) "<temp>.t" None None
      (Some "transaction") no_context_yet in
  trace w' = [EvBufferWorkflowInputs "wf" "inputs:1"]
  /\ status_writes (trace w') = [].
Proof.
  pose proof
    (_init_workflow_transaction_buffers_inputs reserved_wf (mkInputs [PyInt 5] [])
       "<temp>.t" None None (Some "transaction") no_context_yet Bench.empty_state
       eq_refl eq_refl) as H.
  cbv beta zeta in H.
  destruct (_init_workflow _ _ _ _ _ _ _) as [r w'].
  destruct H as (Ht & Hs & _). split; [exact Ht|exact Hs].
Defined.

(** *** Starting a workflow on concrete inputs *)

(** Registrations that know no function. *)
Definition nothing_registered : Registrations := {|
  DBOSFuncInfo := unit;
  get_func_info := fun _ => None;
  orig_func := fun f => f;
  get_dbos_func_name := wf_name;
  get_dbos_class_name := fun _ _ _ => None;
  get_config_name := fun _ _ _ => None;
  get_temp_workflow_type := fun _ => None
|}.

(** Registrations whose functions are methods of class "Cls": the class
    name is read from an object in front of the arguments. *)
Definition methods_of_Cls : Registrations := {|
  DBOSFuncInfo := unit;
  get_func_info := fun _ => Some tt;
  orig_func := fun f => f;
  get_dbos_func_name := wf_name;
  get_dbos_class_name := fun _ _ a =>
    match a with
    | PyRef _ :: _ => Some "Cls"
    | _ => None
    end;
  get_config_name := fun _ _ _ => None;
  get_temp_workflow_type := fun _ => None
|}.

(** Workflow "wf" is inside its first step. *)
Definition inside_step : world Bench.state :=
  mkWorld (Some step_context) Bench.empty_state [].

Lemma _start_workflow_refusals_witness :
  _start_workflow (H0 := nothing_registered) (mkWorkflow "W" None) [] [] idle
  = (Raise (DBOSWorkflowFunctionNotFoundError "<NONE>"
              "start_workflow: function W is not registered"), idle)
  /\ _start_workflow (mkWorkflow "W" None) [] [] inside_step
     = (Raise (AssertionError ""), inside_step).
Proof.
  split.
  - exact (proj1 (_start_workflow_refusals (H0 := nothing_registered)
                    (mkWorkflow "W" None) [] [] idle) eq_refl).
  - exact (proj2 (_start_workflow_refusals (mkWorkflow "W" None) [] [] inside_step)
             tt step_context eq_refl eq_refl eq_refl eq_refl).
Defined.

(** Workflow "p1" starts a workflow for which the id "custom" was set. *)
Definition with_custom_id : DBOSContext :=
  set_id_assigned_for_next_workflow "custom" (Bench.workflow_context "p1" 0).

Lemma _start_workflow_explicit_id_witness :
  let '(r, w') :=
    _start_workflow (mkWorkflow "C" None) [PyInt 5] []
      (mkWorld (Some with_custom_id) Bench.empty_state []) in
  (function_id <$> local_ctx w') = Some 1
  /\ forall h, r = Ok h -> get_workflow_id h = "custom".
Proof.
  assert (Hid : id_assigned_for_next_workflow with_custom_id <> "")
    by (intros Heq; discriminate Heq).
  pose proof
    (_start_workflow_explicit_id (mkWorkflow "C" None) [PyInt 5] []
       (mkWorld (Some with_custom_id) Bench.empty_state []) tt with_custom_id
       bench_child_inherits_reserved_id bench_create_child_keeps_function_id
       bench_reserved_id_is_assigned eq_refl eq_refl eq_refl eq_refl Hid) as H.
  cbv beta zeta in H.
  destruct (_start_workflow _ _ _ _) as [r w'].
  destruct H as (Hfid & Hhandle & _). split; [exact Hfid|exact Hhandle].
Defined.

Lemma _start_workflow_outside_workflow_witness :
  (let '(r, w') := _start_workflow (mkWorkflow "W" None) [] [] no_context_yet in
   local_ctx w' = None /\ forall h, r = Ok h -> get_workflow_id h = "uuid-1")
  /\ (let '(r, w') :=
        _start_workflow (mkWorkflow "W" None) [] []
          (mkWorld (Some Bench.fresh_context) Bench.empty_state []) in
      (function_id <$> local_ctx w') = Some 0
      /\ forall h, r = Ok h -> get_workflow_id h = "uuid-1").
Proof.
  split.
  - destruct (_start_workflow_outside_workflow (H0 := Bench.registrations)
                (mkWorkflow "W" None) [] []
                no_context_yet tt eq_refl) as [Hnone _].
    exact (Hnone eq_refl).
  - destruct (_start_workflow_outside_workflow (H0 := Bench.registrations)
                (mkWorkflow "W" None) [] []
                (mkWorld (Some Bench.fresh_context) Bench.empty_state []) tt eq_refl)
      as [_ Hsome].
    exact (Hsome Bench.fresh_context eq_refl eq_refl
             bench_create_child_keeps_function_id).
Defined.

(** The bound method [obj.m], called with the arguments 1 and 2: the
    inputs persisted hold one argument. *)
Lemma _start_workflow_class_inputs_omit_first_argument_witness :
  let '(r, w') :=
    _start_workflow (H0 := methods_of_Cls) (mkWorkflow "m" (Some (PyRef 1)))
      [PyInt 1; PyInt 2] [] no_context_yet in
  exists tr,
    trace w' = tr
    /\ (forall s, inputs_row s tr -> s = "inputs:1")
    /\ (forall h, r = Ok h -> inputs_row "inputs:1" tr).
Proof.
  exact (_start_workflow_class_inputs_omit_first_argument (H0 := methods_of_Cls)
           (mkWorkflow "m" (Some (PyRef 1))) [PyInt 1; PyInt 2] [] no_context_yet
           tt "Cls" eq_refl ltac:(intros c Hc; discriminate Hc) eq_refl).
Defined.

(** *** Recovery on concrete inputs, continued *)




(** Workflow "wf" is the method "m" of the instance registered as
    "Cls/cfg"; its inputs row holds the one argument 2. *)
Definition registry_of_m : DBOSRegistry :=
  mkRegistry (Some DBOS_object) {[ "m" := mkWorkflow "m" None ]} ∅
    {[ "Cls/cfg" := PyRef 1 ]}.

Definition pending_method : WorkflowStatusInternal :=
  mkStatus "wf" "PENDING" "m" (Some "Cls") (Some "cfg") None None "" "" "local"
    None None None None None.

Definition rows_of_m : world Bench.state :=
  mkWorld None
    (Bench.with_workflow_inputs {[ "wf" := mkInputs [PyInt 2] [] ]}
       (Bench.with_workflow_status {[ "wf" := pending_method ]}
          Bench.empty_state)) [].

Lemma _execute_workflow_id_writes_back_inputs_witness :
  let '(r, w') :=
    _execute_workflow_id (H0 := methods_of_Cls) registry_of_m "wf" rows_of_m in
  exists tr,
    trace w' = [EvGetWorkflowStatus "wf"; EvGetWorkflowInputs "wf"] ++ tr
    /\ (forall s, inputs_row s tr -> s = "inputs:1")
    /\ (forall h, r = Ok h -> inputs_row "inputs:1" tr).
Proof.
  assert (Hclass :
            is_Some (Some (PyRef 1))
            <-> is_Some (get_dbos_class_name (Registrations := methods_of_Cls) tt
                           (mkWorkflow "m" None) [PyRef 1; PyInt 2])).
  { split; intros _; eexists; reflexivity. }
  exact (_execute_workflow_id_writes_back_inputs (H0 := methods_of_Cls)
           registry_of_m "wf" rows_of_m pending_method (mkInputs [PyInt 2] [])
           (ext rows_of_m) (ext rows_of_m) (mkWorkflow "m" None) tt
           Bench.fresh_context reserved_wf (Some (PyRef 1))
           eq_refl eq_refl eq_refl eq_refl eq_refl eq_refl eq_refl eq_refl eq_refl
           Hclass).
Defined.

(** *** Refusals on concrete inputs *)

Lemma timed_waits_refusals_witness :
  _recv None 60%float no_context_yet
  = (Raise (DBOSException "recv() must be called from within a workflow"),
     no_context_yet)
  /\ _recv None 60%float inside_step
     = (Raise (AssertionError "recv() must be called from within a workflow"),
        inside_step)
  /\ _get_event "other" "k" 60%float inside_step
     = (Raise (AssertionError "get_event() must be called from within a workflow"),
        inside_step).
Proof.
  destruct (timed_waits_refusals None "other" "k" 60%float no_context_yet)
    as (Hnone & _ & _).
  destruct (timed_waits_refusals None "other" "k" 60%float inside_step)
    as (_ & Hrecv & Hget).
  split; [exact (Hnone eq_refl)|].
  split; [exact (Hrecv step_context eq_refl eq_refl)|].
  exact (Hget step_context eq_refl eq_refl eq_refl).
Defined.

Definition not_launched : DBOSRegistry := mkRegistry None ∅ ∅ ∅.

Lemma invoke_before_launch_witness :
  invoke_step not_launched true 1%float 3 2%float (Bench.scripted "s") [] [] idle
  = (Raise (DBOSException "Function s invoked before DBOS initialized"), idle)
  /\ invoke_tx not_launched "SERIALIZABLE" (Bench.scripted "t") 5 [] [] idle
     = (Raise (DBOSException "Function t invoked before DBOS initialized"), idle).
Proof.
  split.
  - exact (proj1 (invoke_before_launch not_launched (Bench.scripted "s") [] [] idle
                    eq_refl) true 1%float 3 2%float).
  - exact (proj2 (invoke_before_launch not_launched (Bench.scripted "t") [] [] idle
                    eq_refl) "SERIALIZABLE" 5%nat).
Defined.
